(** * Unified scheduling core of the Google Tasks extension

    A shallow embedding of the TypeScript sources
    - [UnifiedDataMerger.ts]      (merging tasks and calendar events),
    - [DateTimeUtils.ts]          (date conversion and relative labels),
    - [CalendarWebViewProvider.ts] (calendar panel: message handler and the
      click handlers of the embedded page),
    - [ScheduleWebViewProvider.ts] and [commands.ts],
    - [CalendarProvider.ts]       (the range of a month and the body of a
      new event),
    together with the properties of the specification that concern them
    and further properties of the code. *)

From Stdlib Require Import ZArith Lia Ascii String List Permutation Sorted.
From stdpp Require Import base option list gmap strings pretty.

Open Scope string_scope.
Open Scope list_scope.
Open Scope Z_scope.

(** ** JavaScript values used by the sources *)

(** An optional string property ([string | null | undefined]) is an
    [option string]; JavaScript treats the absent value and the empty
    string as false. *)
Definition truthy (o : option string) : bool :=
  match o with
  | Some s => negb (String.eqb s "")
  | None => false
  end.

(** [o || d] for an optional string [o] and a string default [d]. *)
Definition or_default (o : option string) (d : string) : string :=
  match o with
  | Some s => if String.eqb s "" then d else s
  | None => d
  end.

(** [o || undefined]. *)
Definition or_undefined (o : option string) : option string :=
  if truthy o then o else None.

(** An exception value: [message], and the [code] some API errors carry. *)
Record JsError := { name : string; message : string; code : option Z }.

Definition Error (msg : string) : JsError :=
  {| name := "Error"; message := msg; code := None |}.

Definition RangeError (msg : string) : JsError :=
  {| name := "RangeError"; message := msg; code := None |}.

Definition TypeError (msg : string) : JsError :=
  {| name := "TypeError"; message := msg; code := None |}.

(** A computation that returns a value or throws. *)
Inductive result (A : Type) : Type :=
| Ok (a : A)
| Throw (e : JsError).
Arguments Ok {A} a.
Arguments Throw {A} e.

Global Instance result_ret : MRet result := fun A a => Ok a.

Global Instance result_bind : MBind result := fun A B f r =>
  match r with
  | Ok a => f a
  | Throw e => Throw e
  end.

(** [String.prototype.split] with a one-character separator: the pieces
    between the separators, never an empty list. *)
Fixpoint split (sep : ascii) (s : string) : list string :=
  match s with
  | EmptyString => [EmptyString]
  | String c s' =>
      if Ascii.eqb c sep then EmptyString :: split sep s'
      else match split sep s' with
           | piece :: rest => String c piece :: rest
           | [] => [String c EmptyString]
           end
  end.

(** [String.prototype.includes] with a one-character argument. *)
Fixpoint includes_char (c : ascii) (s : string) : bool :=
  match s with
  | EmptyString => false
  | String c' s' => Ascii.eqb c' c || includes_char c s'
  end.

(** [Array.prototype.join]. *)
Fixpoint join (sep : string) (l : list string) : string :=
  match l with
  | [] => ""
  | [s] => s
  | s :: rest => s +:+ sep +:+ join sep rest
  end.

Definition is_digit (c : ascii) : bool :=
  let n := nat_of_ascii c in (48 <=? n)%nat && (n <=? 57)%nat.

(** ** UnifiedDataMerger.ts *)

Module Task.
(** The fields of [tasks_v1.Schema$Task] the sources read. *)
Record t := {
  id : option string;
  title : option string;
  due : option string;
  notes : option string;
  status : option string;
}.
End Task.

Module CalendarEvent.
(** [start] and [end] of an event. *)
Record time := {
  dateTime : option string;
  date : option string;
}.

Record extended := {
  private_ : option (gmap string string);
}.

(** [CalendarEvent] of CalendarProvider.ts.  [start] is declared
    mandatory, but the code guards every access, so it is optional here. *)
Record t := {
  id : option string;
  summary : option string;
  description : option string;
  start : option time;
  recurrence : option (list string);
  extendedProperties : option extended;
}.
End CalendarEvent.

Inductive ItemType := task | calendar.

Global Instance ItemType_eq_dec : EqDecision ItemType.
Proof. solve_decision. Defined.

Module UnifiedItem.
Record source_t := {
  taskListId : option string;
  calendarId : option string;
}.

Record t := {
  id : string;
  type : ItemType;
  title : string;
  dueDate : string;
  dueDateTime : option string;
  description : option string;
  completed : option bool;
  isAllDay : option bool;
  recurring : option string;
  source : source_t;
}.
End UnifiedItem.

(** The test [/^\d{4}-\d{2}-\d{2}$/]. *)
Definition is_date_only (s : string) : bool :=
  match list_ascii_of_string s with
  | [y1; y2; y3; y4; d1; m1; m2; d2; a1; a2] =>
      is_digit y1 && is_digit y2 && is_digit y3 && is_digit y4
      && Ascii.eqb d1 "-" && is_digit m1 && is_digit m2
      && Ascii.eqb d2 "-" && is_digit a1 && is_digit a2
  | _ => false
  end.

Definition extractDate (dateString : string) : string :=
  if is_date_only dateString then dateString
  else if includes_char "T" dateString then hd "" (split "T" dateString)
  else dateString.

(** [event.start?.date], [event.start?.dateTime]. *)
Definition start_date (event : CalendarEvent.t) : option string :=
  match CalendarEvent.start event with
  | Some st => CalendarEvent.date st
  | None => None
  end.

Definition start_dateTime (event : CalendarEvent.t) : option string :=
  match CalendarEvent.start event with
  | Some st => CalendarEvent.dateTime st
  | None => None
  end.

(** [event.extendedProperties?.private?.isTask === 'true']. *)
Definition isTaskEvent (event : CalendarEvent.t) : bool :=
  match CalendarEvent.extendedProperties event with
  | Some ext =>
      match CalendarEvent.private_ ext with
      | Some props => bool_decide (props !! "isTask" = Some "true")
      | None => false
      end
  | None => false
  end.

Definition calendarEventToUnified (event : CalendarEvent.t) (calendarId : string)
  : result UnifiedItem.t :=
  let startDate :=
    if truthy (start_date event) then or_default (start_date event) ""
    else or_default (start_dateTime event) "" in
  let dueDate := extractDate startDate in
  if negb (truthy (CalendarEvent.id event)) then
    Throw (Error "Calendar event must have an ID")
  else
    Ok {| UnifiedItem.id := or_default (CalendarEvent.id event) "";
          UnifiedItem.type := if isTaskEvent event then task else calendar;
          UnifiedItem.title := or_default (CalendarEvent.summary event) "(No title)";
          UnifiedItem.dueDate := dueDate;
          UnifiedItem.dueDateTime := start_dateTime event;
          UnifiedItem.description := CalendarEvent.description event;
          UnifiedItem.completed := None;
          UnifiedItem.isAllDay := Some (truthy (start_date event));
          UnifiedItem.recurring := join ";" <$> CalendarEvent.recurrence event;
          UnifiedItem.source :=
            {| UnifiedItem.taskListId := None;
               UnifiedItem.calendarId := Some calendarId |} |}.

Definition taskToUnified (t : Task.t) (taskListId : string) : UnifiedItem.t :=
  let dueDate := extractDate (or_default (Task.due t) "") in
  {| UnifiedItem.id := or_default (Task.id t) "";
     UnifiedItem.type := task;
     UnifiedItem.title := or_default (Task.title t) "(No title)";
     UnifiedItem.dueDate := dueDate;
     UnifiedItem.dueDateTime := None;
     UnifiedItem.description := or_undefined (Task.notes t);
     UnifiedItem.completed :=
       Some (bool_decide (Task.status t = Some "completed"));
     UnifiedItem.isAllDay := None;
     UnifiedItem.recurring := None;
     UnifiedItem.source :=
       {| UnifiedItem.taskListId := Some taskListId;
          UnifiedItem.calendarId := None |} |}.

(** [Array.prototype.sort] with a comparator.  ECMAScript requires the sort
    to be stable; for a consistent comparator the result is then unique,
    and it is computed here by insertion from the right: an element moves
    past the elements it compares greater than, and stays in front of the
    ones it ties with. *)
Section ArraySort.
Context {A : Type} (comparefn : A -> A -> Z).

Fixpoint sort_insert (x : A) (l : list A) : list A :=
  match l with
  | [] => [x]
  | y :: l' =>
      if 0 <? comparefn x y then y :: sort_insert x l'
      else x :: y :: l'
  end.

Fixpoint Array_sort (l : list A) : list A :=
  match l with
  | [] => []
  | x :: l' => sort_insert x (Array_sort l')
  end.
End ArraySort.

Section Merger.
(** [String.prototype.localeCompare] depends on the host's collation; it
    is a parameter of the merger. *)
Variable localeCompare : string -> string -> Z.

(** The comparator handed to [unified.sort]. *)
Definition compareItems (a b : UnifiedItem.t) : Z :=
  let dateCompare :=
    localeCompare (UnifiedItem.dueDate a) (UnifiedItem.dueDate b) in
  if negb (dateCompare =? 0) then dateCompare
  else if bool_decide (UnifiedItem.type a = task)
          && bool_decide (UnifiedItem.type b = calendar) then -1
  else if bool_decide (UnifiedItem.type a = calendar)
          && bool_decide (UnifiedItem.type b = task) then 1
  else 0.

(** The body of [tasks.forEach]: [unified.push] on the guarded tasks. *)
Definition pushTask (unified : list UnifiedItem.t) (entry : Task.t * string)
  : list UnifiedItem.t :=
  let '(t, taskListId) := entry in
  if truthy (Task.title t) then
    if truthy (Task.due t) then unified ++ [taskToUnified t taskListId]
    else unified
  else unified.

(** The body of [calendarEvents.forEach]. *)
Definition pushEvent (unified : list UnifiedItem.t) (event : CalendarEvent.t)
  : result (list UnifiedItem.t) :=
  if truthy (CalendarEvent.id event) && truthy (CalendarEvent.summary event)
     && bool_decide (is_Some (CalendarEvent.start event)) then
    u ← calendarEventToUnified event "primary";
    Ok (unified ++ [u])
  else Ok unified.

Fixpoint forEach {X} (body : list UnifiedItem.t -> X -> result (list UnifiedItem.t))
    (xs : list X) (unified : list UnifiedItem.t) : result (list UnifiedItem.t) :=
  match xs with
  | [] => Ok unified
  | x :: xs' => unified' ← body unified x; forEach body xs' unified'
  end.

Definition mergeItems (tasks : list (Task.t * string))
    (calendarEvents : list CalendarEvent.t) : result (list UnifiedItem.t) :=
  unified ← forEach (fun u e => Ok (pushTask u e)) tasks [];
  unified ← forEach pushEvent calendarEvents unified;
  Ok (Array_sort compareItems unified).
End Merger.

(** ** The built-in [Date]

    A time value is a number of milliseconds since the epoch, or NaN for an
    invalid date; it is an [option Z] with [None] for NaN.  All the numbers
    the sources compute on dates are integers below 2^53, so [Z] holds them
    exactly. *)

Definition msPerDay : Z := 86400000.
Definition msPerHour : Z := 3600000.
Definition msPerMinute : Z := 60000.

Definition Day (t : Z) : Z := t / msPerDay.
Definition TimeWithinDay (t : Z) : Z := t mod msPerDay.

(** Day number of a date of the proleptic Gregorian calendar, month 1..12. *)
Definition days_from_civil (y m d : Z) : Z :=
  let y' := if m <=? 2 then y - 1 else y in
  let era := y' / 400 in
  let yoe := y' - era * 400 in
  let doy := (153 * (if 2 <? m then m - 3 else m + 9) + 2) / 5 + d - 1 in
  let doe := yoe * 365 + yoe / 4 - yoe / 100 + doy in
  era * 146097 + doe - 719468.

(** Year, month (1..12) and day of the month of a day number. *)
Definition civil_from_days (z : Z) : Z * Z * Z :=
  let z' := z + 719468 in
  let era := z' / 146097 in
  let doe := z' - era * 146097 in
  let yoe := (doe - doe / 1460 + doe / 36524 - doe / 146096) / 365 in
  let doy := doe - (365 * yoe + yoe / 4 - yoe / 100) in
  let mp := (5 * doy + 2) / 153 in
  let d := doy - (153 * mp + 2) / 5 + 1 in
  let m := if mp <? 10 then mp + 3 else mp - 9 in
  (if m <=? 2 then yoe + era * 400 + 1 else yoe + era * 400, m, d).

(** [MakeDay(year, month, date)]: the month is 0-based and may overflow. *)
Definition MakeDay (year month date : Z) : Z :=
  let ym := year + month / 12 in
  let mn := month mod 12 in
  days_from_civil ym (mn + 1) 1 + date - 1.

Definition MakeTime (hour min sec ms : Z) : Z :=
  hour * msPerHour + min * msPerMinute + sec * 1000 + ms.

Definition MakeDate (day time : Z) : Z := day * msPerDay + time.

Definition TimeClip (t : Z) : option Z :=
  if Z.abs t <=? 8640000000000000 then Some t else None.

(** The host's time zone: [LocalTZA tz t isUTC] is the offset of local time
    from UTC, in milliseconds, at the UTC time [t] ([isUTC = true]) or at
    the local time [t] ([isUTC = false]). *)
Record TimeZone := { LocalTZA : Z -> bool -> Z }.

Definition LocalTime (tz : TimeZone) (t : Z) : Z := t + LocalTZA tz t true.
Definition UTC (tz : TimeZone) (t : Z) : Z := t - LocalTZA tz t false.

(** A zone whose offset never changes, [minutes] east of UTC. *)
Definition fixedZone (minutes : Z) : TimeZone :=
  {| LocalTZA := fun _ _ => minutes * msPerMinute |}.

(** New York in 2025: UTC-4 from 9 March 07:00 UTC to 2 November 06:00 UTC,
    UTC-5 otherwise.  A local time that the clocks skip or repeat is read
    with the offset in force before the change. *)
Definition newYork2025 : TimeZone :=
  {| LocalTZA := fun t isUTC =>
       let dstStart := MakeDate (days_from_civil 2025 3 9) (7 * msPerHour) in
       let dstEnd := MakeDate (days_from_civil 2025 11 2) (6 * msPerHour) in
       let inDst :=
         if isUTC then (dstStart <=? t) && (t <? dstEnd)
         else (dstStart - 4 * msPerHour <=? t) && (t <? dstEnd - 4 * msPerHour) in
       if inDst then -4 * msPerHour else -5 * msPerHour |}.

(** [MakeFullYear]: the years 0..99 stand for 1900..1999. *)
Definition MakeFullYear (year : Z) : Z :=
  if (0 <=? year) && (year <=? 99) then 1900 + year else year.

(** [new Date(year, month, day)]: a NaN argument gives an invalid date. *)
Definition Date_ymd (tz : TimeZone) (year month day : option Z) : option Z :=
  match year, month, day with
  | Some y, Some m, Some d =>
      TimeClip (UTC tz (MakeDate (MakeDay (MakeFullYear y) m d) 0))
  | _, _, _ => None
  end.

Definition getFullYear (tz : TimeZone) (t : Z) : Z :=
  fst (fst (civil_from_days (Day (LocalTime tz t)))).

(** 0-based, as in JavaScript. *)
Definition getMonth (tz : TimeZone) (t : Z) : Z :=
  snd (fst (civil_from_days (Day (LocalTime tz t)))) - 1.

Definition getDate (tz : TimeZone) (t : Z) : Z :=
  snd (civil_from_days (Day (LocalTime tz t))).

(** [date.setHours(hours, minutes, seconds, ms)]. *)
Definition setHours (tz : TimeZone) (date : option Z) (h m s ms : Z) : option Z :=
  match date with
  | Some t =>
      TimeClip (UTC tz (MakeDate (Day (LocalTime tz t)) (MakeTime h m s ms)))
  | None => None
  end.

(** [a.getTime() === b.getTime()]: NaN equals nothing. *)
Definition same_time (a b : option Z) : bool :=
  match a, b with
  | Some x, Some y => x =? y
  | _, _ => false
  end.

(** Decimal digits of [n], padded with zeros on the left to [width]. *)
Definition padStart (width : nat) (n : Z) : string :=
  let s := pretty (Z.abs n) in
  String.concat "" (replicate (width - String.length s) "0") +:+ s.

(** [date.toISOString()]: throws a RangeError on an invalid date. *)
Definition toISOString (date : option Z) : result string :=
  match date with
  | None => Throw (RangeError "Invalid time value")
  | Some t =>
      let '(y, m, d) := civil_from_days (Day t) in
      let tod := TimeWithinDay t in
      let year :=
        if (0 <=? y) && (y <=? 9999) then padStart 4 y
        else (if y <? 0 then "-" else "+") +:+ padStart 6 y in
      Ok (year +:+ "-" +:+ padStart 2 m +:+ "-" +:+ padStart 2 d
          +:+ "T" +:+ padStart 2 (tod / msPerHour)
          +:+ ":" +:+ padStart 2 (tod mod msPerHour / msPerMinute)
          +:+ ":" +:+ padStart 2 (tod mod msPerMinute / 1000)
          +:+ "." +:+ padStart 3 (tod mod 1000) +:+ "Z")
  end.

Definition monthShort (m : Z) : string :=
  nth (Z.to_nat (m - 1))
    ["Jan"; "Feb"; "Mar"; "Apr"; "May"; "Jun";
     "Jul"; "Aug"; "Sep"; "Oct"; "Nov"; "Dec"] "".

(** [date.toLocaleDateString('en-US', { month: 'short', day: 'numeric' })]. *)
Definition toLocaleDateString_short (tz : TimeZone) (date : option Z) : string :=
  match date with
  | None => "Invalid Date"
  | Some t =>
      let '(_, m, d) := civil_from_days (Day (LocalTime tz t)) in
      monthShort m +:+ " " +:+ pretty d
  end.

Definition byte_of (c : ascii) : Z := Z.of_nat (nat_of_ascii c).

(** White space that [parseInt] skips, in the UTF-8 encoding of the string:
    tab, LF, VT, FF, CR and space; U+00A0; U+1680, U+2000..U+200A, U+2028,
    U+2029, U+202F, U+205F, U+3000 and U+FEFF. *)
Definition ws1 (c : ascii) : bool :=
  let b := byte_of c in ((9 <=? b) && (b <=? 13)) || (b =? 32).

Definition ws3 (c1 c2 c3 : ascii) : bool :=
  let '(a, b, c) := (byte_of c1, byte_of c2, byte_of c3) in
  ((a =? 225) && (b =? 154) && (c =? 128))
  || ((a =? 226) && (b =? 128)
      && (((128 <=? c) && (c <=? 138)) || (c =? 168) || (c =? 169) || (c =? 175)))
  || ((a =? 226) && (b =? 129) && (c =? 159))
  || ((a =? 227) && (b =? 128) && (c =? 128))
  || ((a =? 239) && (b =? 187) && (c =? 191)).

Fixpoint trimStart (s : string) : string :=
  match s with
  | EmptyString => s
  | String c1 s1 =>
      if ws1 c1 then trimStart s1
      else match s1 with
           | EmptyString => s
           | String c2 s2 =>
               if (byte_of c1 =? 194) && (byte_of c2 =? 160) then trimStart s2
               else match s2 with
                    | EmptyString => s
                    | String c3 s3 => if ws3 c1 c2 c3 then trimStart s3 else s
                    end
           end
  end.

(** The value of the longest prefix of decimal digits, if there is a digit. *)
Fixpoint digits_value (acc : option Z) (s : string) : option Z :=
  match s with
  | EmptyString => acc
  | String c s' =>
      if is_digit c then digits_value (Some (10 * default 0 acc + (byte_of c - 48))) s'
      else acc
  end.

(** [parseInt(s, 10)]; an absent argument reads as NaN. *)
Definition parseInt (o : option string) : option Z :=
  match o with
  | None => None
  | Some s =>
      match trimStart s with
      | String "-" r => Z.opp <$> digits_value None r
      | String "+" r => digits_value None r
      | r => digits_value None r
      end
  end.

(** Two decimal digits, as the date-time string format has them. *)
Definition two_digits (s : string) : option Z :=
  match s with
  | String a (String b EmptyString) =>
      if is_digit a && is_digit b then Some (10 * (byte_of a - 48) + (byte_of b - 48))
      else None
  | _ => None
  end.

Fixpoint all_digits (s : string) : bool :=
  match s with
  | EmptyString => true
  | String c s' => is_digit c && all_digits s'
  end.

(** A number of exactly [n] decimal digits. *)
Definition fixed_number (n : nat) (s : string) : option Z :=
  if (String.length s =? n)%nat && all_digits s then digits_value (Some 0) s
  else None.

(** The number V8 reads in a run of digits: the zeros at its start are
    skipped, and of the digits after them the first nine count. *)
Fixpoint skip_zeros (s : string) : string :=
  match s with
  | EmptyString => s
  | String c s' => if Ascii.eqb c "0" then skip_zeros s' else s
  end.

Fixpoint read_digits (n : Z) (i : nat) (s : string) : Z :=
  match s with
  | EmptyString => n
  | String c s' =>
      read_digits (if (i <? 9)%nat then n * 10 + (byte_of c - 48) else n) (S i) s'
  end.

Definition ReadUnsignedNumeral (s : string) : Z := read_digits 0 0 (skip_zeros s).

(** The milliseconds of the digits after the decimal point.  V8 takes
    more or less than the three digits of the format: one or two digits
    are tenths or hundredths of a second, and of more than three the first
    three count. *)
Definition ReadMilliseconds (frac : string) : Z :=
  let number := ReadUnsignedNumeral frac in
  let len := Z.of_nat (String.length frac) in
  if len <? 3 then
    if len =? 1 then number * 100 else if len =? 2 then number * 10 else number
  else if 3 <? len then number / 10 ^ (Z.min len 9 - 3)
  else number.

(** Hours, minutes and seconds of a time of day; [24:00:00.000] is the end
    of the day, and no other time has the hour 24.  [number] is the number
    read after the decimal point. *)
Definition valid_time (h m s number : Z) : bool :=
  (m <=? 59) && (s <=? 59)
  && ((h <=? 23) || ((h =? 24) && (m =? 0) && (s =? 0) && (number =? 0))).

(** The time of day of [HH:mm], [HH:mm:ss] or [HH:mm:ss.s...]. *)
Definition parse_time_of_day (s : string) : option Z :=
  match split ":" s with
  | [hh; mm] =>
      h ← two_digits hh; m ← two_digits mm;
      if valid_time h m 0 0 then Some (MakeTime h m 0 0) else None
  | [hh; mm; ss] =>
      h ← two_digits hh; m ← two_digits mm;
      match split "." ss with
      | [sec] =>
          s ← two_digits sec;
          if valid_time h m s 0 then Some (MakeTime h m s 0) else None
      | [sec; frac] =>
          s ← two_digits sec;
          if all_digits frac && negb (String.eqb frac "")
             && valid_time h m s (ReadUnsignedNumeral frac)
          then Some (MakeTime h m s (ReadMilliseconds frac))
          else None
      | _ => None
      end
  | _ => None
  end.

(** The day number of [YYYY-MM-DD].  As V8 does, a day up to 31 is accepted
    in every month and carries over into the next month. *)
Definition parse_day (s : string) : option Z :=
  if is_date_only s then
    match split "-" s with
    | [yyyy; mm; dd] =>
        y ← parseInt (Some yyyy); m ← two_digits mm; d ← two_digits dd;
        if (1 <=? m) && (m <=? 12) && (1 <=? d) && (d <=? 31)
        then Some (MakeDay y (m - 1) d) else None
    | _ => None
    end
  else None.

(** The day number of the date of the date-time string format: a year of
    four digits, or of six digits with a sign ([-000000] is no year), then
    optionally [-MM] and [-DD], which stand for 1 when they are absent. *)
Definition parse_date (s : string) : option Z :=
  ym ← match split "-" s with
       | EmptyString :: yyyyyy :: md =>
           y ← fixed_number 6 yyyyyy; if y =? 0 then None else Some (- y, md)
       | String c yyyyyy as yyyy :: md =>
           if Ascii.eqb c "+" then y ← fixed_number 6 yyyyyy; Some (y, md)
           else y ← fixed_number 4 yyyy; Some (y, md)
       | _ => None
       end;
  match ym.2 with
  | [] => Some (MakeDay ym.1 0 1)
  | [mm] =>
      m ← two_digits mm;
      if (1 <=? m) && (m <=? 12) then Some (MakeDay ym.1 (m - 1) 1) else None
  | [mm; dd] =>
      m ← two_digits mm; d ← two_digits dd;
      if (1 <=? m) && (m <=? 12) && (1 <=? d) && (d <=? 31)
      then Some (MakeDay ym.1 (m - 1) d) else None
  | _ => None
  end.

(** The offset [hh:mm] or [hhmm] of a time zone, in milliseconds. *)
Definition parse_offset (s : string) : option Z :=
  hm ← match split ":" s with
       | [hhmm] => n ← fixed_number 4 hhmm; Some (n / 100, n mod 100)
       | [hh; mm] => h ← two_digits hh; m ← two_digits mm; Some (h, m)
       | _ => None
       end;
  if (hm.1 <=? 23) && (hm.2 <=? 59)
  then Some (hm.1 * msPerHour + hm.2 * msPerMinute) else None.

(** [s] up to its first character that satisfies [p], and that character
    with what follows it. *)
Fixpoint break_at (p : ascii -> bool) (s : string)
  : string * option (ascii * string) :=
  match s with
  | EmptyString => (EmptyString, None)
  | String c s' =>
      if p c then (EmptyString, Some (c, s'))
      else let '(before, after) := break_at p s' in (String c before, after)
  end.

Definition is_time_separator (c : ascii) : bool :=
  Ascii.eqb c "T" || Ascii.eqb c "t".

Definition is_zone_start (c : ascii) : bool :=
  Ascii.eqb c "Z" || Ascii.eqb c "z" || Ascii.eqb c "+" || Ascii.eqb c "-".

(** [new Date(string)] on the date-time string format as V8 reads it: a
    date [YYYY], [YYYY-MM] or [YYYY-MM-DD], also with a signed year of six
    digits; then optionally [T] and a time [HH:mm], [HH:mm:ss] or
    [HH:mm:ss.s...], up to [24:00:00.000]; then optionally [Z] or an offset
    [+hh:mm], [-hh:mm], [+hhmm] or [-hhmm].  [T] and [Z] may be in lower
    case.  A date without a time is read in UTC, a date with a time and
    without a zone in local time.  A string of another form, which V8 hands
    to a second parser of its own, is an invalid date here. *)
Definition Date_parse (tz : TimeZone) (s : string) : option Z :=
  let '(d, after) := break_at is_time_separator s in
  day ← parse_date d;
  match after with
  | None => TimeClip (MakeDate day 0)
  | Some (_, t) =>
      let '(tod, zone) := break_at is_zone_start t in
      time ← parse_time_of_day tod;
      match zone with
      | None => TimeClip (UTC tz (MakeDate day time))
      | Some (c, z) =>
          if Ascii.eqb c "+" then
            offset ← parse_offset z; TimeClip (MakeDate day time - offset)
          else if Ascii.eqb c "-" then
            offset ← parse_offset z; TimeClip (MakeDate day time + offset)
          else if String.eqb z "" then TimeClip (MakeDate day time)
          else None
      end
  end.

(** ** DateTimeUtils.ts *)


(** [Math.ceil(x / msPerDay)] on an integer [x].  The quotient of two
    midnights a whole number of days apart is computed exactly by the
    floating-point division, and so is every quotient of dates less than a
    few thousand years apart. *)
Definition ceil_days (x : Z) : Z := - ((- x) / msPerDay).

(** [formatDueDate(dueDateTime, recurring)], evaluated at the time [now] in
    the zone [tz]. *)
Definition formatDueDate (tz : TimeZone) (now : Z)
    (dueDateTime : option string) (recurring : option string) : string :=
  if negb (truthy dueDateTime) then ""
  else
    let dateStr := hd "" (split "T" (or_default dueDateTime "")) in
    let parts := split "-" dateStr in
    let year := parseInt (parts !! 0%nat) in
    let month := (fun m => m - 1) <$> parseInt (parts !! 1%nat) in
    let day := parseInt (parts !! 2%nat) in
    let dueDate := Date_ymd tz year month day in
    let today := now in
    let todayAtMidnight :=
      Date_ymd tz (Some (getFullYear tz today)) (Some (getMonth tz today))
        (Some (getDate tz today)) in
    let tomorrowAtMidnight :=
      Date_ymd tz (Some (getFullYear tz today)) (Some (getMonth tz today))
        (Some (getDate tz today + 1)) in
    let yesterdayAtMidnight :=
      Date_ymd tz (Some (getFullYear tz today)) (Some (getMonth tz today))
        (Some (getDate tz today - 1)) in
    let dueDateAtMidnight := Date_ymd tz year month day in
    let '(displayDate, daysFromNow, isRelativeDate) :=
      if same_time dueDateAtMidnight todayAtMidnight then
        ("Today", Some 0, true)
      else if same_time dueDateAtMidnight tomorrowAtMidnight then
        ("Tomorrow", Some 1, true)
      else if same_time dueDateAtMidnight yesterdayAtMidnight then
        ("Yesterday", Some (-1), true)
      else
        let diffTime :=
          due ← dueDateAtMidnight; base ← todayAtMidnight; Some (due - base) in
        (toLocaleDateString_short tz dueDate, ceil_days <$> diffTime, false) in
    let result := "📅 " +:+ displayDate in
    let result :=
      if negb isRelativeDate then
        match daysFromNow with
        | Some n =>
            if 0 <? n then result +:+ " (" +:+ pretty n +:+ "d from now)"
            else if n <? 0 then result +:+ " (" +:+ pretty (Z.abs n) +:+ "d ago)"
            else result
        | None => result
        end
      else result in
    if truthy recurring then result +:+ " [" +:+ or_default recurring "" +:+ "]"
    else result.

(** [toISOString] of [new Date(s)]. *)
Definition isoOfString (tz : TimeZone) (s : string) : result string :=
  toISOString (Date_parse tz s).

(** [String(error)] and [`${error}`] for an error object. *)
Definition String_of_error (e : JsError) : string :=
  if String.eqb (message e) "" then name e else name e +:+ ": " +:+ message e.

(** [String.prototype.includes]. *)
Fixpoint includes (needle s : string) : bool :=
  String.prefix needle s
  || match s with
     | EmptyString => false
     | String _ s' => includes needle s'
     end.

Fixpoint take_digits (s : string) : string :=
  match s with
  | String c s' => if is_digit c then String c (take_digits s') else EmptyString
  | EmptyString => EmptyString
  end.

(** The capture of [errorMessage.match(/project=(\d+)/)]. *)
Fixpoint match_project (s : string) : option string :=
  let here :=
    if String.prefix "project=" s then
      let ds := take_digits (String.substring 8 (String.length s - 8) s) in
      if String.eqb ds "" then None else Some ds
    else None in
  match here, s with
  | Some ds, _ => Some ds
  | None, String _ s' => match_project s'
  | None, EmptyString => None
  end.

(** ** The remote stores

    The operations the panel awaits: the methods of [CalendarProvider] and
    of the Google Tasks service. *)

Module TaskList.
Record t := { id : option string; title : option string }.
End TaskList.

Module EventData.
(** The argument of [createEvent] and [updateEvent]. *)
Record t := {
  summary : string;
  startDate : string;
  endDate : string;
  isAllDay : bool;
}.
End EventData.

Module TaskBody.
(** A [requestBody] of the Tasks service.  [due = Some None] is
    [due: null], which clears the date. *)
Record t := {
  title : option string;
  due : option (option string);
  notes : option string;
  description : option string;
}.
End TaskBody.

Module Facade.
Inductive Call :=
| getEventsForMonth (year month : Z)
| createEvent (eventData : EventData.t)
| updateEvent (eventId : string) (updateData : EventData.t)
| deleteEvent (eventId : string)
| tasklists_list
| tasks_list (tasklist : string)
| tasks_patch (tasklist task : string) (requestBody : TaskBody.t)
| tasks_insert (tasklist : option string) (requestBody : TaskBody.t).

(** What a call resolves to. *)
Definition Resp (c : Call) : Type :=
  match c with
  | getEventsForMonth _ _ => list CalendarEvent.t
  | tasklists_list => list TaskList.t
  | tasks_list _ => list Task.t
  | _ => unit
  end.
End Facade.

(** ** CalendarWebViewProvider.ts: the extension side *)

Inductive FormMode := create | edit.

Global Instance FormMode_eq_dec : EqDecision FormMode.
Proof. solve_decision. Defined.

Module FormData.
Record t := { title : string; date : string; time : string; isAllDay : bool }.
End FormData.

Module CalendarMessage.
Inductive kind :=
| navigate | selectDate | clearDate | createEvent | editEvent | deleteEvent
| refresh | submitEventForm | cancelEventForm.

(** [eventData] as the page sends it. *)
Record data := {
  data_itemType : option ItemType;
  taskListId : option string;
  calendarId : option string;
}.

Record t := {
  type : kind;
  year : option Z;
  month : option Z;
  date : option string;
  eventId : option string;
  eventData : option data;
  itemType : option ItemType;
  mode : option FormMode;
  formData : option FormData.t;
}.
End CalendarMessage.

(** What [getWebViewContent] embeds in the page it renders. *)
Record Page := {
  allItems : list UnifiedItem.t;
  page_selectedDate : option string;
  page_month : Z;
  page_year : Z;
}.

(** The fields of the provider; [panel] holds the page shown, if a panel is
    open.  [taskProvider] tells whether the reference to the task tree
    provider is set, and [service] whether that provider has its service. *)
Record State := {
  panel : option (option Page);
  calendarProvider : bool;
  taskProvider : bool;
  service : bool;
  currentMonth : Z;
  currentYear : Z;
  selectedDate : option string;
  eventFormMode : option FormMode;
  editingEventId : option string;
  editingEventData : option CalendarMessage.data;
  editingEventType : option ItemType;
  editingTaskListId : option string;
}.

(** Calls on [vscode.window], [vscode.env] and [vscode.commands] that are
    not awaited, and the refresh of the task tree. *)
Inductive Notification :=
| showInformationMessage (msg : string)
| showWarningMessage (msg : string)
| showErrorMessage (msg : string)
| openExternal (url : string)
| executeCommand (command : string)
| treeRefresh.

(** An asynchronous method: it runs until it awaits a call on a remote
    store or a dialog with buttons, and goes on from the answer.  [Get] and
    [Update] read and assign the fields of the provider. *)
Inductive Prog :=
| Done
| Await (c : Facade.Call) (k : result (Facade.Resp c) -> Prog)
| Ask (msg : string) (modal : bool) (items : list string) (k : option string -> Prog)
| Get (k : State -> Prog)
| Update (f : State -> State) (k : Prog)
| Notify (n : Notification) (k : Prog).

(** Assignment to one field of the provider. *)
Definition set_panel (v : option (option Page)) (s : State) : State :=
  {| panel := v; calendarProvider := calendarProvider s;
     taskProvider := taskProvider s; service := service s;
     currentMonth := currentMonth s; currentYear := currentYear s;
     selectedDate := selectedDate s; eventFormMode := eventFormMode s;
     editingEventId := editingEventId s;
     editingEventData := editingEventData s;
     editingEventType := editingEventType s;
     editingTaskListId := editingTaskListId s |}.

Definition set_currentMonth (v : Z) (s : State) : State :=
  {| panel := panel s; calendarProvider := calendarProvider s;
     taskProvider := taskProvider s; service := service s; currentMonth := v;
     currentYear := currentYear s; selectedDate := selectedDate s;
     eventFormMode := eventFormMode s; editingEventId := editingEventId s;
     editingEventData := editingEventData s;
     editingEventType := editingEventType s;
     editingTaskListId := editingTaskListId s |}.

Definition set_currentYear (v : Z) (s : State) : State :=
  {| panel := panel s; calendarProvider := calendarProvider s;
     taskProvider := taskProvider s; service := service s;
     currentMonth := currentMonth s; currentYear := v;
     selectedDate := selectedDate s; eventFormMode := eventFormMode s;
     editingEventId := editingEventId s;
     editingEventData := editingEventData s;
     editingEventType := editingEventType s;
     editingTaskListId := editingTaskListId s |}.

Definition set_selectedDate (v : option string) (s : State) : State :=
  {| panel := panel s; calendarProvider := calendarProvider s;
     taskProvider := taskProvider s; service := service s;
     currentMonth := currentMonth s; currentYear := currentYear s;
     selectedDate := v; eventFormMode := eventFormMode s;
     editingEventId := editingEventId s;
     editingEventData := editingEventData s;
     editingEventType := editingEventType s;
     editingTaskListId := editingTaskListId s |}.

Definition set_eventFormMode (v : option FormMode) (s : State) : State :=
  {| panel := panel s; calendarProvider := calendarProvider s;
     taskProvider := taskProvider s; service := service s;
     currentMonth := currentMonth s; currentYear := currentYear s;
     selectedDate := selectedDate s; eventFormMode := v;
     editingEventId := editingEventId s;
     editingEventData := editingEventData s;
     editingEventType := editingEventType s;
     editingTaskListId := editingTaskListId s |}.

Definition set_editingEventId (v : option string) (s : State) : State :=
  {| panel := panel s; calendarProvider := calendarProvider s;
     taskProvider := taskProvider s; service := service s;
     currentMonth := currentMonth s; currentYear := currentYear s;
     selectedDate := selectedDate s; eventFormMode := eventFormMode s;
     editingEventId := v; editingEventData := editingEventData s;
     editingEventType := editingEventType s;
     editingTaskListId := editingTaskListId s |}.

Definition set_editingEventData (v : option CalendarMessage.data) (s : State) : State :=
  {| panel := panel s; calendarProvider := calendarProvider s;
     taskProvider := taskProvider s; service := service s;
     currentMonth := currentMonth s; currentYear := currentYear s;
     selectedDate := selectedDate s; eventFormMode := eventFormMode s;
     editingEventId := editingEventId s; editingEventData := v;
     editingEventType := editingEventType s;
     editingTaskListId := editingTaskListId s |}.

Definition set_editingEventType (v : option ItemType) (s : State) : State :=
  {| panel := panel s; calendarProvider := calendarProvider s;
     taskProvider := taskProvider s; service := service s;
     currentMonth := currentMonth s; currentYear := currentYear s;
     selectedDate := selectedDate s; eventFormMode := eventFormMode s;
     editingEventId := editingEventId s;
     editingEventData := editingEventData s; editingEventType := v;
     editingTaskListId := editingTaskListId s |}.

Definition set_editingTaskListId (v : option string) (s : State) : State :=
  {| panel := panel s; calendarProvider := calendarProvider s;
     taskProvider := taskProvider s; service := service s;
     currentMonth := currentMonth s; currentYear := currentYear s;
     selectedDate := selectedDate s; eventFormMode := eventFormMode s;
     editingEventId := editingEventId s;
     editingEventData := editingEventData s;
     editingEventType := editingEventType s; editingTaskListId := v |}.
Section Provider.
Variable tz : TimeZone.
Variable localeCompare : string -> string -> Z.

Definition getWebViewContent (s : State) (items : list UnifiedItem.t) : Page :=
  {| allItems := items; page_selectedDate := selectedDate s;
     page_month := currentMonth s; page_year := currentYear s |}.

(** The [catch] block of [refreshCalendar]. *)
Definition refreshFailed (error : JsError) (k : Prog) : Prog :=
  let errorMessage :=
    if String.eqb (message error) "" then String_of_error error
    else message error in
  if includes "API has not been used" errorMessage
     || includes "is disabled" errorMessage then
    Ask "Google Calendar API is not enabled. You need to enable it in Google Cloud Console."
      false ["Open Console"; "Learn More"; "Cancel"]
      (fun result =>
         if bool_decide (result = Some "Open Console") then
           let projectId := default "1084099120414" (match_project errorMessage) in
           Notify (openExternal
             ("https://console.developers.google.com/apis/api/calendar-json.googleapis.com/overview?project="
              +:+ projectId)) k
         else if bool_decide (result = Some "Learn More") then
           Notify (openExternal "https://support.google.com/googleapi/answer/6158841") k
         else k)
  else if includes "Insufficient Permission" errorMessage
          || bool_decide (code error = Some 403) then
    Ask "Calendar access requires additional permissions. Would you like to re-authorize?"
      false ["Re-authorize"; "Cancel"]
      (fun result =>
         if bool_decide (result = Some "Re-authorize") then
           Notify (executeCommand "googleTasks.initUserGAuth") k
         else k)
  else Notify (showErrorMessage ("Failed to load calendar: " +:+ errorMessage)) k.

(** The loop over the task lists in [refreshCalendar]; a failed call
    leaves the loop with the tasks gathered so far.  The service returns
    tasks without a [dueDateTime], so the guard is on [due]. *)
Fixpoint fetchTasks (lists : list TaskList.t)
    (tasksWithSchedules : list (Task.t * string))
    (k : list (Task.t * string) -> Prog) : Prog :=
  match lists with
  | [] => k tasksWithSchedules
  | l :: rest =>
      if truthy (TaskList.id l) then
        let listId := or_default (TaskList.id l) "" in
        Await (Facade.tasks_list listId) (fun r =>
          match r with
          | Ok tasks =>
              fetchTasks rest
                (tasksWithSchedules
                 ++ map (fun t => (t, listId))
                      (List.filter (fun t => truthy (Task.due t)) tasks)) k
          | Throw _ => k tasksWithSchedules
          end)
      else fetchTasks rest tasksWithSchedules k
  end.

(** Merging and the assignment to [this.panel.webview.html]; it fails
    when the panel was disposed in the meantime. *)
Definition render (tasksWithSchedules : list (Task.t * string))
    (events : list CalendarEvent.t) (k : Prog) : Prog :=
  match mergeItems localeCompare tasksWithSchedules events with
  | Throw e => refreshFailed e k
  | Ok unifiedItems =>
      Get (fun s =>
        match panel s with
        | Some _ =>
            Update (set_panel (Some (Some (getWebViewContent s unifiedItems)))) k
        | None =>
            refreshFailed
              (TypeError "Cannot read properties of undefined (reading 'webview')") k
        end)
  end.

Definition refreshCalendar (k : Prog) : Prog :=
  Get (fun s =>
    if negb (bool_decide (is_Some (panel s))) || negb (calendarProvider s) then k
    else
      Await (Facade.getEventsForMonth (currentYear s) (currentMonth s)) (fun r =>
        match r with
        | Throw e => refreshFailed e k
        | Ok events =>
            Get (fun s =>
              if taskProvider s && service s then
                Await Facade.tasklists_list (fun r =>
                  match r with
                  | Ok lists =>
                      fetchTasks lists [] (fun tasks => render tasks events k)
                  | Throw _ => render [] events k
                  end)
              else render [] events k)
        end)).

Definition handleDeleteEvent (eventId : string) (k : Prog) : Prog :=
  Get (fun s =>
    if negb (calendarProvider s) then k
    else
      Ask "Delete this event?" true ["Delete"] (fun confirm =>
        if bool_decide (confirm = Some "Delete") then
          Await (Facade.deleteEvent eventId) (fun r =>
            match r with
            | Ok _ =>
                Notify (showInformationMessage "Event deleted!") (refreshCalendar k)
            | Throw error =>
                Notify (showErrorMessage
                  ("Failed to delete event: " +:+ String_of_error error)) k
            end)
        else k)).

(** [startTime] and [endTime] of the form: the local date and time, and
    one hour later. *)
Definition formTimes (formData : FormData.t) : result (string * string) :=
  let start :=
    Date_parse tz (FormData.date formData +:+ "T" +:+ FormData.time formData +:+ ":00") in
  startTime ← toISOString start;
  endTime ← toISOString (t ← start; TimeClip (t + 60 * 60 * 1000));
  Ok (startTime, endTime).

Definition formEvent (formData : FormData.t) (times : string * string) : EventData.t :=
  {| EventData.summary := FormData.title formData;
     EventData.startDate := fst times;
     EventData.endDate := snd times;
     EventData.isAllDay := FormData.isAllDay formData |}.

Definition submitCreateEvent (formData : FormData.t) (k : Prog) : Prog :=
  Get (fun s =>
    if negb (calendarProvider s) || String.eqb (FormData.title formData) "" then k
    else
      match formTimes formData with
      | Throw error =>
          Notify (showErrorMessage
            ("Failed to create event: " +:+ String_of_error error)) k
      | Ok times =>
          Await (Facade.createEvent (formEvent formData times)) (fun r =>
            match r with
            | Ok _ =>
                Notify (showInformationMessage "Event created!") (refreshCalendar k)
            | Throw error =>
                Notify (showErrorMessage
                  ("Failed to create event: " +:+ String_of_error error)) k
            end)
      end).

Definition submitEditEvent (eventId : string) (formData : FormData.t) (k : Prog)
  : Prog :=
  Get (fun s =>
    if negb (calendarProvider s) || String.eqb (FormData.title formData) "" then k
    else
      match formTimes formData with
      | Throw error =>
          Notify (showErrorMessage
            ("Failed to update event: " +:+ String_of_error error)) k
      | Ok times =>
          Await (Facade.updateEvent eventId (formEvent formData times)) (fun r =>
            match r with
            | Ok _ =>
                Notify (showInformationMessage "Event updated!") (refreshCalendar k)
            | Throw error =>
                Notify (showErrorMessage
                  ("Failed to update event: " +:+ String_of_error error)) k
            end)
      end).

(** The due date [submitCreateTaskFromForm] sends. *)
Definition createTaskDue (formData : FormData.t) : result string :=
  if FormData.isAllDay formData then
    isoOfString tz (FormData.date formData +:+ "T00:00:00.000Z")
  else
    isoOfString tz
      (FormData.date formData +:+ "T" +:+ FormData.time formData +:+ ":00").

Definition submitCreateTaskFromForm (formData : FormData.t) (k : Prog) : Prog :=
  Get (fun s =>
    if negb (taskProvider s) || String.eqb (FormData.title formData) "" then k
    else
      let failed error :=
        Notify (showErrorMessage
          ("Failed to create task: " +:+ String_of_error error)) k in
      match createTaskDue formData with
      | Throw error => failed error
      | Ok dueDate =>
          if negb (service s) then
            Notify (showErrorMessage "Google Tasks service not initialized") k
          else
            Await Facade.tasklists_list (fun r =>
              match r with
              | Throw error => failed error
              | Ok [] =>
                  Notify (showErrorMessage
                    "No task lists found. Please create a task list first.") k
              | Ok (first :: _) =>
                  let body :=
                    {| TaskBody.title := Some (FormData.title formData);
                       TaskBody.due := Some (Some dueDate);
                       TaskBody.notes :=
                         Some ("Created from calendar on " +:+ FormData.date formData
                               +:+ (if negb (FormData.isAllDay formData)
                                    then " at " +:+ FormData.time formData else ""));
                       TaskBody.description := None |} in
                  Await (Facade.tasks_insert (TaskList.id first) body) (fun r =>
                    match r with
                    | Throw error => failed error
                    | Ok _ =>
                        Notify treeRefresh
                          (Notify (showInformationMessage
                             ("Task created in "
                              +:+ default "undefined" (TaskList.title first) +:+ "!"))
                             (refreshCalendar k))
                    end)
              end)
      end).

(** The loop of [submitEditTask] over all the task lists: the patch is
    tried in each list that has an id, until one succeeds. *)
Fixpoint searchLists (taskId : string) (body : TaskBody.t)
    (lists : list TaskList.t) (k : Prog) : Prog :=
  match lists with
  | [] => Notify (showWarningMessage "Task not found in any list") k
  | l :: rest =>
      if truthy (TaskList.id l) then
        Await (Facade.tasks_patch (or_default (TaskList.id l) "") taskId body)
          (fun r =>
             match r with
             | Ok _ =>
                 Notify (showInformationMessage "Task updated!") (refreshCalendar k)
             | Throw _ => searchLists taskId body rest k
             end)
      else searchLists taskId body rest k
  end.

Definition submitEditTask (taskId : string) (formData : FormData.t)
    (taskListId : option string) (k : Prog) : Prog :=
  Get (fun s =>
    if negb (taskProvider s) || negb (service s)
       || String.eqb (FormData.title formData) "" then k
    else
      let failed error :=
        Notify (showErrorMessage
          ("Failed to update task: " +:+ String_of_error error)) k in
      match isoOfString tz (FormData.date formData +:+ "T00:00:00.000Z") with
      | Throw error => failed error
      | Ok dueDate =>
          let body :=
            {| TaskBody.title := Some (FormData.title formData);
               TaskBody.due := Some (Some dueDate);
               TaskBody.notes := None;
               TaskBody.description := None |} in
          let searchAll :=
            Get (fun s =>
              if taskProvider s && service s then
                Await Facade.tasklists_list (fun r =>
                  match r with
                  | Ok lists => searchLists taskId body lists k
                  | Throw error => failed error
                  end)
              else k) in
          if truthy taskListId then
            Await (Facade.tasks_patch (or_default taskListId "") taskId body)
              (fun r =>
                 match r with
                 | Ok _ =>
                     Notify (showInformationMessage "Task updated!")
                       (refreshCalendar k)
                 | Throw _ => searchAll
                 end)
          else searchAll
      end).

(** The listener of [setupWebViewMessageHandling]. *)
Definition onDidReceiveMessage (msg : CalendarMessage.t) : Prog :=
  match CalendarMessage.type msg with
  | CalendarMessage.navigate =>
      match CalendarMessage.month msg, CalendarMessage.year msg with
      | Some m, Some y =>
          Update (fun s => set_currentYear y (set_currentMonth m s))
            (refreshCalendar Done)
      | _, _ => Done
      end
  | CalendarMessage.refresh => refreshCalendar Done
  | CalendarMessage.createEvent =>
      Update (fun s => set_editingEventId None (set_eventFormMode (Some create) s))
        (refreshCalendar Done)
  | CalendarMessage.editEvent =>
      if truthy (CalendarMessage.eventId msg) then
        Update (fun s =>
          set_editingTaskListId
            (d ← CalendarMessage.eventData msg; CalendarMessage.taskListId d)
            (set_editingEventType
               (Some (default calendar (CalendarMessage.itemType msg)))
               (set_editingEventData (CalendarMessage.eventData msg)
                  (set_editingEventId (CalendarMessage.eventId msg)
                     (set_eventFormMode (Some edit) s))))) Done
      else Done
  | CalendarMessage.submitEventForm =>
      match CalendarMessage.formData msg with
      | Some formData =>
          let itemType := default calendar (CalendarMessage.itemType msg) in
          let reset :=
            Update (fun s =>
              set_editingTaskListId None
                (set_editingEventType None
                   (set_editingEventData None
                      (set_editingEventId None (set_eventFormMode None s))))) Done in
          if bool_decide (CalendarMessage.mode msg = Some create) then
            if bool_decide (itemType = task) then
              submitCreateTaskFromForm formData reset
            else submitCreateEvent formData reset
          else if bool_decide (CalendarMessage.mode msg = Some edit)
                  && truthy (CalendarMessage.eventId msg) then
            let eventId := or_default (CalendarMessage.eventId msg) "" in
            if bool_decide (itemType = task) then
              submitEditTask eventId formData
                (d ← CalendarMessage.eventData msg; CalendarMessage.taskListId d)
                reset
            else submitEditEvent eventId formData reset
          else reset
      | None => Done
      end
  | CalendarMessage.cancelEventForm =>
      Update (fun s =>
        set_editingEventData None
          (set_editingEventId None (set_eventFormMode None s)))
        (refreshCalendar Done)
  | CalendarMessage.deleteEvent =>
      if truthy (CalendarMessage.eventId msg) then
        handleDeleteEvent (or_default (CalendarMessage.eventId msg) "") Done
      else Done
  | CalendarMessage.selectDate =>
      if truthy (CalendarMessage.date msg) then
        Update (set_selectedDate (CalendarMessage.date msg)) (refreshCalendar Done)
      else Done
  | CalendarMessage.clearDate =>
      Update (set_selectedDate None) (refreshCalendar Done)
  end.
End Provider.

(** ** Running the asynchronous methods *)

(** What happened so far: the calls made on the remote stores, the dialogs
    shown and the notifications, each in order. *)
Record Run := {
  state : State;
  calls : list Facade.Call;
  dialogs : list string;
  notes : list Notification;
}.

Definition run_state (f : State -> State) (r : Run) : Run :=
  {| state := f (state r); calls := calls r; dialogs := dialogs r; notes := notes r |}.

Definition run_call (c : Facade.Call) (r : Run) : Run :=
  {| state := state r; calls := calls r ++ [c]; dialogs := dialogs r; notes := notes r |}.

Definition run_dialog (msg : string) (r : Run) : Run :=
  {| state := state r; calls := calls r; dialogs := dialogs r ++ [msg]; notes := notes r |}.

Definition run_note (n : Notification) (r : Run) : Run :=
  {| state := state r; calls := calls r; dialogs := dialogs r; notes := notes r ++ [n] |}.

(** The world outside: what each call resolves to and which button the user
    presses in each dialog ([None] when the dialog is dismissed). *)
Record World := {
  answer : forall c : Facade.Call, result (Facade.Resp c);
  choose : string -> list string -> option string;
}.

(** One method run to its end, every await answered by the world. *)
Fixpoint exec (w : World) (p : Prog) (r : Run) : Run :=
  match p with
  | Done => r
  | Await c k => exec w (k (answer w c)) (run_call c r)
  | Ask msg _ items k => exec w (k (choose w msg items)) (run_dialog msg r)
  | Get k => exec w (k (state r)) r
  | Update f k => exec w k (run_state f r)
  | Notify n k => exec w k (run_note n r)
  end.

(** A method that is waiting for an answer. *)
Inductive Suspended :=
| OnCall (c : Facade.Call) (k : result (Facade.Resp c) -> Prog)
| OnDialog (msg : string) (items : list string) (k : option string -> Prog).

(** The event loop of the extension host: the methods in flight share the
    fields of the provider. *)
Record Loop := {
  run : Run;
  suspended : list Suspended;
}.

(** A method runs until it finishes or awaits; the call it awaits is made
    before it is suspended. *)
Fixpoint run_sync (p : Prog) (l : Loop) : Loop :=
  match p with
  | Done => l
  | Await c k =>
      {| run := run_call c (run l); suspended := suspended l ++ [OnCall c k] |}
  | Ask msg _ items k =>
      {| run := run_dialog msg (run l);
         suspended := suspended l ++ [OnDialog msg items k] |}
  | Get k => run_sync (k (state (run l))) l
  | Update f k => run_sync k {| run := run_state f (run l); suspended := suspended l |}
  | Notify n k => run_sync k {| run := run_note n (run l); suspended := suspended l |}
  end.

(** What the event loop does next: a message from the page arrives, or the
    [i]-th method in flight receives its answer from the world. *)
Inductive LoopEvent :=
| Deliver (msg : CalendarMessage.t)
| Resolve (i : nat) (w : World).

Definition loop_step (tz : TimeZone) (localeCompare : string -> string -> Z)
    (l : Loop) (e : LoopEvent) : Loop :=
  match e with
  | Deliver msg => run_sync (onDidReceiveMessage tz localeCompare msg) l
  | Resolve i w =>
      let rest := {| run := run l; suspended := delete i (suspended l) |} in
      match suspended l !! i with
      | Some (OnCall c k) => run_sync (k (answer w c)) rest
      | Some (OnDialog msg items k) => run_sync (k (choose w msg items)) rest
      | None => l
      end
  end.

Definition loop_run (tz : TimeZone) (localeCompare : string -> string -> Z)
    (l : Loop) (es : list LoopEvent) : Loop :=
  fold_left (loop_step tz localeCompare) es l.

(** ** commands.ts and ScheduleWebViewProvider.ts *)

Module GTask.
(** A node of the task tree. *)
Record t := { taskListId : string; task : Task.t }.
End GTask.

(** [gTaskTreeProvider.patchTask]: the call is made only when the service
    exists, and the tree is refreshed when it has succeeded. *)
Definition patchTask (tasklist task : string) (requestBody : TaskBody.t)
    (k : Prog) : Prog :=
  Get (fun s =>
    if service s then
      Await (Facade.tasks_patch tasklist task requestBody) (fun r =>
        match r with
        | Ok _ => Notify treeRefresh k
        | Throw _ => k
        end)
    else Notify treeRefresh k).

(** The command [googleTasks.clearTaskSchedule]; the dialog is the one of
    [confirmClearSchedule]. *)
Definition clearTaskSchedule (node : GTask.t) : Prog :=
  if negb (truthy (Task.id (GTask.task node))) then
    Notify (showErrorMessage "Cannot clear schedule for this task") Done
  else if negb (truthy (Task.due (GTask.task node))) then
    Notify (showWarningMessage "This task does not have a schedule.") Done
  else
    Ask "Clear this task schedule?" true ["Clear"; "Cancel"] (fun result =>
      let confirmed := bool_decide (result = Some "Clear") in
      if negb confirmed then Done
      else
        Notify (showInformationMessage
          ("Schedule cleared for " +:+ or_default (Task.title (GTask.task node)) "task"))
          (patchTask (GTask.taskListId node)
             (or_default (Task.id (GTask.task node)) "")
             {| TaskBody.title := None; TaskBody.due := Some None;
                TaskBody.notes := None; TaskBody.description := None |} Done)).

Module ScheduleMessage.
Inductive kind := schedule | cancel | error.

Record t := {
  type : kind;
  date : option string;
  recurring : option string;
  message : option string;
}.
End ScheduleMessage.

(** The schedule panel's listener: what it hands to the schedule callback
    on a [schedule] message, when a callback is registered. *)
Definition scheduleOfMessage (hasCallback : bool) (msg : ScheduleMessage.t)
  : option (string * option string) :=
  match ScheduleMessage.type msg with
  | ScheduleMessage.schedule =>
      if truthy (ScheduleMessage.date msg) && hasCallback then
        let dueRFC3339 := or_default (ScheduleMessage.date msg) "" +:+ "T00:00:00.000Z" in
        Some (dueRFC3339, ScheduleMessage.recurring msg)
      else None
  | _ => None
  end.

(** ** CalendarWebViewProvider.ts: the script of the page

    The click handlers of the day cells.  A cell is named by its
    [data-date]; every event carries the value of [Date.now()] at which it
    is handled. *)

Definition DOUBLE_CLICK_DELAY : Z := 300.

(** A pending [setTimeout] of the single-click handler of the cell [target]. *)
Record Timer := { timer_id : Z; fires_at : Z; target : string }.

(** What the handlers do to the page. *)
Inductive Transition :=
| Selected (date : string)
| Deselected (date : string)
| FormOpened (mode : FormMode) (date : string).

(** [lastClickTime] is the variable each cell's handlers close over. *)
Record PageState := {
  page_selected : option string;
  dayClickTimeouts : gmap string Z;
  lastClickTime : gmap string Z;
  timers : list Timer;
  next_timer : Z;
  transitions : list Transition;
}.

(** The page as the extension renders it. *)
Definition page_init (selected : option string) : PageState :=
  {| page_selected := selected; dayClickTimeouts := ∅; lastClickTime := ∅;
     timers := []; next_timer := 1; transitions := [] |}.

Definition clearTimeout (id : Z) (ts : list Timer) : list Timer :=
  List.filter (fun tm => negb (timer_id tm =? id)) ts.

(** The callback of the timer: the selection toggle. *)
Definition timer_fires (s : PageState) (tm : Timer) : PageState :=
  let date := target tm in
  let toggled :=
    if String.eqb date "" then (page_selected s, transitions s)
    else if bool_decide (page_selected s = Some date) then
      (None, transitions s ++ [Deselected date])
    else (Some date, transitions s ++ [Selected date]) in
  {| page_selected := fst toggled;
     dayClickTimeouts := delete date (dayClickTimeouts s);
     lastClickTime := lastClickTime s;
     timers := timers s;
     next_timer := next_timer s;
     transitions := snd toggled |}.

(** Time passes until [now]: the timers that are due fire.  They all have
    the same delay, so they fire in the order in which they were set. *)
Definition advance (now : Z) (s : PageState) : PageState :=
  let due := List.filter (fun tm => fires_at tm <=? now) (timers s) in
  let waiting := List.filter (fun tm => negb (fires_at tm <=? now)) (timers s) in
  fold_left timer_fires due
    {| page_selected := page_selected s;
       dayClickTimeouts := dayClickTimeouts s;
       lastClickTime := lastClickTime s;
       timers := waiting;
       next_timer := next_timer s;
       transitions := transitions s |}.

(** The [click] listener of the cell [dateAttr]. *)
Definition on_click (dateAttr : string) (now : Z) (s : PageState) : PageState :=
  let timeSinceLastClick := now - default 0 (lastClickTime s !! dateAttr) in
  let lastClickTime' := <[dateAttr := now]> (lastClickTime s) in
  if (timeSinceLastClick <? DOUBLE_CLICK_DELAY) && (0 <? timeSinceLastClick) then
    {| page_selected := page_selected s;
       dayClickTimeouts := dayClickTimeouts s;
       lastClickTime := lastClickTime';
       timers := timers s;
       next_timer := next_timer s;
       transitions := transitions s |}
  else
    let timers' :=
      match dayClickTimeouts s !! dateAttr with
      | Some existingTimeout =>
          if existingTimeout =? 0 then timers s
          else clearTimeout existingTimeout (timers s)
      | None => timers s
      end in
    let timeout := next_timer s in
    {| page_selected := page_selected s;
       dayClickTimeouts := <[dateAttr := timeout]> (dayClickTimeouts s);
       lastClickTime := lastClickTime';
       timers :=
         timers' ++ [{| timer_id := timeout;
                        fires_at := now + DOUBLE_CLICK_DELAY;
                        target := dateAttr |}];
       next_timer := timeout + 1;
       transitions := transitions s |}.

(** The [dblclick] listener of the cell [dateAttr]. *)
Definition on_dblclick (dateAttr : string) (s : PageState) : PageState :=
  let '(timers', timeouts') :=
    match dayClickTimeouts s !! dateAttr with
    | Some existingTimeout =>
        if existingTimeout =? 0 then (timers s, dayClickTimeouts s)
        else (clearTimeout existingTimeout (timers s),
              delete dateAttr (dayClickTimeouts s))
    | None => (timers s, dayClickTimeouts s)
    end in
  {| page_selected := page_selected s;
     dayClickTimeouts := timeouts';
     lastClickTime := lastClickTime s;
     timers := timers';
     next_timer := next_timer s;
     transitions :=
       if String.eqb dateAttr "" then transitions s
       else transitions s ++ [FormOpened create dateAttr] |}.

Inductive PageEvent :=
| click (dateAttr : string) (now : Z)
| dblclick (dateAttr : string) (now : Z)
| wait (now : Z).

Definition page_step (s : PageState) (e : PageEvent) : PageState :=
  match e with
  | click d now => on_click d now (advance now s)
  | dblclick d now => on_dblclick d (advance now s)
  | wait now => advance now s
  end.

Definition page_run (s : PageState) (es : list PageEvent) : PageState :=
  fold_left page_step es s.

(** The transitions that concern the cell [d]. *)
Definition concerns (d : string) (tr : Transition) : bool :=
  match tr with
  | Selected x | Deselected x | FormOpened _ x => String.eqb x d
  end.

(** ** Vocabulary of the properties *)

(** The guards of [mergeItems]. *)
Definition eligible_task (entry : Task.t * string) : bool :=
  truthy (Task.title entry.1) && truthy (Task.due entry.1).

Definition eligible_event (event : CalendarEvent.t) : bool :=
  truthy (CalendarEvent.id event) && truthy (CalendarEvent.summary event)
  && bool_decide (is_Some (CalendarEvent.start event)).

(** The item [calendarEventToUnified] returns when it does not throw. *)
Definition unified_of_event (event : CalendarEvent.t) (calendarId : string)
  : UnifiedItem.t :=
  {| UnifiedItem.id := or_default (CalendarEvent.id event) "";
     UnifiedItem.type := if isTaskEvent event then task else calendar;
     UnifiedItem.title := or_default (CalendarEvent.summary event) "(No title)";
     UnifiedItem.dueDate :=
       extractDate
         (if truthy (start_date event) then or_default (start_date event) ""
          else or_default (start_dateTime event) "");
     UnifiedItem.dueDateTime := start_dateTime event;
     UnifiedItem.description := CalendarEvent.description event;
     UnifiedItem.completed := None;
     UnifiedItem.isAllDay := Some (truthy (start_date event));
     UnifiedItem.recurring := join ";" <$> CalendarEvent.recurrence event;
     UnifiedItem.source :=
       {| UnifiedItem.taskListId := None;
          UnifiedItem.calendarId := Some calendarId |} |}.

(** The array [unified] just before it is sorted: the items in the order
    in which [mergeItems] meets them, tasks first. *)
Definition unified_input (tasks : list (Task.t * string))
    (calendarEvents : list CalendarEvent.t) : list UnifiedItem.t :=
  map (fun entry => taskToUnified entry.1 entry.2) (List.filter eligible_task tasks)
  ++ map (fun event => unified_of_event event "primary")
       (List.filter eligible_event calendarEvents).

(** Comparison of strings by their code units, a collation that
    [localeCompare] may implement. *)
Definition codeUnitCompare (a b : string) : Z :=
  match String.compare a b with
  | Lt => -1
  | Eq => 0
  | Gt => 1
  end.

(** The task and the event of the merge scenario: task [t1] due on
    2025-10-20, and the event [e1], tagged as a task, that starts at
    2025-10-20T21:00:00Z. *)
Definition scenario_task (title : option string) : Task.t :=
  {| Task.id := Some "t1"; Task.title := title; Task.due := Some "2025-10-20";
     Task.notes := None; Task.status := None |}.

Definition scenario_event (summary : option string) : CalendarEvent.t :=
  {| CalendarEvent.id := Some "e1";
     CalendarEvent.summary := summary;
     CalendarEvent.description := None;
     CalendarEvent.start :=
       Some {| CalendarEvent.dateTime := Some "2025-10-20T21:00:00Z";
               CalendarEvent.date := None |};
     CalendarEvent.recurrence := None;
     CalendarEvent.extendedProperties :=
       Some {| CalendarEvent.private_ := Some {[ "isTask" := "true" ]} |} |}.

(** The three numbers [formatDueDate] reads in its argument. *)
Definition parsed_due (due : string) : option Z * option Z * option Z :=
  let parts := split "-" (hd "" (split "T" due)) in
  (parseInt (parts !! 0%nat), parseInt (parts !! 1%nat), parseInt (parts !! 2%nat)).

(** The short label of the day with number [day]: month and day of the
    month. *)
Definition short_label (day : Z) : string :=
  let '(_, m, d) := civil_from_days day in
  monthShort m +:+ " " +:+ pretty d.


(** The form an all-day pick of [date] submits. *)
Definition all_day_form (title date : string) : FormData.t :=
  {| FormData.title := title; FormData.date := date; FormData.time := "00:00";
     FormData.isAllDay := true |}.

(** A run that starts with the provider in state [s]. *)
Definition start (s : State) : Run :=
  {| state := s; calls := []; dialogs := []; notes := [] |}.

Definition is_patch (c : Facade.Call) : bool :=
  match c with
  | Facade.tasks_patch _ _ _ => true
  | _ => false
  end.

(** The warning that reports that the task was found in no list. *)
Definition is_not_found (n : Notification) : bool :=
  match n with
  | showWarningMessage msg => String.eqb msg "Task not found in any list"
  | _ => false
  end.

(** Whether the world accepts the patch of [taskId] in the list [tasklist]. *)
Definition patch_ok (w : World) (taskId : string) (body : TaskBody.t)
    (tasklist : string) : bool :=
  match answer w (Facade.tasks_patch tasklist taskId body) with
  | Ok _ => true
  | Throw _ => false
  end.

(** The ids of the task lists that have one. *)
Definition list_ids (lists : list TaskList.t) : list string :=
  map (fun l => or_default (TaskList.id l) "")
    (List.filter (fun l => truthy (TaskList.id l)) lists).

(** A linear scan: the ids up to and including the first accepted one. *)
Fixpoint scan_until (ok : string -> bool) (ids : list string) : list string :=
  match ids with
  | [] => []
  | i :: rest => if ok i then [i] else i :: scan_until ok rest
  end.

(** The [requestBody] of [submitEditTask]. *)
Definition edit_body (formData : FormData.t) (dueDate : string) : TaskBody.t :=
  {| TaskBody.title := Some (FormData.title formData);
     TaskBody.due := Some (Some dueDate);
     TaskBody.notes := None;
     TaskBody.description := None |}.

(** Every pending timer of the cell [d] is the one the map records for
    [d], and none of them fires before or at [bound]. *)
Definition registered (d : string) (bound : Z) (s : PageState) : Prop :=
  forall tm, tm ∈ timers s -> target tm = d ->
    dayClickTimeouts s !! d = Some (timer_id tm)
    /\ timer_id tm <> 0 /\ bound < fires_at tm.

(** [r1] continues [r] with calls that are no patch and with notes other
    than the not-found warning. *)
Definition quiet (r r1 : Run) : Prop :=
  List.filter is_patch (calls r1) = List.filter is_patch (calls r)
  /\ existsb is_not_found (notes r1) = existsb is_not_found (notes r)
  /\ exists cs, calls r1 = calls r ++ cs.

(** What the method [p] runs before its continuation is quiet. *)
Definition runs_quietly (w : World) (p : Prog -> Prog) : Prop :=
  forall k r, exists r1, exec w (p k) r = exec w k r1 /\ quiet r r1.

(** [a] may come before [b] in an array sorted with [comparefn]. *)
Definition precedes {A : Type} (comparefn : A -> A -> Z) (a b : A) : Prop :=
  comparefn a b <= 0.

(** ** Sample inputs *)

(** An open calendar panel of October 2025, both providers initialised. *)
Definition sample_state : State :=
  {| panel := Some None; calendarProvider := true; taskProvider := true;
     service := true; currentMonth := 9; currentYear := 2025;
     selectedDate := None; eventFormMode := None; editingEventId := None;
     editingEventData := None; editingEventType := None;
     editingTaskListId := None |}.

Definition sample_form : FormData.t :=
  {| FormData.title := "Standup"; FormData.date := "2025-10-21";
     FormData.time := "09:00"; FormData.isAllDay := false |}.

(** The form submitted to create a calendar event. *)
Definition sample_submit : CalendarMessage.t :=
  {| CalendarMessage.type := CalendarMessage.submitEventForm;
     CalendarMessage.year := None; CalendarMessage.month := None;
     CalendarMessage.date := None; CalendarMessage.eventId := None;
     CalendarMessage.eventData := None;
     CalendarMessage.itemType := Some calendar;
     CalendarMessage.mode := Some create;
     CalendarMessage.formData := Some sample_form |}.

(** A form whose time is the end of the day, and the message that submits
    it to create a calendar event or a task. *)
Definition end_of_day_form : FormData.t :=
  {| FormData.title := "Close"; FormData.date := "2025-10-21";
     FormData.time := "24:00"; FormData.isAllDay := false |}.

Definition end_of_day_submit (itemType : ItemType) : CalendarMessage.t :=
  {| CalendarMessage.type := CalendarMessage.submitEventForm;
     CalendarMessage.year := None; CalendarMessage.month := None;
     CalendarMessage.date := None; CalendarMessage.eventId := None;
     CalendarMessage.eventData := None;
     CalendarMessage.itemType := Some itemType;
     CalendarMessage.mode := Some create;
     CalendarMessage.formData := Some end_of_day_form |}.

Definition sample_event : EventData.t :=
  {| EventData.summary := "Standup";
     EventData.startDate := "2025-10-21T09:00:00.000Z";
     EventData.endDate := "2025-10-21T10:00:00.000Z";
     EventData.isAllDay := false |}.

Definition sample_delete : CalendarMessage.t :=
  {| CalendarMessage.type := CalendarMessage.deleteEvent;
     CalendarMessage.year := None; CalendarMessage.month := None;
     CalendarMessage.date := None; CalendarMessage.eventId := Some "e1";
     CalendarMessage.eventData := None; CalendarMessage.itemType := None;
     CalendarMessage.mode := None; CalendarMessage.formData := None |}.

Definition sample_node : GTask.t :=
  {| GTask.taskListId := "list-a"; GTask.task := scenario_task (Some "Pay rent") |}.

Definition not_found_error : JsError :=
  {| name := "Error"; message := "Task not found"; code := Some 404 |}.

(** A world with the task lists [list-a], [list-b] and [list-c], in which
    the task to patch lives in [list-b], and whose user dismisses every
    dialog. *)
Definition sample_world : World :=
  {| answer := fun c =>
       match c return result (Facade.Resp c) with
       | Facade.getEventsForMonth _ _ => Ok []
       | Facade.createEvent _ => Ok tt
       | Facade.updateEvent _ _ => Ok tt
       | Facade.deleteEvent _ => Ok tt
       | Facade.tasklists_list =>
           Ok [ {| TaskList.id := Some "list-a"; TaskList.title := Some "Home" |};
                {| TaskList.id := Some "list-b"; TaskList.title := Some "Work" |};
                {| TaskList.id := Some "list-c"; TaskList.title := Some "Later" |} ]
       | Facade.tasks_list _ => Ok []
       | Facade.tasks_patch tasklist _ _ =>
           if String.eqb tasklist "list-b" then Ok tt else Throw not_found_error
       | Facade.tasks_insert _ _ => Ok tt
       end;
     choose := fun _ _ => None |}.

(** ** UnifiedDataMerger.ts: the selections *)

Definition getItemsForDate (items : list UnifiedItem.t) (date : string)
  : list UnifiedItem.t :=
  List.filter (fun item => String.eqb (UnifiedItem.dueDate item) date) items.

(** [a <= b] on two dates: the comparison of their time values, false
    when one of them is NaN. *)
Definition date_le (a b : option Z) : bool :=
  match a, b with
  | Some x, Some y => x <=? y
  | _, _ => false
  end.

(** [getUpcomingItems(items, daysAhead)], evaluated at the time [now]. *)
Definition getUpcomingItems (tz : TimeZone) (now : Z)
    (items : list UnifiedItem.t) (daysAhead : Z) : list UnifiedItem.t :=
  let today := Some now in
  let future := TimeClip (now + daysAhead * 24 * 60 * 60 * 1000) in
  List.filter (fun item =>
    let itemDate := Date_parse tz (UnifiedItem.dueDate item) in
    date_le today itemDate && date_le itemDate future) items.

(** [getItemsForMonth(items, year, month)]: the getters of an invalid date
    return NaN, which equals no number. *)
Definition getItemsForMonth (tz : TimeZone) (items : list UnifiedItem.t)
    (year month : Z) : list UnifiedItem.t :=
  List.filter (fun item =>
    match Date_parse tz (UnifiedItem.dueDate item) with
    | Some t => (getFullYear tz t =? year) && (getMonth tz t =? month)
    | None => false
    end) items.

(** A [Map] with string keys: its entries in the order of insertion. *)
Definition Map_has {V} (m : list (string * V)) (key : string) : bool :=
  existsb (fun e => String.eqb e.1 key) m.

Definition Map_get {V} (m : list (string * V)) (key : string) : option V :=
  snd <$> List.find (fun e => String.eqb e.1 key) m.

Fixpoint Map_set {V} (m : list (string * V)) (key : string) (v : V)
  : list (string * V) :=
  match m with
  | [] => [(key, v)]
  | (k, x) :: m' =>
      if String.eqb k key then (k, v) :: m' else (k, x) :: Map_set m' key v
  end.

(** The body of [items.forEach] in [groupByDate]; [push] changes the array
    the map holds.  The map has the date by the time [get] is called. *)
Definition groupItem (grouped : list (string * list UnifiedItem.t))
    (item : UnifiedItem.t) : list (string * list UnifiedItem.t) :=
  let grouped :=
    if negb (Map_has grouped (UnifiedItem.dueDate item))
    then Map_set grouped (UnifiedItem.dueDate item) []
    else grouped in
  match Map_get grouped (UnifiedItem.dueDate item) with
  | Some group => Map_set grouped (UnifiedItem.dueDate item) (group ++ [item])
  | None => grouped
  end.

Definition groupByDate (items : list UnifiedItem.t)
  : list (string * list UnifiedItem.t) :=
  fold_left groupItem items [].

(** ** More of the built-in objects *)

(** [String(n).padStart(width, '0')] on the decimal spelling [s] of a
    number. *)
Definition padStart_zero (width : nat) (s : string) : string :=
  String.concat "" (replicate (width - String.length s) "0") +:+ s.

(** [date.getDay()]: 0 is Sunday; the epoch was a Thursday. *)
Definition getDay (tz : TimeZone) (t : Z) : Z := (Day (LocalTime tz t) + 4) mod 7.

(** [date.setDate(dt)]: the day of the month may overflow; the local time
    of day is kept. *)
Definition setDate (tz : TimeZone) (date : option Z) (dt : Z) : option Z :=
  match date with
  | Some t =>
      let lt := LocalTime tz t in
      let '(y, m, _) := civil_from_days (Day lt) in
      TimeClip (UTC tz (MakeDate (MakeDay y (m - 1) dt) (TimeWithinDay lt)))
  | None => None
  end.

(** [date.setMonth(month)]. *)
Definition setMonth (tz : TimeZone) (date : option Z) (month : Z) : option Z :=
  match date with
  | Some t =>
      let lt := LocalTime tz t in
      let '(y, _, d) := civil_from_days (Day lt) in
      TimeClip (UTC tz (MakeDate (MakeDay y month d) (TimeWithinDay lt)))
  | None => None
  end.

(** ** DateTimeUtils.ts: the date presets *)

(** The [getValue] of the date presets, evaluated at the time [now]. *)
Definition preset_Today (tz : TimeZone) (now : Z) : option Z := Some now.

Definition preset_Tomorrow (tz : TimeZone) (now : Z) : option Z :=
  setDate tz (Some now) (getDate tz now + 1).

Definition preset_NextWeek (tz : TimeZone) (now : Z) : option Z :=
  setDate tz (Some now) (getDate tz now + 7).

Definition preset_NextMonth (tz : TimeZone) (now : Z) : option Z :=
  setMonth tz (Some now) (getMonth tz now + 1).

Definition preset_ThisWeekend (tz : TimeZone) (now : Z) : option Z :=
  let day := getDay tz now in
  let daysUntilWeekend :=
    if Z.rem (6 - day + 7) 7 =? 0 then 6 else Z.rem (6 - day + 7) 7 in
  setDate tz (Some now) (getDate tz now + daysUntilWeekend).

Definition DATE_PRESETS : list (string * (TimeZone -> Z -> option Z)) :=
  [("Today", preset_Today); ("Tomorrow", preset_Tomorrow);
   ("Next Week", preset_NextWeek); ("Next Month", preset_NextMonth);
   ("This Weekend", preset_ThisWeekend)].

(** ** CalendarProvider.ts: the range of a month *)

(** The range [getEventsForMonth(year, month)] asks [getEventsInRange]
    for: [startDate] and [endDate]. *)
Definition getEventsForMonth_range (tz : TimeZone) (year month : Z)
  : option Z * option Z :=
  let startDate := Date_ymd tz (Some year) (Some month) (Some 1) in
  let endDate := Date_ymd tz (Some year) (Some (month + 1)) (Some 0) in
  let endDate := setHours tz endDate 23 59 59 999 in
  (startDate, endDate).

(** ** CalendarWebViewProvider.ts: the page and its script *)

(** [navigateMonth(direction)] in the page rendered for [currentMonth] and
    [currentYear]: the month and the year of the message it posts. *)
Definition navigateMonth (currentMonth currentYear direction : Z) : Z * Z :=
  let newMonth := currentMonth + direction in
  let newYear := currentYear in
  if newMonth <? 0 then (11, newYear - 1)
  else if 11 <? newMonth then (0, newYear + 1)
  else (newMonth, newYear).

(** The private [formatDate(dateStr)] of the provider. *)
Definition formatDate (tz : TimeZone) (dateStr : string) : string :=
  toLocaleDateString_short tz (Date_parse tz dateStr).

(** The [data-date] of the cell of the day [currentDay]. *)
Definition cellDate (currentYear currentMonth currentDay : Z) : string :=
  pretty currentYear +:+ "-" +:+ padStart_zero 2 (pretty (currentMonth + 1))
  +:+ "-" +:+ padStart_zero 2 (pretty currentDay).

(** A cell of the calendar grid: empty, or the day of the month with its
    [data-date]. *)
Definition gridCell (currentYear currentMonth totalDays currentDay : Z)
  : option (Z * string) :=
  if (currentDay <? 1) || (totalDays <? currentDay) then None
  else Some (currentDay, cellDate currentYear currentMonth currentDay).

(** The loops that build [calendarGridHtml]: six weeks of seven days,
    [currentDay] counting up from [1 - startDayOfWeek]. *)
Definition calendarGrid (currentYear currentMonth startDayOfWeek totalDays : Z)
  : list (list (option (Z * string))) :=
  map (fun week =>
         map (fun day =>
                gridCell currentYear currentMonth totalDays
                  (1 - startDayOfWeek + (7 * week + day)))
           (seqZ 0 7))
    (seqZ 0 6).

(** [escapeHtml(text)]; ["034"] is the double quote. *)
Fixpoint escapeHtml (text : string) : string :=
  match text with
  | EmptyString => EmptyString
  | String c rest =>
      if Ascii.eqb c "&" then "&amp;" +:+ escapeHtml rest
      else if Ascii.eqb c "<" then "&lt;" +:+ escapeHtml rest
      else if Ascii.eqb c ">" then "&gt;" +:+ escapeHtml rest
      else if Ascii.eqb c "034" then "&quot;" +:+ escapeHtml rest
      else if Ascii.eqb c "'" then "&#039;" +:+ escapeHtml rest
      else String c (escapeHtml rest)
  end.

(** ** DateTimeUtils.ts: times of day *)

Definition formatTime (hours minutes : Z) : string :=
  let period := if 12 <=? hours then "PM" else "AM" in
  let displayHours := if Z.rem hours 12 =? 0 then 12 else Z.rem hours 12 in
  pretty displayHours +:+ ":" +:+ padStart_zero 2 (pretty minutes)
  +:+ " " +:+ period.

(** [String.prototype.trimEnd], on the UTF-8 encoding: what is left of the
    string once it is all white space is dropped. *)
Fixpoint trimEnd (s : string) : string :=
  match s with
  | EmptyString => EmptyString
  | String c s' =>
      if String.eqb (trimStart s) "" then EmptyString else String c (trimEnd s')
  end.

Definition trim (s : string) : string := trimStart (trimEnd s).

(** [String.prototype.toUpperCase] on the letters a to z.  The patterns of
    [parseCustomTime] accept digits, the colon, white space and the
    letters A, M and P; no character outside a to z becomes one of these
    letters next to another, so the patterns match the same strings. *)
Definition toUpperCase_char (c : ascii) : ascii :=
  let n := nat_of_ascii c in
  if (97 <=? n)%nat && (n <=? 122)%nat then ascii_of_nat (n - 32) else c.

Fixpoint toUpperCase (s : string) : string :=
  match s with
  | EmptyString => EmptyString
  | String c s' => String (toUpperCase_char c) (toUpperCase s')
  end.

(** The captures of [/^(\d{1,2}):(\d{2})$/]. *)
Definition timePattern24 (s : string) : option (string * string) :=
  match s with
  | String h1 (String c (String m1 (String m2 EmptyString))) =>
      if is_digit h1 && Ascii.eqb c ":" && is_digit m1 && is_digit m2
      then Some (String h1 EmptyString, String m1 (String m2 EmptyString))
      else None
  | String h1 (String h2 (String c (String m1 (String m2 EmptyString)))) =>
      if is_digit h1 && is_digit h2 && Ascii.eqb c ":" && is_digit m1
         && is_digit m2
      then Some (String h1 (String h2 EmptyString),
                 String m1 (String m2 EmptyString))
      else None
  | _ => None
  end.

(** What follows the hours in [/^(\d{1,2}):?(\d{2})?\s*(AM|PM)$/]: the
    colon and the two digits are taken when they are there, then all the
    white space; what is left must be the period.  Taking less of any of
    them leaves a character the next part of the pattern does not accept. *)
Definition timePattern12_tail (s : string) : option (option string * string) :=
  let s := match s with
           | String ":" rest => rest
           | _ => s
           end in
  let '(minutes, s) :=
    match s with
    | String m1 (String m2 rest) =>
        if is_digit m1 && is_digit m2
        then (Some (String m1 (String m2 EmptyString)), rest)
        else (None, s)
    | _ => (None, s)
    end in
  let s := trimStart s in
  if String.eqb s "AM" then Some (minutes, "AM")
  else if String.eqb s "PM" then Some (minutes, "PM")
  else None.

(** The captures of the 12-hour pattern: two digits of hours are tried
    before one. *)
Definition timePattern12 (s : string)
  : option (string * option string * string) :=
  match s with
  | String h1 rest1 =>
      if is_digit h1 then
        let two :=
          match rest1 with
          | String h2 rest2 =>
              if is_digit h2 then
                (fun '(minutes, period) =>
                   (String h1 (String h2 EmptyString), minutes, period))
                <$> timePattern12_tail rest2
              else None
          | EmptyString => None
          end in
        match two with
        | Some captures => Some captures
        | None =>
            (fun '(minutes, period) => (String h1 EmptyString, minutes, period))
            <$> timePattern12_tail rest1
        end
      else None
  | EmptyString => None
  end.

(** [parseCustomTime(timeString)]: hours and minutes, or null.  The
    captures hold digits only, so [parseInt] reads a number in them. *)
Definition parseCustomTime (timeString : string) : option (Z * Z) :=
  let trimmed := toUpperCase (trim timeString) in
  let timeMatch24 :=
    '(h, m) ← timePattern24 trimmed;
    hours ← parseInt (Some h);
    minutes ← parseInt (Some m);
    if (0 <=? hours) && (hours <? 24) && (0 <=? minutes) && (minutes <? 60)
    then Some (hours, minutes) else None in
  match timeMatch24 with
  | Some time => Some time
  | None =>
      '(h, m, period) ← timePattern12 trimmed;
      hours ← parseInt (Some h);
      minutes ← parseInt (Some (default "0" m));
      if (hours <? 1) || (12 <? hours) || (minutes <? 0) || (60 <=? minutes)
      then None
      else if String.eqb period "PM" && negb (hours =? 12)
      then Some (hours + 12, minutes)
      else if String.eqb period "AM" && (hours =? 12)
      then Some (0, minutes)
      else Some (hours, minutes)
  end.

(** ** CalendarProvider.ts: the body of a new event *)

Module CreateEventData.
(** The argument of [createEvent], with its optional fields. *)
Record t := {
  summary : string;
  description : option string;
  startDate : string;
  endDate : string;
  isAllDay : option bool;
  recurrence : option (list string);
  reminders : option (list (string * Z));
  isTask : option bool;
}.
End CreateEventData.

Module EventBody.
Record reminders_t := { useDefault : bool; overrides : list (string * Z) }.

(** The [requestBody] of [events.insert]: the fields of an event, its
    [end] and its reminders. *)
Record t := {
  event : CalendarEvent.t;
  end_ : CalendarEvent.time;
  reminders : option reminders_t;
}.
End EventBody.

(** The event [createEvent] builds before it calls [events.insert]. *)
Definition createEvent_body (eventData : CreateEventData.t) : EventBody.t :=
  let allDay := bool_decide (CreateEventData.isAllDay eventData = Some true) in
  let time (value : string) :=
    if allDay
    then {| CalendarEvent.dateTime := None; CalendarEvent.date := Some value |}
    else {| CalendarEvent.dateTime := Some value; CalendarEvent.date := None |} in
  {| EventBody.event :=
       {| CalendarEvent.id := None;
          CalendarEvent.summary := Some (CreateEventData.summary eventData);
          CalendarEvent.description :=
            Some (or_default (CreateEventData.description eventData) "");
          CalendarEvent.start := Some (time (CreateEventData.startDate eventData));
          CalendarEvent.recurrence :=
            match CreateEventData.recurrence eventData with
            | Some (r :: rs) => Some (r :: rs)
            | _ => None
            end;
          CalendarEvent.extendedProperties :=
            if bool_decide (CreateEventData.isTask eventData = Some true)
            then Some {| CalendarEvent.private_ := Some {[ "isTask" := "true" ]} |}
            else None |};
     EventBody.end_ := time (CreateEventData.endDate eventData);
     EventBody.reminders :=
       match CreateEventData.reminders eventData with
       | Some (r :: rs) =>
           Some {| EventBody.useDefault := false; EventBody.overrides := r :: rs |}
       | _ => None
       end |}.

(** The argument the panel passes to [createEvent]: the optional fields
    but [isAllDay] are left out. *)
Definition of_form_event (eventData : EventData.t) : CreateEventData.t :=
  {| CreateEventData.summary := EventData.summary eventData;
     CreateEventData.description := None;
     CreateEventData.startDate := EventData.startDate eventData;
     CreateEventData.endDate := EventData.endDate eventData;
     CreateEventData.isAllDay := Some (EventData.isAllDay eventData);
     CreateEventData.recurrence := None;
     CreateEventData.reminders := None;
     CreateEventData.isTask := None |}.

(** ** ScheduleWebViewProvider.ts: the date the panel opens with *)

(** [currentDue] in [getWebViewContent] of the schedule panel, for the task
    the panel is opened with, at the time [now]. *)
Definition currentDue (tz : TimeZone) (now : Z) (task : option Task.t) : string :=
  if truthy (task ≫= Task.due) then
    hd "" (split "T" (or_default (task ≫= Task.due) ""))
  else
    pretty (getFullYear tz now) +:+ "-"
    +:+ padStart_zero 2 (pretty (getMonth tz now + 1)) +:+ "-"
    +:+ padStart_zero 2 (pretty (getDate tz now)).

(** ** Further vocabulary of the properties *)

(** The day number of the first day of the month after month [m] (1..12)
    of the year [y]. *)
Definition next_month_start (y m : Z) : Z :=
  if m =? 12 then days_from_civil (y + 1) 1 1 else days_from_civil y (m + 1) 1.

(** The calls that read the remote stores. *)
Definition is_read (c : Facade.Call) : bool :=
  match c with
  | Facade.getEventsForMonth _ _ | Facade.tasklists_list | Facade.tasks_list _ =>
      true
  | _ => false
  end.

(** [r1] continues [r] with calls that only read, and changes no field of
    the provider but the page shown. *)
Definition only_reads (r r1 : Run) : Prop :=
  (exists cs, calls r1 = calls r ++ cs /\ forallb is_read cs = true)
  /\ set_panel (panel (state r)) (state r1) = state r.

(** The method [p] runs its continuation, and before it only reads. *)
Definition reads_then (w : World) (p : Prog -> Prog) : Prop :=
  forall k r, exists r1, exec w (p k) r = exec w k r1 /\ only_reads r r1.

(** The method [p] runs its continuation, whatever the world answers. *)
Definition reaches (w : World) (p : Prog -> Prog) : Prop :=
  forall k r, exists r1, exec w (p k) r = exec w k r1.

(** The tasks [refreshCalendar] gathers from the task lists: those with a
    due date, list by list, up to the first list whose call fails. *)
Fixpoint fetched_tasks (w : World) (lists : list TaskList.t)
  : list (Task.t * string) :=
  match lists with
  | [] => []
  | l :: rest =>
      if truthy (TaskList.id l) then
        match answer w (Facade.tasks_list (or_default (TaskList.id l) "")) with
        | Ok tasks =>
            map (fun t => (t, or_default (TaskList.id l) ""))
              (List.filter (fun t => truthy (Task.due t)) tasks)
            ++ fetched_tasks w rest
        | Throw _ => []
        end
      else fetched_tasks w rest
  end.

(** The calls of a run that change the remote stores. *)
Definition writes (r : Run) : list Facade.Call :=
  List.filter (fun c => negb (is_read c)) (calls r).

(** The [requestBody] of [submitCreateTaskFromForm]. *)
Definition create_body (formData : FormData.t) (dueDate : string) : TaskBody.t :=
  {| TaskBody.title := Some (FormData.title formData);
     TaskBody.due := Some (Some dueDate);
     TaskBody.notes :=
       Some ("Created from calendar on " +:+ FormData.date formData
             +:+ (if negb (FormData.isAllDay formData)
                  then " at " +:+ FormData.time formData else ""));
     TaskBody.description := None |}.

(** The form fields of the provider are reset. *)
Definition form_closed (s : State) : Prop :=
  eventFormMode s = None /\ editingEventId s = None
  /\ editingEventData s = None /\ editingEventType s = None
  /\ editingTaskListId s = None.

(** The pending timers are the ones [dayClickTimeouts] records, at most
    one for each cell. *)
Definition timers_recorded (s : PageState) : Prop :=
  0 < next_timer s
  /\ NoDup (map target (timers s))
  /\ forall tm, tm ∈ timers s ->
       dayClickTimeouts s !! target tm = Some (timer_id tm)
       /\ 0 < timer_id tm < next_timer s.

(** The items of one type. *)
Definition of_type (ty : ItemType) (items : list UnifiedItem.t)
  : list UnifiedItem.t :=
  List.filter (fun item => bool_decide (UnifiedItem.type item = ty)) items.

(** The 24-hour spelling of a time of day. *)
Definition time24 (hours minutes : Z) : string :=
  padStart_zero 2 (pretty hours) +:+ ":" +:+ padStart_zero 2 (pretty minutes).

(** Whether [parseCustomTime] reads both spellings of a time back. *)
Definition reads_back (hours minutes : Z) : bool :=
  bool_decide (parseCustomTime (formatTime hours minutes) = Some (hours, minutes))
  && bool_decide (parseCustomTime (time24 hours minutes) = Some (hours, minutes)).

(** ** Further sample inputs *)

(** Saturday 25 October 2025, 10:00 in a zone five hours behind UTC. *)
Definition saturday_morning : Z := 1761404400000.

Definition sample_navigate : CalendarMessage.t :=
  {| CalendarMessage.type := CalendarMessage.navigate;
     CalendarMessage.year := Some 2026; CalendarMessage.month := Some 0;
     CalendarMessage.date := None; CalendarMessage.eventId := None;
     CalendarMessage.eventData := None; CalendarMessage.itemType := None;
     CalendarMessage.mode := None; CalendarMessage.formData := None |}.

(** A form submitted without a title. *)
Definition blank_submit : CalendarMessage.t :=
  {| CalendarMessage.type := CalendarMessage.submitEventForm;
     CalendarMessage.year := None; CalendarMessage.month := None;
     CalendarMessage.date := None; CalendarMessage.eventId := None;
     CalendarMessage.eventData := None;
     CalendarMessage.itemType := Some calendar;
     CalendarMessage.mode := Some create;
     CalendarMessage.formData :=
       Some {| FormData.title := ""; FormData.date := "2025-10-21";
               FormData.time := "09:00"; FormData.isAllDay := false |} |}.

(** The form submitted to create a task. *)
Definition sample_task_submit : CalendarMessage.t :=
  {| CalendarMessage.type := CalendarMessage.submitEventForm;
     CalendarMessage.year := None; CalendarMessage.month := None;
     CalendarMessage.date := None; CalendarMessage.eventId := None;
     CalendarMessage.eventData := None;
     CalendarMessage.itemType := Some task;
     CalendarMessage.mode := Some create;
     CalendarMessage.formData := Some sample_form |}.

(** A world in which the calendar cannot be reached. *)
Definition offline_world : World :=
  {| answer := fun c => Throw (Error "getaddrinfo ENOTFOUND");
     choose := fun _ _ => None |}.

(** The message of the schedule panel for a pick of 21 October 2025. *)
Definition sample_schedule : ScheduleMessage.t :=
  {| ScheduleMessage.type := ScheduleMessage.schedule;
     ScheduleMessage.date := Some "2025-10-21";
     ScheduleMessage.recurring := None;
     ScheduleMessage.message := None |}.

Definition scheduled_task : Task.t :=
  {| Task.id := Some "t1"; Task.title := Some "Pay rent";
     Task.due := Some "2025-10-21T00:00:00.000Z";
     Task.notes := None; Task.status := None |}.

(** * Properties *)

(** ** The sort *)

Section ArraySortFacts.
Context {A : Type} (comparefn : A -> A -> Z).

Lemma sort_insert_perm x l : Permutation (sort_insert comparefn x l) (x :: l).
Proof.
  induction l as [|y l IH]; simpl; [reflexivity|].
  destruct (0 <? comparefn x y); [|reflexivity].
  rewrite IH. apply perm_swap.
Qed.

Lemma Array_sort_perm l : Permutation (Array_sort comparefn l) l.
Proof.
  induction l as [|x l IH]; simpl; [reflexivity|].
  rewrite sort_insert_perm. by constructor.
Qed.

(** A consistent comparator, as ECMAScript asks of [comparefn]. *)
Hypothesis cmp_trans : forall a b c,
  comparefn a b <= 0 -> comparefn b c <= 0 -> comparefn a c <= 0.
Hypothesis cmp_antisym : forall a b, 0 < comparefn a b -> comparefn b a < 0.
Hypothesis cmp_antisym' : forall a b, comparefn a b < 0 -> 0 < comparefn b a.

Local Abbreviation le := (precedes comparefn).

Lemma cmp_zero_sym a b : comparefn a b = 0 -> comparefn b a = 0.
Proof.
  intros H.
  destruct (Z.lt_trichotomy (comparefn b a) 0) as [Hlt|[Heq|Hgt]]; [|done|].
  - apply cmp_antisym' in Hlt. lia.
  - apply cmp_antisym in Hgt. lia.
Qed.

Lemma sort_insert_HdRel x y l :
  le y x -> HdRel le y l -> HdRel le y (sort_insert comparefn x l).
Proof.
  intros Hyx Hl. destruct l as [|z l]; simpl; [by constructor|].
  destruct (0 <? comparefn x z); constructor; [|done].
  by inversion Hl.
Qed.

Lemma sort_insert_Sorted x l :
  Sorted le l -> Sorted le (sort_insert comparefn x l).
Proof.
  induction 1 as [|y l Hs IH Hhd]; simpl; [by repeat constructor|].
  destruct (0 <? comparefn x y) eqn:Hcmp.
  - constructor; [done|]. apply sort_insert_HdRel; [|done].
    apply Z.ltb_lt, cmp_antisym in Hcmp. unfold precedes. lia.
  - apply Z.ltb_ge in Hcmp. repeat constructor; done.
Qed.

Lemma Array_sort_Sorted l : Sorted le (Array_sort comparefn l).
Proof.
  induction l as [|x l IH]; simpl; [constructor|].
  by apply sort_insert_Sorted.
Qed.

Lemma Array_sort_StronglySorted l : StronglySorted le (Array_sort comparefn l).
Proof.
  apply Sorted_StronglySorted; [|apply Array_sort_Sorted].
  intros a b c. apply cmp_trans.
Qed.

(** Stability: the elements that tie with [a] keep their order. *)
Lemma sort_insert_ties a x l :
  filter (fun y => comparefn a y = 0) (sort_insert comparefn x l)
  = filter (fun y => comparefn a y = 0) (x :: l).
Proof.
  induction l as [|y l IH]; simpl; [done|].
  destruct (0 <? comparefn x y) eqn:Hcmp; [|done].
  apply Z.ltb_lt in Hcmp.
  rewrite filter_cons, IH, !filter_cons.
  destruct (decide (comparefn a y = 0)) as [Hy|Hy]; [|done].
  destruct (decide (comparefn a x = 0)) as [Hx|Hx]; [|done].
  exfalso. apply cmp_zero_sym in Hx.
  pose proof (cmp_trans x a y). lia.
Qed.

Lemma Array_sort_ties a l :
  filter (fun y => comparefn a y = 0) (Array_sort comparefn l)
  = filter (fun y => comparefn a y = 0) l.
Proof.
  induction l as [|x l IH]; simpl; [done|].
  by rewrite sort_insert_ties, !filter_cons, IH.
Qed.
End ArraySortFacts.

Lemma StronglySorted_weaken {A} (R S : A -> A -> Prop) l :
  (forall a b, R a b -> S a b) -> StronglySorted R l -> StronglySorted S l.
Proof.
  intros HRS. induction 1 as [|x l Hs IH Hall]; constructor; [done|].
  eapply Forall_impl; [apply Hall|]. intros b. apply HRS.
Qed.

(** ** The merger *)

Lemma calendarEventToUnified_ok event calendarId :
  truthy (CalendarEvent.id event) = true ->
  calendarEventToUnified event calendarId = Ok (unified_of_event event calendarId).
Proof. intros H. unfold calendarEventToUnified. by rewrite H. Qed.

Lemma forEach_pushTask tasks unified :
  forEach (fun u e => Ok (pushTask u e)) tasks unified
  = Ok (unified
        ++ map (fun entry => taskToUnified entry.1 entry.2)
             (List.filter eligible_task tasks)).
Proof.
  revert unified. induction tasks as [|[t l] tasks IH]; intros unified; simpl.
  - by rewrite app_nil_r.
  - unfold mbind, result_bind. rewrite IH. unfold eligible_task; simpl.
    destruct (truthy (Task.title t)), (truthy (Task.due t)); simpl;
      by rewrite <- ?app_assoc.
Qed.

Lemma pushEvent_eq unified event :
  pushEvent unified event
  = Ok (if eligible_event event then unified ++ [unified_of_event event "primary"]
        else unified).
Proof.
  unfold pushEvent, eligible_event.
  destruct (truthy (CalendarEvent.id event)) eqn:Hid; simpl; [|done].
  destruct (truthy (CalendarEvent.summary event)
            && bool_decide (is_Some (CalendarEvent.start event))); simpl; [|done].
  by rewrite calendarEventToUnified_ok.
Qed.

Lemma forEach_pushEvent events unified :
  forEach pushEvent events unified
  = Ok (unified
        ++ map (fun event => unified_of_event event "primary")
             (List.filter eligible_event events)).
Proof.
  revert unified. induction events as [|e events IH]; intros unified; simpl.
  - by rewrite app_nil_r.
  - rewrite pushEvent_eq. simpl. rewrite IH.
    destruct (eligible_event e); simpl; by rewrite <- ?app_assoc.
Qed.

(** [mergeItems] returns the items it meets, sorted. *)
Lemma mergeItems_eq localeCompare tasks events :
  mergeItems localeCompare tasks events
  = Ok (Array_sort (compareItems localeCompare) (unified_input tasks events)).
Proof.
  unfold mergeItems. rewrite forEach_pushTask. simpl.
  by rewrite forEach_pushEvent.
Qed.

Section MergerFacts.
Variable localeCompare : string -> string -> Z.

(** [localeCompare] orders the strings: it is a consistent comparator. *)
Hypothesis lc_refl : forall a, localeCompare a a = 0.
Hypothesis lc_trans : forall a b c,
  localeCompare a b <= 0 -> localeCompare b c <= 0 -> localeCompare a c <= 0.
Hypothesis lc_antisym : forall a b, 0 < localeCompare a b -> localeCompare b a < 0.
Hypothesis lc_antisym' : forall a b, localeCompare a b < 0 -> 0 < localeCompare b a.

Local Ltac order_facts a b c :=
  pose proof (lc_trans a b c); pose proof (lc_trans b c a);
  pose proof (lc_trans c a b); pose proof (lc_trans a c b);
  pose proof (lc_trans b a c); pose proof (lc_trans c b a);
  pose proof (lc_antisym a b); pose proof (lc_antisym b a);
  pose proof (lc_antisym a c); pose proof (lc_antisym c a);
  pose proof (lc_antisym b c); pose proof (lc_antisym c b);
  pose proof (lc_antisym' a b); pose proof (lc_antisym' b a);
  pose proof (lc_antisym' a c); pose proof (lc_antisym' c a);
  pose proof (lc_antisym' b c); pose proof (lc_antisym' c b).

Local Ltac split_compare :=
  unfold compareItems; cbn;
  repeat match goal with
    | |- context [?x =? 0] => destruct (Z.eqb_spec x 0)
    | H : context [?x =? 0] |- _ => destruct (Z.eqb_spec x 0)
    end; simpl in *.

Lemma compareItems_trans a b c :
  compareItems localeCompare a b <= 0 -> compareItems localeCompare b c <= 0 ->
  compareItems localeCompare a c <= 0.
Proof.
  order_facts (UnifiedItem.dueDate a) (UnifiedItem.dueDate b) (UnifiedItem.dueDate c).
  unfold compareItems.
  destruct (UnifiedItem.type a), (UnifiedItem.type b), (UnifiedItem.type c);
    split_compare; lia.
Qed.

Lemma compareItems_antisym a b :
  0 < compareItems localeCompare a b -> compareItems localeCompare b a < 0.
Proof.
  order_facts (UnifiedItem.dueDate a) (UnifiedItem.dueDate b) (UnifiedItem.dueDate b).
  unfold compareItems.
  destruct (UnifiedItem.type a), (UnifiedItem.type b); split_compare; lia.
Qed.

Lemma compareItems_antisym' a b :
  compareItems localeCompare a b < 0 -> 0 < compareItems localeCompare b a.
Proof.
  order_facts (UnifiedItem.dueDate a) (UnifiedItem.dueDate b) (UnifiedItem.dueDate b).
  unfold compareItems.
  destruct (UnifiedItem.type a), (UnifiedItem.type b); split_compare; lia.
Qed.

Lemma compareItems_le a b :
  compareItems localeCompare a b <= 0 ->
  localeCompare (UnifiedItem.dueDate a) (UnifiedItem.dueDate b) <= 0
  /\ (UnifiedItem.dueDate a = UnifiedItem.dueDate b ->
      ~ (UnifiedItem.type a = calendar /\ UnifiedItem.type b = task)).
Proof.
  intros H. split.
  - revert H. split_compare; lia.
  - intros Hd [Ha Hb]. revert H. unfold compareItems.
    rewrite Hd, lc_refl, Ha, Hb. simpl. lia.
Qed.

Lemma compareItems_tie a b :
  UnifiedItem.dueDate a = UnifiedItem.dueDate b ->
  UnifiedItem.type a = UnifiedItem.type b ->
  compareItems localeCompare a b = 0.
Proof.
  intros Hd Ht. unfold compareItems. rewrite Hd, lc_refl, Ht. simpl.
  by destruct (UnifiedItem.type b).
Qed.

(** C2: the output of [mergeItems] is in ascending order of [dueDate];
    of two items with the same [dueDate] a calendar item never comes
    before a task; and the items with the same [dueDate] and the same
    type come in the order in which the inputs were met (the tasks, then
    the events). *)
Theorem mergeItems_sorted_stable tasks calendarEvents :
  exists out,
    mergeItems localeCompare tasks calendarEvents = Ok out
    /\ StronglySorted
         (fun a b =>
            localeCompare (UnifiedItem.dueDate a) (UnifiedItem.dueDate b) <= 0
            /\ (UnifiedItem.dueDate a = UnifiedItem.dueDate b ->
                ~ (UnifiedItem.type a = calendar /\ UnifiedItem.type b = task)))
         out
    /\ forall d ty,
         filter (fun u => UnifiedItem.dueDate u = d /\ UnifiedItem.type u = ty) out
         = filter (fun u => UnifiedItem.dueDate u = d /\ UnifiedItem.type u = ty)
             (unified_input tasks calendarEvents).
Proof.
  eexists. split; [apply mergeItems_eq|]. split.
  - eapply StronglySorted_weaken; [|apply Array_sort_StronglySorted].
    + intros a b. apply compareItems_le.
    + apply compareItems_trans.
    + apply compareItems_antisym.
  - intros d ty.
    set (P := fun u => UnifiedItem.dueDate u = d /\ UnifiedItem.type u = ty).
    set (a := {| UnifiedItem.id := ""; UnifiedItem.type := ty;
                 UnifiedItem.title := ""; UnifiedItem.dueDate := d;
                 UnifiedItem.dueDateTime := None; UnifiedItem.description := None;
                 UnifiedItem.completed := None; UnifiedItem.isAllDay := None;
                 UnifiedItem.recurring := None;
                 UnifiedItem.source :=
                   {| UnifiedItem.taskListId := None;
                      UnifiedItem.calendarId := None |} |}).
    assert (Hties : forall l : list UnifiedItem.t, filter P l
              = filter P (filter (fun y => compareItems localeCompare a y = 0) l)).
    { intros l. rewrite list_filter_filter. apply list_filter_iff.
      intros u. split; [|by intros [? _]].
      intros [Hd Ht]. split; [done|]. by apply compareItems_tie. }
    rewrite Hties, (Hties (unified_input _ _)). f_equal.
    apply Array_sort_ties.
    + apply compareItems_trans.
    + apply compareItems_antisym.
    + apply compareItems_antisym'.
Qed.
End MergerFacts.

(** [codeUnitCompare] is a consistent comparator. *)
Lemma codeUnitCompare_refl a : codeUnitCompare a a = 0.
Proof.
  unfold codeUnitCompare. pose proof (String.compare_antisym a a) as H.
  by destruct (String.compare a a).
Qed.

Lemma codeUnitCompare_le a b : codeUnitCompare a b <= 0 <-> String.le a b.
Proof.
  unfold codeUnitCompare, String.le, String.leb.
  destruct (String.compare a b); simpl; split; intros H; try done; lia.
Qed.

Lemma codeUnitCompare_trans a b c :
  codeUnitCompare a b <= 0 -> codeUnitCompare b c <= 0 -> codeUnitCompare a c <= 0.
Proof.
  rewrite !codeUnitCompare_le. intros Hab Hbc.
  by etrans.
Qed.

Lemma codeUnitCompare_antisym a b :
  0 < codeUnitCompare a b -> codeUnitCompare b a < 0.
Proof.
  unfold codeUnitCompare. rewrite (String.compare_antisym b a).
  destruct (String.compare a b); simpl; lia.
Qed.

Lemma codeUnitCompare_antisym' a b :
  codeUnitCompare a b < 0 -> 0 < codeUnitCompare b a.
Proof.
  unfold codeUnitCompare. rewrite (String.compare_antisym b a).
  destruct (String.compare a b); simpl; lia.
Qed.

Lemma mergeItems_sorted_stable_witness :
  exists out,
    mergeItems codeUnitCompare
      [(scenario_task (Some "Pay rent"), "list-1")]
      [scenario_event (Some "Call the bank")] = Ok out
    /\ StronglySorted
         (fun a b =>
            codeUnitCompare (UnifiedItem.dueDate a) (UnifiedItem.dueDate b) <= 0
            /\ (UnifiedItem.dueDate a = UnifiedItem.dueDate b ->
                ~ (UnifiedItem.type a = calendar /\ UnifiedItem.type b = task)))
         out
    /\ forall d ty,
         filter (fun u => UnifiedItem.dueDate u = d /\ UnifiedItem.type u = ty) out
         = filter (fun u => UnifiedItem.dueDate u = d /\ UnifiedItem.type u = ty)
             (unified_input
                [(scenario_task (Some "Pay rent"), "list-1")]
                [scenario_event (Some "Call the bank")]).
Proof.
  apply (mergeItems_sorted_stable codeUnitCompare codeUnitCompare_refl
           codeUnitCompare_trans codeUnitCompare_antisym codeUnitCompare_antisym').
Defined.

(** The conversion of an event without an id throws. *)
Example calendarEventToUnified_throws :
  calendarEventToUnified
    {| CalendarEvent.id := None; CalendarEvent.summary := Some "Standup";
       CalendarEvent.description := None;
       CalendarEvent.start :=
         Some {| CalendarEvent.dateTime := None;
                 CalendarEvent.date := Some "2025-10-20" |};
       CalendarEvent.recurrence := None;
       CalendarEvent.extendedProperties := None |} "primary"
  = Throw (Error "Calendar event must have an ID").
Proof. reflexivity. Qed.

(** C10: [mergeItems] returns a list for all inputs, and every event it
    hands to [calendarEventToUnified] is converted without the exception
    for a missing id. *)
Theorem mergeItems_never_throws localeCompare tasks calendarEvents :
  (exists out, mergeItems localeCompare tasks calendarEvents = Ok out)
  /\ Forall (fun event => exists u, calendarEventToUnified event "primary" = Ok u)
       (List.filter eligible_event calendarEvents).
Proof.
  split; [eexists; apply mergeItems_eq|].
  apply Forall_forall. intros event Hin.
  apply list_elem_of_In, filter_In in Hin as [_ Hel].
  unfold eligible_event in Hel.
  apply andb_prop in Hel as [Hel _]. apply andb_prop in Hel as [Hid _].
  eexists. by apply calendarEventToUnified_ok.
Qed.

Lemma mergeItems_perm localeCompare tasks events :
  exists out,
    mergeItems localeCompare tasks events = Ok out
    /\ Permutation out (unified_input tasks events).
Proof.
  eexists. split; [apply mergeItems_eq|]. apply Array_sort_perm.
Qed.

Lemma elem_of_unified_input u tasks events :
  u ∈ unified_input tasks events <->
  (exists t l, (t, l) ∈ tasks /\ eligible_task (t, l) = true
               /\ u = taskToUnified t l)
  \/ (exists e, e ∈ events /\ eligible_event e = true
                /\ u = unified_of_event e "primary").
Proof.
  unfold unified_input. rewrite elem_of_app, !list_elem_of_fmap.
  split.
  - intros [([t l] & -> & Hin)|(e & -> & Hin)];
      apply list_elem_of_In, filter_In in Hin as [Hin Hel];
      apply list_elem_of_In in Hin; [left|right]; eauto.
  - intros [(t & l & Hin & Hel & ->)|(e & Hin & Hel & ->)]; [left|right].
    + exists (t, l). split; [done|].
      apply list_elem_of_In, filter_In. split; [by apply list_elem_of_In|done].
    + exists e. split; [done|].
      apply list_elem_of_In, filter_In. split; [by apply list_elem_of_In|done].
Qed.

(** The merge scenario with a task without a title and an event without a
    summary: both guards fail and nothing is merged. *)
Lemma scenario_without_titles_is_empty :
  mergeItems codeUnitCompare
    [(scenario_task None, "list-1")] [scenario_event None] = Ok [].
Proof. reflexivity. Qed.

(** C3, amended: an event with an id, a summary and a start that is tagged
    as a task is merged as an item of type [task] that carries the event's
    [start.dateTime]; a task with a title and a due date is merged as an
    item of type [task] without [dueDateTime]; and the scenario, its task
    and its event having a title, yields exactly two items of type [task]
    dated 2025-10-20, of which [e1] has a [dueDateTime] and [t1] has none. *)
Theorem tagged_event_merged_as_task localeCompare :
  (forall tasks calendarEvents, exists out,
      mergeItems localeCompare tasks calendarEvents = Ok out
      /\ (forall e, e ∈ calendarEvents -> eligible_event e = true ->
            isTaskEvent e = true ->
            exists u, u ∈ out /\ u = unified_of_event e "primary"
                      /\ UnifiedItem.type u = task
                      /\ UnifiedItem.dueDateTime u = start_dateTime e)
      /\ (forall t l, (t, l) ∈ tasks -> eligible_task (t, l) = true ->
            exists u, u ∈ out /\ u = taskToUnified t l
                      /\ UnifiedItem.type u = task
                      /\ UnifiedItem.dueDateTime u = None))
  /\ (forall title summary listId, title <> "" -> summary <> "" ->
        exists out t1 e1,
          mergeItems localeCompare
            [(scenario_task (Some title), listId)]
            [scenario_event (Some summary)] = Ok out
          /\ Permutation out [t1; e1]
          /\ UnifiedItem.id t1 = "t1" /\ UnifiedItem.id e1 = "e1"
          /\ UnifiedItem.type t1 = task /\ UnifiedItem.type e1 = task
          /\ UnifiedItem.dueDate t1 = "2025-10-20"
          /\ UnifiedItem.dueDate e1 = "2025-10-20"
          /\ UnifiedItem.dueDateTime t1 = None
          /\ UnifiedItem.dueDateTime e1 = Some "2025-10-20T21:00:00Z").
Proof.
  split.
  - intros tasks events.
    destruct (mergeItems_perm localeCompare tasks events) as (out & Heq & Hperm).
    exists out. split; [done|]. split.
    + intros e Hin Hel Htag. eexists. split; [|split; [reflexivity|]].
      * rewrite Hperm. apply elem_of_unified_input. right. eauto.
      * simpl. by rewrite Htag.
    + intros t l Hin Hel. eexists. split; [|split; [reflexivity|done]].
      rewrite Hperm. apply elem_of_unified_input. left. eauto.
  - intros title summary listId Ht Hs.
    destruct (mergeItems_perm localeCompare
                [(scenario_task (Some title), listId)]
                [scenario_event (Some summary)]) as (out & Heq & Hperm).
    exists out, (taskToUnified (scenario_task (Some title)) listId),
      (unified_of_event (scenario_event (Some summary)) "primary").
    split; [done|]. split; [|by repeat split].
    rewrite Hperm. unfold unified_input, eligible_task, eligible_event. simpl.
    apply String.eqb_neq in Ht, Hs. rewrite Ht, Hs. simpl.
    reflexivity.
Qed.

Lemma tagged_event_merged_as_task_witness :
  (exists out,
     mergeItems codeUnitCompare
       [(scenario_task (Some "Pay rent"), "list-1")]
       [scenario_event (Some "Call the bank")] = Ok out
     /\ (exists u, u ∈ out
            /\ u = unified_of_event (scenario_event (Some "Call the bank")) "primary"
            /\ UnifiedItem.type u = task
            /\ UnifiedItem.dueDateTime u = Some "2025-10-20T21:00:00Z")
     /\ (exists u, u ∈ out
            /\ u = taskToUnified (scenario_task (Some "Pay rent")) "list-1"
            /\ UnifiedItem.type u = task
            /\ UnifiedItem.dueDateTime u = None))
  /\ (exists out t1 e1,
        mergeItems codeUnitCompare
          [(scenario_task (Some "Pay rent"), "list-1")]
          [scenario_event (Some "Call the bank")] = Ok out
        /\ Permutation out [t1; e1]
        /\ UnifiedItem.id t1 = "t1" /\ UnifiedItem.id e1 = "e1"
        /\ UnifiedItem.type t1 = task /\ UnifiedItem.type e1 = task
        /\ UnifiedItem.dueDate t1 = "2025-10-20"
        /\ UnifiedItem.dueDate e1 = "2025-10-20"
        /\ UnifiedItem.dueDateTime t1 = None
        /\ UnifiedItem.dueDateTime e1 = Some "2025-10-20T21:00:00Z").
Proof.
  destruct (tagged_event_merged_as_task codeUnitCompare) as [Hall Hscenario].
  split.
  - destruct (Hall [(scenario_task (Some "Pay rent"), "list-1")]
                [scenario_event (Some "Call the bank")])
      as (out & Heq & Hevent & Htask).
    exists out. split; [exact Heq|]. split.
    + apply (Hevent (scenario_event (Some "Call the bank")));
        [apply list_elem_of_here|reflexivity|reflexivity].
    + apply (Htask (scenario_task (Some "Pay rent")) "list-1");
        [apply list_elem_of_here|reflexivity].
  - apply (Hscenario "Pay rent" "Call the bank" "list-1"); discriminate.
Defined.

(** A task with a due date and no title is left out of the merge. *)
Lemma untitled_task_is_left_out :
  mergeItems codeUnitCompare
    [({| Task.id := Some "t7"; Task.title := None;
         Task.due := Some "2025-11-03T00:00:00.000Z";
         Task.notes := None; Task.status := Some "needsAction" |}, "list-1")]
    [] = Ok [].
Proof. reflexivity. Qed.

(** C8, amended: every task with a title and a due date is merged as an
    item of type [task]; and every item of the output comes from a task
    that has a title and a due date or from an event that has an id, a
    summary and a start, one item for each of them: a task without [due]
    and an event without [start] do not appear. *)
Theorem mergeItems_includes_and_excludes localeCompare tasks calendarEvents :
  exists out,
    mergeItems localeCompare tasks calendarEvents = Ok out
    /\ (forall t l, (t, l) ∈ tasks ->
          truthy (Task.title t) = true -> truthy (Task.due t) = true ->
          taskToUnified t l ∈ out /\ UnifiedItem.type (taskToUnified t l) = task)
    /\ (forall u, u ∈ out ->
          (exists t l, (t, l) ∈ tasks /\ truthy (Task.title t) = true
                       /\ truthy (Task.due t) = true /\ u = taskToUnified t l)
          \/ (exists e, e ∈ calendarEvents /\ truthy (CalendarEvent.id e) = true
                        /\ truthy (CalendarEvent.summary e) = true
                        /\ is_Some (CalendarEvent.start e)
                        /\ u = unified_of_event e "primary"))
    /\ length out
       = (length (List.filter eligible_task tasks)
          + length (List.filter eligible_event calendarEvents))%nat.
Proof.
  destruct (mergeItems_perm localeCompare tasks calendarEvents)
    as (out & Heq & Hperm).
  exists out. split; [done|]. split; [|split].
  - intros t l Hin Htitle Hdue. split; [|done].
    rewrite Hperm. apply elem_of_unified_input. left.
    exists t, l. unfold eligible_task. simpl. by rewrite Htitle, Hdue.
  - intros u Hu. rewrite Hperm in Hu.
    apply elem_of_unified_input in Hu
      as [(t & l & Hin & Hel & ->)|(e & Hin & Hel & ->)]; [left|right].
    + unfold eligible_task in Hel. simpl in Hel.
      apply andb_prop in Hel as [? ?]. eauto 10.
    + unfold eligible_event in Hel.
      apply andb_prop in Hel as [Hel Hst]. apply andb_prop in Hel as [? ?].
      apply bool_decide_eq_true in Hst. eauto 10.
  - rewrite Hperm. unfold unified_input.
    by rewrite length_app, !length_map.
Qed.

Lemma mergeItems_includes_and_excludes_witness :
  exists out,
    mergeItems codeUnitCompare [(scenario_task (Some "Pay rent"), "list-1")] []
    = Ok out
    /\ taskToUnified (scenario_task (Some "Pay rent")) "list-1" ∈ out.
Proof.
  destruct (mergeItems_includes_and_excludes codeUnitCompare
              [(scenario_task (Some "Pay rent"), "list-1")] [])
    as (out & Heq & Hin & _).
  exists out. split; [exact Heq|].
  apply (Hin (scenario_task (Some "Pay rent")) "list-1");
    [apply list_elem_of_here|reflexivity|reflexivity].
Defined.

(** ** Dates *)

Lemma append_assoc (a b c : string) : (a +:+ b) +:+ c = a +:+ (b +:+ c).
Proof.
  induction a as [|ch a IH]; [reflexivity|].
  change (String ch ((a +:+ b) +:+ c) = String ch (a +:+ b +:+ c)).
  by rewrite IH.
Qed.

Lemma append_nil_r (a : string) : a +:+ "" = a.
Proof.
  induction a as [|ch a IH]; [reflexivity|].
  change (String ch (a +:+ "") = String ch a). by rewrite IH.
Qed.

Lemma same_midnight a b o :
  (a * msPerDay - o =? b * msPerDay - o) = (a =? b).
Proof.
  unfold msPerDay.
  destruct (Z.eqb_spec a b), (Z.eqb_spec (a * 86400000 - o) (b * 86400000 - o)); lia.
Qed.

Lemma ceil_days_exact n : ceil_days (n * msPerDay) = n.
Proof.
  unfold ceil_days, msPerDay. Z.div_mod_to_equations. lia.
Qed.

Lemma parsed_due_nonempty due y :
  (parsed_due due).1.1 = Some y -> truthy (Some due) = true.
Proof. destruct due; [discriminate|done]. Qed.

Lemma civil_from_days_spec z :
  let '(y, m, d) := civil_from_days z in
  days_from_civil y m d = z /\ 1 <= m <= 12 /\ 1 <= d <= 31
  /\ (-1 <= z -> 1600 <= y).
Proof.
  unfold civil_from_days, days_from_civil.
  set (z' := z + 719468).
  set (era := z' / 146097).
  set (doe := z' - era * 146097).
  assert (Hdoe : 0 <= doe < 146097)
    by (unfold doe, era; Z.div_mod_to_equations; lia).
  set (yoe := (doe - doe / 1460 + doe / 36524 - doe / 146096) / 365).
  assert (Hyoe : 0 <= yoe <= 399) by (unfold yoe; Z.div_mod_to_equations; lia).
  set (doy := doe - (365 * yoe + yoe / 4 - yoe / 100)).
  assert (Hdoy : 0 <= doy <= 365)
    by (unfold doy, yoe; Z.div_mod_to_equations; lia).
  set (mp := (5 * doy + 2) / 153).
  assert (Hmp : 0 <= mp <= 11) by (unfold mp; Z.div_mod_to_equations; lia).
  assert (Hera : -1 <= z -> 4 <= era)
    by (unfold era, z'; Z.div_mod_to_equations; lia).
  destruct (Z.ltb_spec mp 10).
  - destruct (Z.leb_spec (mp + 3) 2); [lia|].
    destruct (Z.ltb_spec 2 (mp + 3)); [|lia].
    replace (mp + 3 - 3) with mp by lia.
    replace ((yoe + era * 400) / 400) with era by (Z.div_mod_to_equations; lia).
    replace (yoe + era * 400 - era * 400) with yoe by lia.
    fold doy. unfold doy, doe, z'.
    split; [|unfold mp]; Z.div_mod_to_equations; lia.
  - destruct (Z.leb_spec (mp - 9) 2); [|lia].
    destruct (Z.ltb_spec 2 (mp - 9)); [lia|].
    replace (mp - 9 + 9) with mp by lia.
    replace (yoe + era * 400 + 1 - 1) with (yoe + era * 400) by lia.
    replace ((yoe + era * 400) / 400) with era by (Z.div_mod_to_equations; lia).
    replace (yoe + era * 400 - era * 400) with yoe by lia.
    fold doy. unfold doy, doe, z'.
    split; [|unfold mp]; Z.div_mod_to_equations; lia.
Qed.

(** [new Date(y, m, d)] at the components of a day, moved by [delta]
    days, is the midnight of that day. *)
Lemma MakeDay_civil z delta :
  -1 <= z ->
  let '(y, m, d) := civil_from_days z in
  MakeDay (MakeFullYear y) (m - 1) (d + delta) = z + delta.
Proof.
  intros Hz. pose proof (civil_from_days_spec z) as H.
  destruct (civil_from_days z) as [[y m] d].
  destruct H as (Heq & Hm & Hd & Hy). specialize (Hy Hz).
  unfold MakeFullYear, MakeDay.
  destruct (Z.leb_spec 0 y), (Z.leb_spec y 99); simpl; try lia.
  replace ((m - 1) / 12) with 0 by (Z.div_mod_to_equations; lia).
  replace ((m - 1) mod 12 + 1) with m by (Z.div_mod_to_equations; lia).
  rewrite Z.add_0_r. rewrite <- Heq. unfold days_from_civil. lia.
Qed.

Section FixedZone.
Variable minutes : Z.
Hypothesis minutes_range : -1440 <= minutes <= 1440.

Local Abbreviation tz := (fixedZone minutes).

Lemma midnight_near_today now delta :
  0 <= now <= 8640000000000000 - msPerDay -> -1 <= delta <= 1 ->
  Date_ymd tz (Some (getFullYear tz now)) (Some (getMonth tz now))
    (Some (getDate tz now + delta))
  = Some ((Day (LocalTime tz now) + delta) * msPerDay - minutes * msPerMinute).
Proof.
  intros Hnow Hdelta. unfold Date_ymd, getFullYear, getMonth, getDate.
  assert (Hday : -1 <= Day (LocalTime tz now)).
  { unfold Day, LocalTime, msPerDay, msPerMinute in *. simpl.
    unfold msPerMinute. Z.div_mod_to_equations. lia. }
  pose proof (MakeDay_civil (Day (LocalTime tz now)) delta Hday) as H.
  destruct (civil_from_days (Day (LocalTime tz now))) as [[y m] d]. simpl.
  rewrite H. unfold UTC, MakeDate, TimeClip. simpl.
  rewrite Z.add_0_r.
  destruct (Z.leb_spec
    (Z.abs ((Day (LocalTime tz now) + delta) * msPerDay - minutes * msPerMinute))
    8640000000000000) as [|Hbad]; [done|].
  exfalso. revert Hbad. unfold Day, LocalTime, msPerDay, msPerMinute in *. simpl.
  unfold msPerMinute. Z.div_mod_to_equations. lia.
Qed.

(** C7, amended: in a zone whose UTC offset does not change, for a due
    date that reads as a valid date, [formatDueDate] returns the calendar
    sign and a space, followed by "Today", "Tomorrow" or "Yesterday" alone
    when the due day is the local today, the day after or the day before,
    and otherwise by the short month and day label and one suffix with
    the number of days between the two days, "from now" or "ago"; then
    the recurrence in brackets when there is one. *)
Theorem formatDueDate_relative now due recurring y m d :
  parsed_due due = (Some y, Some m, Some d) ->
  0 <= now <= 8640000000000000 - msPerDay ->
  Z.abs (MakeDay (MakeFullYear y) (m - 1) d * msPerDay - minutes * msPerMinute)
    <= 8640000000000000 ->
  let today := Day (LocalTime tz now) in
  let dueDay := MakeDay (MakeFullYear y) (m - 1) d in
  formatDueDate tz now (Some due) recurring
  = "📅 "
    +:+ (if dueDay =? today then "Today"
         else if dueDay =? today + 1 then "Tomorrow"
         else if dueDay =? today - 1 then "Yesterday"
         else short_label dueDay
              +:+ (if today <? dueDay
                   then " (" +:+ pretty (dueDay - today) +:+ "d from now)"
                   else " (" +:+ pretty (today - dueDay) +:+ "d ago)"))
    +:+ (if truthy recurring then " [" +:+ or_default recurring "" +:+ "]"
         else "").
Proof.
  intros Hparse Hnow Hdue today dueDay.
  unfold formatDueDate.
  rewrite (parsed_due_nonempty due y) by (by rewrite Hparse). simpl negb. cbv iota.
  unfold parsed_due in Hparse.
  injection Hparse as Hy Hm Hd.
  change (or_default (Some due) "") with (if String.eqb due "" then "" else due).
  replace (if String.eqb due "" then "" else due) with due
    by (by destruct (String.eqb_spec due "")).
  rewrite Hy, Hm, Hd.
  change ((fun m0 : Z => m0 - 1) <$> Some m) with (Some (m - 1)).
  assert (Hdate : Date_ymd tz (Some y) (Some (m - 1)) (Some d)
                  = Some (dueDay * msPerDay - minutes * msPerMinute)).
  { unfold Date_ymd, UTC, MakeDate, TimeClip, fixedZone, LocalTZA.
    rewrite Z.add_0_r.
    fold dueDay in Hdue |- *.
    by destruct (Z.leb_spec (Z.abs (dueDay * msPerDay - minutes * msPerMinute))
                   8640000000000000); [|lia]. }
  pose proof (midnight_near_today now 0 Hnow ltac:(lia)) as H0.
  pose proof (midnight_near_today now 1 Hnow ltac:(lia)) as H1.
  pose proof (midnight_near_today now (-1) Hnow ltac:(lia)) as H2.
  rewrite !Z.add_0_r in H0. fold today in H0, H1, H2.
  change (getDate tz now - 1) with (getDate tz now + -1).
  rewrite Hdate, H0, H1, H2.
  unfold same_time. rewrite !same_midnight.
  change (today + -1) with (today - 1).
  assert (Hlabel : toLocaleDateString_short tz
                     (Some (dueDay * msPerDay - minutes * msPerMinute))
                   = short_label dueDay).
  { unfold toLocaleDateString_short, short_label, LocalTime, Day,
      fixedZone, LocalTZA.
    replace ((dueDay * msPerDay - minutes * msPerMinute + minutes * msPerMinute)
             / msPerDay) with dueDay; [done|].
    unfold msPerDay. Z.div_mod_to_equations. lia. }
  destruct (Z.eqb_spec dueDay today) as [He0|Hn0];
    [|destruct (Z.eqb_spec dueDay (today + 1)) as [He1|Hn1];
      [|destruct (Z.eqb_spec dueDay (today - 1)) as [He2|Hn2]]];
    cbv beta iota; cbn [negb].
  - destruct (truthy recurring);
      rewrite ?append_nil_r, ?append_assoc; reflexivity.
  - destruct (truthy recurring);
      rewrite ?append_nil_r, ?append_assoc; reflexivity.
  - destruct (truthy recurring);
      rewrite ?append_nil_r, ?append_assoc; reflexivity.
  - rewrite Hlabel.
    cbv [mbind option_bind fmap option_fmap option_map]. cbv beta iota.
    replace (dueDay * msPerDay - minutes * msPerMinute
             - (today * msPerDay - minutes * msPerMinute))
      with ((dueDay - today) * msPerDay) by lia.
    rewrite ceil_days_exact.
    destruct (Z.ltb_spec today dueDay) as [Hlt|Hge].
    + rewrite (proj2 (Z.ltb_lt 0 (dueDay - today))) by lia.
      destruct (truthy recurring);
        rewrite ?append_nil_r, ?append_assoc; reflexivity.
    + rewrite (proj2 (Z.ltb_ge 0 (dueDay - today))) by lia.
      rewrite (proj2 (Z.ltb_lt (dueDay - today) 0)) by lia.
      replace (Z.abs (dueDay - today)) with (today - dueDay) by lia.
      destruct (truthy recurring);
        rewrite ?append_nil_r, ?append_assoc; reflexivity.
Qed.
End FixedZone.

Lemma formatDueDate_relative_witness :
  formatDueDate (fixedZone (-300)) 1761843600000 (Some "2025-11-04") None
  = "📅 Nov 4 (5d from now)".
Proof.
  etrans.
  - apply (formatDueDate_relative (-300) ltac:(lia) 1761843600000 "2025-11-04"
             None 2025 11 4); [reflexivity|unfold msPerDay; lia|by vm_compute].
  - by vm_compute.
Defined.

(** On the day itself the label is not the bare word: it starts with the
    calendar sign. *)
Lemma formatDueDate_today_has_prefix :
  formatDueDate (fixedZone 0) 1761843600000 (Some "2025-10-30") None <> "Today".
Proof. by vm_compute. Qed.

(** Where the clocks go back between today and the due date, the two local
    midnights are 25 hours more than five days apart and [Math.ceil] counts
    six days: noon of 30 October 2025 in New York, due 4 November. *)
Example formatDueDate_across_clock_change :
  formatDueDate newYork2025 1761840000000 (Some "2025-11-04") None
  = "📅 Nov 4 (6d from now)".
Proof. by vm_compute. Qed.

(** ** Date strings and [new Date] *)

Lemma is_digit_neq c x :
  is_digit c = true -> is_digit x = false -> Ascii.eqb c x = false.
Proof. intros Hc Hx. destruct (Ascii.eqb_spec c x); [congruence|done]. Qed.

Lemma is_digit_byte c : is_digit c = true -> 48 <= byte_of c <= 57.
Proof.
  unfold is_digit, byte_of.
  intros [H1%Nat.leb_le H2%Nat.leb_le]%andb_true_iff. lia.
Qed.

Lemma append_String c a b : String c a +:+ b = String c (a +:+ b).
Proof. reflexivity. Qed.

Lemma append_empty b : "" +:+ b = b.
Proof. reflexivity. Qed.

(** The strings the test [/^\d{4}-\d{2}-\d{2}$/] accepts. *)
Lemma date_only_shape s :
  is_date_only s = true ->
  exists y1 y2 y3 y4 m1 m2 a1 a2,
    s = String y1 (String y2 (String y3 (String y4 (String "-"
          (String m1 (String m2 (String "-" (String a1 (String a2 "")))))))))
    /\ is_digit y1 = true /\ is_digit y2 = true /\ is_digit y3 = true
    /\ is_digit y4 = true /\ is_digit m1 = true /\ is_digit m2 = true
    /\ is_digit a1 = true /\ is_digit a2 = true.
Proof.
  unfold is_date_only.
  do 10 (destruct s as [|? s]; [done|]). destruct s; [|done].
  cbn [list_ascii_of_string].
  intros H. repeat (rewrite andb_true_iff in H; destruct H as [H ?]).
  repeat match goal with
    | H : Ascii.eqb ?c "-" = true |- _ => apply Ascii.eqb_eq in H; subst c
    end.
  by repeat eexists.
Qed.

Lemma date_only_split y1 y2 y3 y4 m1 m2 a1 a2 :
  is_digit y1 = true -> is_digit y2 = true -> is_digit y3 = true ->
  is_digit y4 = true -> is_digit m1 = true -> is_digit m2 = true ->
  is_digit a1 = true -> is_digit a2 = true ->
  split "-" (String y1 (String y2 (String y3 (String y4 (String "-"
          (String m1 (String m2 (String "-" (String a1 (String a2 ""))))))))))
  = [String y1 (String y2 (String y3 (String y4 "")));
     String m1 (String m2 ""); String a1 (String a2 "")].
Proof.
  intros Hy1 Hy2 Hy3 Hy4 Hm1 Hm2 Ha1 Ha2. cbn [split].
  rewrite (is_digit_neq y1 "-" Hy1 eq_refl), (is_digit_neq y2 "-" Hy2 eq_refl),
    (is_digit_neq y3 "-" Hy3 eq_refl), (is_digit_neq y4 "-" Hy4 eq_refl),
    (is_digit_neq m1 "-" Hm1 eq_refl), (is_digit_neq m2 "-" Hm2 eq_refl),
    (is_digit_neq a1 "-" Ha1 eq_refl), (is_digit_neq a2 "-" Ha2 eq_refl).
  reflexivity.
Qed.

(** A digit is no white space. *)
Lemma trimStart_digit c r : is_digit c = true -> trimStart (String c r) = String c r.
Proof.
  intros Hb%is_digit_byte.
  assert (H1 : ws1 c = false).
  { unfold ws1. apply orb_false_iff. split; [apply andb_false_iff; right|]; lia. }
  assert (H2 : forall c2, (byte_of c =? 194) && (byte_of c2 =? 160) = false).
  { intros c2. apply andb_false_iff. left. lia. }
  assert (H3 : forall c2 c3, ws3 c c2 c3 = false).
  { intros c2 c3. unfold ws3.
    replace (byte_of c =? 225) with false by lia.
    replace (byte_of c =? 226) with false by lia.
    replace (byte_of c =? 227) with false by lia.
    replace (byte_of c =? 239) with false by lia. done. }
  cbn [trimStart]. rewrite H1.
  destruct r as [|c2 [|c3 r]]; [done|by rewrite H2|by rewrite H2, H3].
Qed.

Lemma parseInt_digit c r :
  is_digit c = true -> parseInt (Some (String c r)) = digits_value None (String c r).
Proof.
  intros Hc. unfold parseInt. rewrite (trimStart_digit c r Hc).
  destruct (Ascii.eqb_spec c "-") as [->|Hm]; [done|].
  destruct (Ascii.eqb_spec c "+") as [->|Hp]; [done|].
  destruct c as [[] [] [] [] [] [] [] []]; try done.
Qed.

Lemma parse_day_date_only s day : parse_day s = Some day -> is_date_only s = true.
Proof. unfold parse_day. by destruct (is_date_only s). Qed.

(** On [YYYY-MM-DD] the date of the date-time string format is the day
    [parse_day] gives. *)
Lemma parse_date_day s day : parse_day s = Some day -> parse_date s = Some day.
Proof.
  unfold parse_day. destruct (is_date_only s) eqn:Hs; [|done].
  destruct (date_only_shape s Hs)
    as (y1 & y2 & y3 & y4 & m1 & m2 & a1 & a2 & -> & Hy1 & Hy2 & Hy3 & Hy4 & ?).
  destruct_and!.
  unfold parse_date. rewrite date_only_split by done.
  rewrite (is_digit_neq y1 "+") by done.
  rewrite parseInt_digit by done.
  unfold fixed_number.
  cbn [String.length Nat.eqb all_digits digits_value andb].
  rewrite Hy1, Hy2, Hy3, Hy4.
  cbn [andb digits_value option_bind mbind default from_option id fst snd].
  done.
Qed.


Lemma is_digit_no_separator c : is_digit c = true -> is_time_separator c = false.
Proof.
  intros Hc. unfold is_time_separator.
  by rewrite (is_digit_neq c "T" Hc eq_refl), (is_digit_neq c "t" Hc eq_refl).
Qed.

(** A date [YYYY-MM-DD] has no [T]: the time, if there is one, starts at
    the first [T] after the date. *)
Lemma break_at_date_only s :
  is_date_only s = true ->
  break_at is_time_separator s = (s, None)
  /\ forall c rest, is_time_separator c = true ->
       break_at is_time_separator (s +:+ String c rest) = (s, Some (c, rest)).
Proof.
  intros Hs.
  destruct (date_only_shape s Hs)
    as (y1 & y2 & y3 & y4 & m1 & m2 & a1 & a2 & -> & Hy1 & Hy2 & Hy3 & Hy4
        & Hm1 & Hm2 & Ha1 & Ha2).
  split; [|intros c rest Hc; rewrite !append_String, append_empty];
    cbn [break_at];
    rewrite (is_digit_no_separator y1 Hy1), (is_digit_no_separator y2 Hy2),
      (is_digit_no_separator y3 Hy3), (is_digit_no_separator y4 Hy4),
      (is_digit_no_separator m1 Hm1), (is_digit_no_separator m2 Hm2),
      (is_digit_no_separator a1 Ha1), (is_digit_no_separator a2 Ha2);
    change (is_time_separator "-") with false; [done|by rewrite Hc].
Qed.



(** The spellings of the format, read in a zone two hours east of UTC:
    dates without a time are in UTC, times without a zone in local time. *)
Example Date_parse_dates :
  map (Date_parse (fixedZone 120))
    ["2025"; "2025-10"; "2025-10-21"; "+002025-10-21"; "-000001-01-01";
     "2025-02-30"]
  = [Some 1735689600000; Some 1759276800000; Some 1761004800000;
     Some 1761004800000; Some (-62198755200000); Some 1740873600000].
Proof. by vm_compute. Qed.

Example Date_parse_times :
  map (Date_parse (fixedZone 120))
    ["2025-10-21T09:00"; "2025-10-21T09:00:00"; "2025-10-21T09:00:00Z";
     "2025-10-21T09:00:00.5Z"; "2025-10-21T09:00:00.55Z";
     "2025-10-21T09:00:00.555Z"; "2025-10-21T09:00:00.5559Z";
     "2025-10-21t09:00:00z"; "2025-10-21T09:00:00+02:00";
     "2025-10-21T09:00:00-0530"; "2025T09:00Z"]
  = [Some 1761030000000; Some 1761030000000; Some 1761037200000;
     Some 1761037200500; Some 1761037200550;
     Some 1761037200555; Some 1761037200555;
     Some 1761037200000; Some 1761030000000;
     Some 1761057000000; Some 1735722000000].
Proof. by vm_compute. Qed.

(** The end of the day is midnight of the next day; no other time has the
    hour 24. *)
Example Date_parse_end_of_day :
  map (Date_parse (fixedZone 0))
    ["2025-10-21T24:00"; "2025-10-21T24:00:00"; "2025-10-21T24:00:00.000Z";
     "2025-10-22T00:00:00.000Z"; "2025-10-21T24:00:01"; "2025-10-21T24:01";
     "2025-10-21T25:00"]
  = [Some 1761091200000; Some 1761091200000; Some 1761091200000;
     Some 1761091200000; None; None; None].
Proof. by vm_compute. Qed.

Example Date_parse_invalid :
  map (Date_parse (fixedZone 0))
    [""; "2025-13-01"; "2025-10-32"; "2025-10-21T"; "2025-10-21T9:00";
     "2025-10-21T09:00:00:00"; "2025-10-21T09:00:60"; "2025-10-21T09:00:00."]
  = [None; None; None; None; None; None; None; None].
Proof. by vm_compute. Qed.

(** A form whose time is [24:00] gives an event that starts at midnight of
    the next day. *)
Example formTimes_end_of_day :
  formTimes (fixedZone 0) end_of_day_form
  = Ok ("2025-10-22T00:00:00.000Z", "2025-10-22T01:00:00.000Z").
Proof. by vm_compute. Qed.





(** ** The panel *)

Lemma quiet_refl r : quiet r r.
Proof. repeat split. exists []. by rewrite app_nil_r. Qed.

Lemma quiet_trans r1 r2 r3 : quiet r1 r2 -> quiet r2 r3 -> quiet r1 r3.
Proof.
  intros (Hp1 & Hn1 & cs1 & Hc1) (Hp2 & Hn2 & cs2 & Hc2).
  split; [congruence|]. split; [congruence|].
  exists (cs1 ++ cs2). by rewrite Hc2, Hc1, <- app_assoc.
Qed.

Lemma quiet_state f r : quiet r (run_state f r).
Proof. repeat split. exists []. simpl. by rewrite app_nil_r. Qed.

Lemma quiet_dialog msg r : quiet r (run_dialog msg r).
Proof. repeat split. exists []. simpl. by rewrite app_nil_r. Qed.

Lemma quiet_note n r : is_not_found n = false -> quiet r (run_note n r).
Proof.
  intros Hn. split; [done|]. split.
  - simpl. rewrite existsb_app. simpl. rewrite Hn. by rewrite !orb_false_r.
  - exists []. simpl. by rewrite app_nil_r.
Qed.

Lemma quiet_call c r : is_patch c = false -> quiet r (run_call c r).
Proof.
  intros Hc. split; [|split; [done|by exists [c]]].
  simpl. rewrite List.filter_app. simpl. rewrite Hc. by rewrite app_nil_r.
Qed.

Section ProviderFacts.
Variable tz : TimeZone.
Variable localeCompare : string -> string -> Z.
Variable w : World.

Lemma refreshFailed_quiet e : runs_quietly w (refreshFailed e).
Proof.
  intros k r. unfold refreshFailed.
  repeat case_match; simpl;
    repeat case_match; simpl; eexists; (split; [reflexivity|]);
    eauto using quiet_trans, quiet_dialog, quiet_note.
Qed.

Lemma render_quiet tasks events : runs_quietly w (render localeCompare tasks events).
Proof.
  intros k r. unfold render.
  destruct (mergeItems localeCompare tasks events) as [items|e].
  - simpl. destruct (panel (state r)).
    + simpl. eexists. split; [reflexivity|]. apply quiet_state.
    + apply refreshFailed_quiet.
  - apply refreshFailed_quiet.
Qed.

Lemma fetchTasks_quiet lists : forall acc k r,
  exists acc' r1,
    exec w (fetchTasks lists acc k) r = exec w (k acc') r1 /\ quiet r r1.
Proof.
  induction lists as [|l lists IH]; intros acc k r; simpl.
  - exists acc, r. split; [done|apply quiet_refl].
  - destruct (truthy (TaskList.id l)); [|apply IH]. simpl.
    destruct (answer w (Facade.tasks_list _)) as [tasks|e].
    + edestruct IH as (acc' & r1 & Heq & Hq). rewrite Heq.
      exists acc', r1. split; [done|].
      eapply quiet_trans; [|exact Hq]. by apply quiet_call.
    + eexists _, _. split; [reflexivity|]. by apply quiet_call.
Qed.

Lemma refreshCalendar_quiet : runs_quietly w (refreshCalendar localeCompare).
Proof.
  intros k r. unfold refreshCalendar. cbn [exec].
  destruct (negb (bool_decide (is_Some (panel (state r))))
            || negb (calendarProvider (state r))).
  { exists r. split; [done|apply quiet_refl]. }
  cbn [exec].
  set (r0 := run_call _ r).
  assert (Hq0 : quiet r r0) by (by apply quiet_call).
  destruct (answer w (Facade.getEventsForMonth _ _)) as [events|e].
  - cbn [exec]. destruct (taskProvider (state r0) && service (state r0)).
    + cbn [exec]. set (r1 := run_call Facade.tasklists_list r0).
      assert (Hq1 : quiet r r1)
        by (eapply quiet_trans; [exact Hq0|by apply quiet_call]).
      destruct (answer w Facade.tasklists_list) as [lists|e].
      * destruct (fetchTasks_quiet lists []
                    (fun tasks => render localeCompare tasks events k) r1)
          as (acc & r2 & Heq & Hq2).
        destruct (render_quiet acc events k r2) as (r3 & Heq3 & Hq3).
        exists r3. split; [exact (eq_trans Heq Heq3)|].
        eauto using quiet_trans.
      * destruct (render_quiet [] events k r1) as (r3 & Heq3 & Hq3).
        exists r3. split; [exact Heq3|]. eauto using quiet_trans.
    + destruct (render_quiet [] events k r0) as (r3 & Heq3 & Hq3).
      exists r3. split; [exact Heq3|]. eauto using quiet_trans.
  - destruct (refreshFailed_quiet e k r0) as (r3 & Heq3 & Hq3).
    exists r3. split; [exact Heq3|]. eauto using quiet_trans.
Qed.

(** After a successful update: the message, then the refresh. *)
Lemma updated_quiet r :
  quiet r
    (exec w (Notify (showInformationMessage "Task updated!")
               (refreshCalendar localeCompare Done)) r).
Proof.
  cbn [exec]. destruct (refreshCalendar_quiet Done (run_note
    (showInformationMessage "Task updated!") r)) as (r1 & Heq & Hq).
  rewrite Heq. cbn [exec].
  eapply quiet_trans; [|exact Hq]. by apply quiet_note.
Qed.

Lemma searchLists_scan taskId body lists r :
  let r' := exec w (searchLists localeCompare taskId body lists Done) r in
  List.filter is_patch (calls r')
  = List.filter is_patch (calls r)
    ++ map (fun l => Facade.tasks_patch l taskId body)
         (scan_until (patch_ok w taskId body) (list_ids lists))
  /\ existsb is_not_found (notes r')
     = existsb is_not_found (notes r)
       || forallb (fun l => negb (patch_ok w taskId body l)) (list_ids lists)
  /\ exists cs, calls r' = calls r ++ cs.
Proof.
  revert r. induction lists as [|l lists IH]; intros r.
  - cbn [searchLists exec list_ids List.filter map scan_until forallb].
    rewrite app_nil_r. unfold run_note at 1 2 3. cbn [calls notes].
    rewrite existsb_app. repeat split. exists []. by rewrite app_nil_r.
  - cbn [searchLists]. unfold list_ids. cbn [List.filter].
    destruct (truthy (TaskList.id l)); [|apply IH].
    cbn [exec map scan_until forallb]. fold (list_ids lists).
    unfold patch_ok at 1 3.
    set (c := Facade.tasks_patch (or_default (TaskList.id l) "") taskId body).
    destruct (answer w c) as [u|e].
    + destruct (updated_quiet (run_call c r)) as (Hp & Hn & cs & Hcs).
      rewrite Hp, Hn, Hcs. cbn [run_call calls notes negb andb map].
      rewrite List.filter_app. cbn [List.filter is_patch c].
      rewrite orb_false_r. repeat split.
      exists (c :: cs). by rewrite <- app_assoc.
    + destruct (IH (run_call c r)) as (Hp & Hn & cs & Hcs).
      rewrite Hp, Hn, Hcs. cbn [run_call calls notes negb andb map].
      rewrite List.filter_app. cbn [List.filter is_patch c].
      rewrite <- !app_assoc. repeat split.
      by exists (c :: cs).
Qed.

(** C9: [submitEditTask] with a task list id first patches in that list;
    when that call fails it asks for all the task lists and patches in
    one after the other, up to the first list in which the patch
    succeeds; and it warns that the task was not found exactly when the
    patch has failed in the supplied list and in every list. *)
Theorem submitEditTask_lookup s taskId formData listId dueDate :
  taskProvider s = true -> service s = true ->
  FormData.title formData <> "" -> listId <> "" ->
  isoOfString tz (FormData.date formData +:+ "T00:00:00.000Z") = Ok dueDate ->
  let body := edit_body formData dueDate in
  let ok := patch_ok w taskId body in
  let r :=
    exec w (submitEditTask tz localeCompare taskId formData (Some listId) Done)
      (start s) in
  hd_error (calls r) = Some (Facade.tasks_patch listId taskId body)
  /\ List.filter is_patch (calls r)
     = map (fun l => Facade.tasks_patch l taskId body)
         (listId
          :: (if ok listId then []
              else match answer w Facade.tasklists_list with
                   | Ok lists => scan_until ok (list_ids lists)
                   | Throw _ => []
                   end))
  /\ (existsb is_not_found (notes r) = true <->
        ok listId = false
        /\ exists lists,
             answer w Facade.tasklists_list = Ok lists
             /\ Forall (fun l => ok l = false) (list_ids lists)).
Proof.
  intros Htp Hsvc Htitle Hlist Hdue body ok r. subst r.
  unfold submitEditTask. cbn [exec start state].
  rewrite Htp, Hsvc. apply String.eqb_neq in Htitle, Hlist.
  rewrite Htitle, Hdue. cbn [negb orb truthy or_default]. rewrite Hlist.
  cbn [negb exec]. fold (edit_body formData dueDate). fold body.
  set (c := Facade.tasks_patch listId taskId body).
  set (r0 := run_call c (start s)).
  assert (Hok : ok listId
                = match answer w c with Ok _ => true | Throw _ => false end)
    by reflexivity.
  destruct (answer w c) as [u|e]; rewrite Hok.
  - destruct (updated_quiet r0) as (Hp & Hn & cs & Hcs).
    rewrite Hp, Hn, Hcs. split; [reflexivity|]. split; [reflexivity|].
    split; [discriminate|]. by intros [? _].
  - cbn [exec]. change (state r0) with s. rewrite Htp, Hsvc. cbn [andb exec].
    set (r1 := run_call Facade.tasklists_list r0).
    destruct (answer w Facade.tasklists_list) as [lists|e'].
    + destruct (searchLists_scan taskId body lists r1) as (Hp & Hn & cs & Hcs).
      rewrite Hp, Hn, Hcs. split; [reflexivity|]. split; [reflexivity|].
      change (existsb is_not_found (notes r1)) with false. cbn [orb].
      rewrite forallb_forall. split.
      * intros Hall. split; [done|]. exists lists. split; [done|].
        apply Forall_forall. intros l Hl.
        apply list_elem_of_In, Hall in Hl. by apply negb_true_iff in Hl.
      * intros (_ & lists' & [= <-] & Hall) l Hl.
        rewrite Forall_forall in Hall.
        apply negb_true_iff, Hall. by apply list_elem_of_In.
    + cbn [exec]. split; [reflexivity|]. split; [reflexivity|].
      split; [discriminate|]. by intros (_ & lists & ? & _).
Qed.
End ProviderFacts.

Lemma submitEditTask_lookup_witness :
  List.filter is_patch
    (calls (exec sample_world
              (submitEditTask (fixedZone 0) codeUnitCompare "task-1" sample_form
                 (Some "list-a") Done)
              (start sample_state)))
  = map (fun l => Facade.tasks_patch l "task-1"
                    (edit_body sample_form "2025-10-21T00:00:00.000Z"))
      ["list-a"; "list-a"; "list-b"].
Proof.
  destruct (submitEditTask_lookup (fixedZone 0) codeUnitCompare sample_world
              sample_state "task-1" sample_form "list-a"
              "2025-10-21T00:00:00.000Z")
    as (_ & Hpatches & _);
    [reflexivity|reflexivity|discriminate|discriminate|by vm_compute|].
  exact Hpatches.
Defined.

(** C6: when the user does not confirm, a [deleteEvent] message and the
    command that clears a schedule make no call on the remote stores and
    leave the fields of the provider as they were. *)
Theorem declined_confirmation_changes_nothing tz localeCompare w s msg node :
  CalendarMessage.type msg = CalendarMessage.deleteEvent ->
  choose w "Delete this event?" ["Delete"] <> Some "Delete" ->
  choose w "Clear this task schedule?" ["Clear"; "Cancel"] <> Some "Clear" ->
  let deleted := exec w (onDidReceiveMessage tz localeCompare msg) (start s) in
  let cleared := exec w (clearTaskSchedule node) (start s) in
  (state deleted = s /\ calls deleted = [])
  /\ (state cleared = s /\ calls cleared = []).
Proof.
  intros Htype Hdelete Hclear deleted cleared. subst deleted cleared. split.
  - unfold onDidReceiveMessage. rewrite Htype.
    destruct (truthy (CalendarMessage.eventId msg)); [|done].
    unfold handleDeleteEvent. cbn [exec start state].
    destruct (calendarProvider s); [|done]. cbn [negb exec].
    by rewrite bool_decide_false.
  - unfold clearTaskSchedule.
    destruct (truthy (Task.id (GTask.task node))); [|done]. cbn [negb].
    destruct (truthy (Task.due (GTask.task node))); [|done]. cbn [negb exec].
    by rewrite bool_decide_false.
Qed.

Lemma declined_confirmation_changes_nothing_witness :
  (state (exec sample_world
            (onDidReceiveMessage (fixedZone 0) codeUnitCompare sample_delete)
            (start sample_state)) = sample_state
   /\ calls (exec sample_world
               (onDidReceiveMessage (fixedZone 0) codeUnitCompare sample_delete)
               (start sample_state)) = [])
  /\ (state (exec sample_world (clearTaskSchedule sample_node)
               (start sample_state)) = sample_state
      /\ calls (exec sample_world (clearTaskSchedule sample_node)
                  (start sample_state)) = []).
Proof.
  apply (declined_confirmation_changes_nothing (fixedZone 0) codeUnitCompare
           sample_world sample_state sample_delete sample_node);
    [reflexivity|discriminate|discriminate].
Defined.

(** With the confirmation the event is deleted: the guard is what keeps
    the call back. *)
Example confirmed_delete_calls_the_store :
  calls (exec {| answer := answer sample_world;
                 choose := fun _ _ => Some "Delete" |}
           (onDidReceiveMessage (fixedZone 0) codeUnitCompare sample_delete)
           (start sample_state))
  = [Facade.deleteEvent "e1"; Facade.getEventsForMonth 2025 9;
     Facade.tasklists_list; Facade.tasks_list "list-a";
     Facade.tasks_list "list-b"; Facade.tasks_list "list-c"].
Proof. by vm_compute. Qed.

(** A second [submitEventForm] message, delivered while the call of the
    first one is still awaited, makes a second [createEvent] call. *)
Lemma second_submit_makes_second_call :
  let idle := {| run := start sample_state; suspended := [] |} in
  let first := loop_step (fixedZone 0) codeUnitCompare idle (Deliver sample_submit) in
  let second := loop_step (fixedZone 0) codeUnitCompare first (Deliver sample_submit) in
  length (suspended first) = 1%nat
  /\ calls (run first) = [Facade.createEvent sample_event]
  /\ calls (run second)
     = [Facade.createEvent sample_event; Facade.createEvent sample_event].
Proof. by vm_compute. Qed.

(** C4, amended: the provider has no submitting state and rejects no
    message.  A [submitEventForm] message in create mode for a calendar
    item, with a title and a valid date and time, makes its [createEvent]
    call when it arrives, whatever is still in flight, and leaves the
    fields of the provider as they are. *)
Theorem submit_is_never_rejected tz localeCompare l msg formData times :
  CalendarMessage.type msg = CalendarMessage.submitEventForm ->
  CalendarMessage.formData msg = Some formData ->
  CalendarMessage.mode msg = Some create ->
  CalendarMessage.itemType msg <> Some task ->
  calendarProvider (state (run l)) = true ->
  FormData.title formData <> "" ->
  formTimes tz formData = Ok times ->
  let l' := loop_step tz localeCompare l (Deliver msg) in
  calls (run l') = calls (run l) ++ [Facade.createEvent (formEvent formData times)]
  /\ length (suspended l') = S (length (suspended l))
  /\ state (run l') = state (run l).
Proof.
  intros Htype Hform Hmode Hitem Hcal Htitle Htimes l'. subst l'.
  unfold loop_step, onDidReceiveMessage. rewrite Htype, Hform, Hmode.
  rewrite bool_decide_true by done.
  rewrite bool_decide_false
    by (destruct (CalendarMessage.itemType msg) as [[]|]; simpl; congruence).
  unfold submitCreateEvent. cbn [run_sync]. rewrite Hcal, Htimes.
  apply String.eqb_neq in Htitle. rewrite Htitle. cbn [negb orb run_sync].
  cbn [run suspended]. rewrite length_app. cbn [length].
  repeat split. lia.
Qed.

Lemma submit_is_never_rejected_witness :
  let busy :=
    loop_step (fixedZone 0) codeUnitCompare
      {| run := start sample_state; suspended := [] |} (Deliver sample_submit) in
  calls (run (loop_step (fixedZone 0) codeUnitCompare busy (Deliver sample_submit)))
  = calls (run busy) ++ [Facade.createEvent sample_event].
Proof.
  intros busy.
  apply (submit_is_never_rejected (fixedZone 0) codeUnitCompare busy sample_submit
           sample_form ("2025-10-21T09:00:00.000Z", "2025-10-21T10:00:00.000Z"));
    [reflexivity|reflexivity|reflexivity|discriminate|reflexivity|discriminate
    |by vm_compute].
Defined.

(** Both submissions go through: when the two calls have been answered,
    two events have been created and each method has gone on to refresh the
    calendar. *)
Example both_submissions_create_an_event :
  let done :=
    loop_run (fixedZone 0) codeUnitCompare
      {| run := start sample_state; suspended := [] |}
      [Deliver sample_submit; Deliver sample_submit;
       Resolve 0 sample_world; Resolve 0 sample_world] in
  calls (run done)
  = [Facade.createEvent sample_event; Facade.createEvent sample_event;
     Facade.getEventsForMonth 2025 9; Facade.getEventsForMonth 2025 9]
  /\ notes (run done)
     = [showInformationMessage "Event created!";
        showInformationMessage "Event created!"].
Proof. by vm_compute. Qed.

(** ** The click handlers of the page *)

(** Timer ids are positive in every state the page reaches. *)
Lemma page_step_next_timer s e : 0 < next_timer s -> 0 < next_timer (page_step s e).
Proof.
  intros Hs.
  assert (Hadv : forall now, 0 < next_timer (advance now s)).
  { intros now. unfold advance.
    match goal with
    | |- context [fold_left timer_fires ?due ?s0] =>
        generalize due; intros l; assert (H0 : 0 < next_timer s0) by done;
        revert H0; generalize s0
    end.
    induction l as [|tm l IH]; intros s0 H0; [done|]. by apply IH. }
  destruct e as [d now|d now|now]; cbn [page_step]; [| |done].
  - specialize (Hadv now). unfold on_click.
    destruct (_ && _); cbn [next_timer]; lia.
  - specialize (Hadv now). unfold on_dblclick.
    destruct (dayClickTimeouts (advance now s) !! d) as [existing|];
      [destruct (existing =? 0)|]; done.
Qed.

Lemma page_run_next_timer es : forall s,
  0 < next_timer s -> 0 < next_timer (page_run s es).
Proof.
  induction es as [|e es IH]; intros s Hs; [done|].
  apply IH. by apply page_step_next_timer.
Qed.

Lemma timer_fires_other d s tm :
  target tm <> d ->
  List.filter (concerns d) (transitions (timer_fires s tm))
  = List.filter (concerns d) (transitions s)
  /\ dayClickTimeouts (timer_fires s tm) !! d = dayClickTimeouts s !! d.
Proof.
  intros Hd. unfold timer_fires. cbn [transitions dayClickTimeouts].
  split; [|by apply lookup_delete_ne].
  destruct (String.eqb (target tm) ""); [done|].
  apply String.eqb_neq in Hd.
  destruct (bool_decide (page_selected s = Some (target tm))); cbn [snd];
    rewrite List.filter_app; cbn [List.filter concerns]; rewrite Hd;
    by rewrite app_nil_r.
Qed.

Lemma timers_fire_other d due : forall s,
  Forall (fun tm => target tm <> d) due ->
  List.filter (concerns d) (transitions (fold_left timer_fires due s))
  = List.filter (concerns d) (transitions s)
  /\ dayClickTimeouts (fold_left timer_fires due s) !! d = dayClickTimeouts s !! d
  /\ lastClickTime (fold_left timer_fires due s) = lastClickTime s
  /\ next_timer (fold_left timer_fires due s) = next_timer s
  /\ timers (fold_left timer_fires due s) = timers s.
Proof.
  induction due as [|tm due IH]; intros s Hall; [done|].
  apply Forall_cons in Hall as [Htm Hall]. cbn [fold_left].
  destruct (IH (timer_fires s tm) Hall) as (Htr & Hmap & Hlast & Hnext & Htimers).
  destruct (timer_fires_other d s tm Htm) as [Htr' Hmap'].
  rewrite Htr, Hmap, Hlast, Hnext, Htimers. done.
Qed.

(** Time passing does not touch a cell none of whose timers is due. *)
Lemma advance_other d now s :
  (forall tm, tm ∈ timers s -> target tm = d -> now < fires_at tm) ->
  List.filter (concerns d) (transitions (advance now s))
  = List.filter (concerns d) (transitions s)
  /\ dayClickTimeouts (advance now s) !! d = dayClickTimeouts s !! d
  /\ lastClickTime (advance now s) = lastClickTime s
  /\ next_timer (advance now s) = next_timer s
  /\ timers (advance now s)
     = List.filter (fun tm => negb (fires_at tm <=? now)) (timers s).
Proof.
  intros Hdue. unfold advance.
  match goal with
  | |- context [fold_left timer_fires ?due ?s0] =>
      destruct (timers_fire_other d due s0) as (Htr & Hmap & Hlast & Hnext & Htm)
  end.
  { apply Forall_forall. intros tm Hin.
    apply list_elem_of_In, filter_In in Hin as [Hin Hle].
    intros Heq. apply list_elem_of_In in Hin.
    specialize (Hdue tm Hin Heq). apply Z.leb_le in Hle. lia. }
  by rewrite Htr, Hmap, Hlast, Hnext, Htm.
Qed.

Lemma registered_advance d bound now s :
  now <= bound -> registered d bound s -> registered d bound (advance now s).
Proof.
  intros Hnow Hreg.
  destruct (advance_other d now s) as (_ & Hmap & _ & _ & Htimers).
  { intros tm Hin Hd. destruct (Hreg tm Hin Hd) as (_ & _ & ?). lia. }
  intros tm Hin Hd. rewrite Htimers in Hin.
  apply list_elem_of_In, filter_In in Hin as [Hin _].
  apply list_elem_of_In in Hin. rewrite Hmap. by apply Hreg.
Qed.

Lemma elem_of_clearTimeout tm id ts :
  tm ∈ clearTimeout id ts <-> tm ∈ ts /\ timer_id tm <> id.
Proof.
  unfold clearTimeout. rewrite !list_elem_of_In, filter_In, negb_true_iff.
  by rewrite Z.eqb_neq.
Qed.

Lemma registered_click d bound now s :
  0 < next_timer s -> bound < now + DOUBLE_CLICK_DELAY ->
  registered d bound s ->
  registered d bound (on_click d now s)
  /\ 0 < next_timer (on_click d now s)
  /\ lastClickTime (on_click d now s) !! d = Some now
  /\ transitions (on_click d now s) = transitions s.
Proof.
  intros Hnext Hbound Hreg. unfold on_click.
  destruct ((now - default 0 (lastClickTime s !! d) <? DOUBLE_CLICK_DELAY)
            && (0 <? now - default 0 (lastClickTime s !! d))).
  { cbn [next_timer lastClickTime transitions].
    split; [exact Hreg|]. by rewrite lookup_insert_eq. }
  cbn [next_timer lastClickTime transitions].
  split; [|by rewrite lookup_insert_eq; split; [lia|]].
  intros tm Hin Hd. cbn [timers dayClickTimeouts] in *.
  rewrite lookup_insert_eq.
  apply elem_of_app in Hin as [Hin|Hin].
  - exfalso.
    destruct (dayClickTimeouts s !! d) as [existing|] eqn:Hmap.
    + destruct (Z.eqb_spec existing 0) as [->|Hne].
      * destruct (Hreg tm Hin Hd) as (Heq & Hid & _). congruence.
      * apply elem_of_clearTimeout in Hin as [Hin Hid].
        destruct (Hreg tm Hin Hd) as (Heq & _ & _). congruence.
    + destruct (Hreg tm Hin Hd) as (Heq & _ & _). congruence.
  - apply list_elem_of_singleton in Hin as ->. cbn [timer_id fires_at].
    split; [done|]. split; lia.
Qed.

Lemma dblclick_opens_form d bound s :
  d <> "" -> registered d bound s ->
  (forall tm, tm ∈ timers (on_dblclick d s) -> target tm <> d)
  /\ transitions (on_dblclick d s) = transitions s ++ [FormOpened create d]
  /\ next_timer (on_dblclick d s) = next_timer s.
Proof.
  intros Hd Hreg. unfold on_dblclick. apply String.eqb_neq in Hd.
  destruct (dayClickTimeouts s !! d) as [existing|] eqn:Hmap;
    [destruct (Z.eqb_spec existing 0) as [->|Hne]|];
    cbn [timers transitions next_timer]; rewrite Hd;
    (split; [|done]); intros tm Hin Heq.
  - destruct (Hreg tm Hin Heq) as (Hsome & Hid & _). congruence.
  - apply elem_of_clearTimeout in Hin as [Hin Hid].
    destruct (Hreg tm Hin Heq) as (Hsome & _ & _). congruence.
  - destruct (Hreg tm Hin Heq) as (Hsome & _ & _). congruence.
Qed.

Lemma advance_registered d bound now s :
  now <= bound -> registered d bound s ->
  registered d bound (advance now s)
  /\ List.filter (concerns d) (transitions (advance now s))
     = List.filter (concerns d) (transitions s)
  /\ next_timer (advance now s) = next_timer s.
Proof.
  intros Hnow Hreg. split; [by apply registered_advance|].
  destruct (advance_other d now s) as (Htr & _ & _ & Hnext & _); [|done].
  intros tm Hin Hd. destruct (Hreg tm Hin Hd) as (_ & _ & ?). lia.
Qed.

Lemma no_timer_registered d bound s :
  (forall tm, tm ∈ timers s -> target tm <> d) -> registered d bound s.
Proof. intros Hno tm Hin Hd. by destruct (Hno tm Hin). Qed.

Lemma advance_no_timer d now s :
  (forall tm, tm ∈ timers s -> target tm <> d) ->
  (forall tm, tm ∈ timers (advance now s) -> target tm <> d)
  /\ List.filter (concerns d) (transitions (advance now s))
     = List.filter (concerns d) (transitions s).
Proof.
  intros Hno.
  destruct (advance_other d now s) as (Htr & _ & _ & _ & Htimers).
  { intros tm Hin Hd. by destruct (Hno tm Hin). }
  split; [|done]. intros tm Hin. rewrite Htimers in Hin.
  apply list_elem_of_In, filter_In in Hin as [Hin _].
  by apply Hno, list_elem_of_In.
Qed.

(** Two presses on the cell [d] less than the delay apart, which the page
    receives as two clicks and a double click: the form opens once and the
    cell is neither selected nor deselected, whatever timers other cells
    have pending. *)
Lemma double_press_opens_form s d t0 t1 T :
  d <> "" -> 0 < next_timer s ->
  (forall tm, tm ∈ timers s -> target tm <> d) ->
  t0 <= t1 < t0 + DOUBLE_CLICK_DELAY -> t1 <= T ->
  let s' := page_run s [click d t0; click d t1; dblclick d t1; wait T] in
  List.filter (concerns d) (transitions s')
  = List.filter (concerns d) (transitions s) ++ [FormOpened create d]
  /\ (forall tm, tm ∈ timers s' -> target tm <> d).
Proof.
  intros Hd Hnext Hno Ht HT s'. subst s'. cbn [page_run fold_left page_step].
  pose proof (no_timer_registered d t1 s Hno) as H0.
  destruct (advance_registered d t1 t0 s) as (H1 & Htr1 & Hn1); [lia|done|].
  destruct (registered_click d t1 t0 (advance t0 s))
    as (H2 & Hn2 & _ & Htr2); [lia|lia|done|].
  destruct (advance_registered d t1 t1 _ ltac:(lia) H2) as (H3 & Htr3 & Hn3).
  destruct (registered_click d t1 t1 (advance t1 (on_click d t0 (advance t0 s))))
    as (H4 & Hn4 & _ & Htr4); [lia|unfold DOUBLE_CLICK_DELAY; lia|done|].
  destruct (advance_registered d t1 t1 _ ltac:(lia) H4) as (H5 & Htr5 & Hn5).
  destruct (dblclick_opens_form d t1 _ Hd H5) as (H6 & Htr6 & Hn6).
  destruct (advance_no_timer d T _ H6) as (H7 & Htr7).
  split; [|exact H7].
  rewrite Htr7, Htr6, List.filter_app, Htr5, Htr4, Htr3, Htr2, Htr1.
  cbn [List.filter concerns]. by rewrite String.eqb_refl.
Qed.

(** A press that is no part of a double press: more than the delay after
    the last click on the cell, or the first click on it. *)
Lemma click_not_ignored d now s :
  ~ (0 < now - default 0 (lastClickTime s !! d) < DOUBLE_CLICK_DELAY) ->
  (now - default 0 (lastClickTime s !! d) <? DOUBLE_CLICK_DELAY)
  && (0 <? now - default 0 (lastClickTime s !! d)) = false.
Proof.
  intros H. apply andb_false_iff.
  destruct (Z.ltb_spec (now - default 0 (lastClickTime s !! d)) DOUBLE_CLICK_DELAY);
    destruct (Z.ltb_spec 0 (now - default 0 (lastClickTime s !! d))); auto; lia.
Qed.

(** Presses on two different cells, with no timer pending before: each
    cell gets its own selection toggle when its delay has passed, also when
    the second press comes before the delay of the first has passed. *)
Lemma two_cells_two_selections s d1 d2 t1 t2 T :
  d1 <> "" -> d2 <> "" -> d1 <> d2 ->
  timers s = [] ->
  dayClickTimeouts s !! d1 = None -> dayClickTimeouts s !! d2 = None ->
  ~ (0 < t1 - default 0 (lastClickTime s !! d1) < DOUBLE_CLICK_DELAY) ->
  ~ (0 < t2 - default 0 (lastClickTime s !! d2) < DOUBLE_CLICK_DELAY) ->
  t1 <= t2 -> t2 + DOUBLE_CLICK_DELAY <= T ->
  transitions (page_run s [click d1 t1; click d2 t2; wait T])
  = transitions s
    ++ [if bool_decide (page_selected s = Some d1) then Deselected d1
        else Selected d1;
        Selected d2].
Proof.
  intros Hd1 Hd2 Hne Htimers Hmap1 Hmap2 Hc1 Hc2 Ht HT.
  cbn [page_run fold_left page_step].
  unfold advance at 3. rewrite Htimers. cbn [List.filter fold_left].
  unfold on_click at 2. cbn [lastClickTime dayClickTimeouts timers next_timer
    transitions page_selected].
  rewrite (click_not_ignored d1 t1 s Hc1), Hmap1.
  cbn [app].
  assert (Hlast : default 0 (<[d1:=t1]> (lastClickTime s) !! d2)
                  = default 0 (lastClickTime s !! d2))
    by (by rewrite lookup_insert_ne).
  assert (He1 : String.eqb d1 "" = false) by (by apply String.eqb_neq).
  assert (He2 : String.eqb d2 "" = false) by (by apply String.eqb_neq).
  assert (Hdue2 : (t2 + DOUBLE_CLICK_DELAY <=? T) = true) by (apply Z.leb_le; lia).
  assert (Hdue1 : (t1 + DOUBLE_CLICK_DELAY <=? T) = true) by (apply Z.leb_le; lia).
  pose proof (click_not_ignored d2 t2 s Hc2) as Hclick2.
  unfold advance at 2. cbn [timers List.filter fires_at].
  destruct (Z.leb_spec (t1 + DOUBLE_CLICK_DELAY) t2) as [Hfired|Hpending];
    cbn [negb List.filter fold_left page_selected dayClickTimeouts lastClickTime
         timers next_timer transitions].
  - unfold timer_fires at 1. cbn [target page_selected dayClickTimeouts
      lastClickTime timers next_timer transitions]. rewrite He1.
    unfold on_click. cbn [page_selected dayClickTimeouts lastClickTime timers
      next_timer transitions]. rewrite Hlast, Hclick2.
    rewrite lookup_delete_ne, lookup_insert_ne, Hmap2 by done.
    unfold advance. cbn [timers app List.filter fires_at]. rewrite Hdue2.
    cbn [negb List.filter fold_left]. unfold timer_fires.
    cbn [target page_selected dayClickTimeouts lastClickTime timers next_timer
      transitions]. rewrite He2.
    destruct (bool_decide (page_selected s = Some d1)); cbn [fst snd];
      rewrite bool_decide_false by congruence; cbn [snd];
      by rewrite <- app_assoc.
  - unfold on_click. cbn [page_selected dayClickTimeouts lastClickTime timers
      next_timer transitions]. rewrite Hlast, Hclick2.
    rewrite lookup_insert_ne, Hmap2 by done.
    unfold advance. cbn [timers app List.filter fires_at]. rewrite Hdue1, Hdue2.
    cbn [negb List.filter fold_left]. unfold timer_fires.
    cbn [target page_selected dayClickTimeouts lastClickTime timers next_timer
      transitions]. rewrite He1, He2.
    destruct (bool_decide (page_selected s = Some d1)); cbn [fst snd];
      rewrite bool_decide_false by congruence; cbn [snd];
      by rewrite <- app_assoc.
Qed.

Lemma second_press_ignored d t0 t1 (m : gmap string Z) :
  t0 < t1 < t0 + DOUBLE_CLICK_DELAY ->
  (t1 - default 0 (<[d:=t0]> m !! d) <? DOUBLE_CLICK_DELAY)
  && (0 <? t1 - default 0 (<[d:=t0]> m !! d)) = true.
Proof.
  intros Ht. rewrite lookup_insert_eq. cbn [default from_option]. unfold id.
  apply andb_true_iff. split; apply Z.ltb_lt; lia.
Qed.

(** Two presses on the cell [d] less than the delay apart, which the page
    receives as two clicks and no double click: the [click] listener
    returns early on the second, the timer of the first stays pending, and
    when it fires the selection of the cell is toggled; no form opens. *)
Lemma two_presses_one_selection s d t0 t1 T :
  d <> "" -> timers s = [] -> dayClickTimeouts s !! d = None ->
  ~ (0 < t0 - default 0 (lastClickTime s !! d) < DOUBLE_CLICK_DELAY) ->
  t0 < t1 < t0 + DOUBLE_CLICK_DELAY -> t0 + DOUBLE_CLICK_DELAY <= T ->
  transitions (page_run s [click d t0; click d t1; wait T])
  = transitions s
    ++ [if bool_decide (page_selected s = Some d) then Deselected d
        else Selected d].
Proof.
  intros Hd Htimers Hmap Hc0 Ht HT.
  cbn [page_run fold_left page_step].
  unfold advance at 3. rewrite Htimers. cbn [List.filter fold_left].
  unfold on_click at 2. cbn [lastClickTime dayClickTimeouts timers next_timer
    transitions page_selected].
  rewrite (click_not_ignored d t0 s Hc0), Hmap. cbn [app].
  assert (He : String.eqb d "" = false) by (by apply String.eqb_neq).
  assert (Hdue : (t0 + DOUBLE_CLICK_DELAY <=? T) = true) by (apply Z.leb_le; lia).
  assert (Hwait : (t0 + DOUBLE_CLICK_DELAY <=? t1) = false) by (apply Z.leb_gt; lia).
  unfold advance at 2. cbn [timers List.filter fires_at]. rewrite Hwait.
  cbn [negb List.filter fold_left page_selected dayClickTimeouts lastClickTime
       timers next_timer transitions].
  unfold on_click. cbn [page_selected dayClickTimeouts lastClickTime timers
    next_timer transitions].
  rewrite (second_press_ignored d t0 t1 (lastClickTime s) Ht).
  unfold advance. cbn [timers List.filter fires_at]. rewrite Hdue.
  cbn [negb List.filter fold_left]. unfold timer_fires.
  cbn [target page_selected dayClickTimeouts lastClickTime timers next_timer
    transitions]. rewrite He.
  by destruct (bool_decide (page_selected s = Some d)).
Qed.

(** C5, as the code has it: what cancels the pending timer of a cell is the
    [dblclick] listener, not the second press.  Two presses on the same
    cell within the delay that the browser reports as click, click and
    dblclick open the form once and select nothing, and leave no timer of
    the cell pending.  Two presses within the delay that come as two
    clicks without a dblclick open no form: the second click is ignored and
    the timer of the first toggles the selection of the cell.  Presses on
    two different cells give each cell its own selection toggle: the
    pending timers are kept per cell. *)
Theorem click_disambiguation :
  (forall s d t0 t1 T,
      d <> "" -> 0 < next_timer s ->
      (forall tm, tm ∈ timers s -> target tm <> d) ->
      t0 <= t1 < t0 + DOUBLE_CLICK_DELAY -> t1 <= T ->
      let s' := page_run s [click d t0; click d t1; dblclick d t1; wait T] in
      List.filter (concerns d) (transitions s')
      = List.filter (concerns d) (transitions s) ++ [FormOpened create d]
      /\ (forall tm, tm ∈ timers s' -> target tm <> d))
  /\ (forall s d t0 t1 T,
        d <> "" -> timers s = [] -> dayClickTimeouts s !! d = None ->
        ~ (0 < t0 - default 0 (lastClickTime s !! d) < DOUBLE_CLICK_DELAY) ->
        t0 < t1 < t0 + DOUBLE_CLICK_DELAY -> t0 + DOUBLE_CLICK_DELAY <= T ->
        transitions (page_run s [click d t0; click d t1; wait T])
        = transitions s
          ++ [if bool_decide (page_selected s = Some d) then Deselected d
              else Selected d])
  /\ (forall s d1 d2 t1 t2 T,
        d1 <> "" -> d2 <> "" -> d1 <> d2 ->
        timers s = [] ->
        dayClickTimeouts s !! d1 = None -> dayClickTimeouts s !! d2 = None ->
        ~ (0 < t1 - default 0 (lastClickTime s !! d1) < DOUBLE_CLICK_DELAY) ->
        ~ (0 < t2 - default 0 (lastClickTime s !! d2) < DOUBLE_CLICK_DELAY) ->
        t1 <= t2 -> t2 + DOUBLE_CLICK_DELAY <= T ->
        transitions (page_run s [click d1 t1; click d2 t2; wait T])
        = transitions s
          ++ [if bool_decide (page_selected s = Some d1) then Deselected d1
              else Selected d1;
              Selected d2]).
Proof.
  split; [|split].
  - apply double_press_opens_form.
  - apply two_presses_one_selection.
  - apply two_cells_two_selections.
Qed.

Lemma click_disambiguation_witness :
  List.filter (concerns "2025-10-21")
    (transitions
       (page_run (page_init None)
          [click "2025-10-21" 1000; click "2025-10-21" 1120;
           dblclick "2025-10-21" 1120; wait 5000]))
  = [FormOpened create "2025-10-21"]
  /\ transitions
       (page_run (page_init (Some "2025-10-21"))
          [click "2025-10-21" 1000; click "2025-10-21" 1120; wait 5000])
     = [Deselected "2025-10-21"]
  /\ transitions
       (page_run (page_init None)
          [click "2025-10-21" 1000; click "2025-10-22" 1100; wait 5000])
     = [Selected "2025-10-21"; Selected "2025-10-22"].
Proof.
  destruct click_disambiguation as (Hsame & Halone & Hother).
  split; [|split].
  - refine (proj1 (Hsame (page_init None) "2025-10-21" 1000 1120 5000 _ _ _ _ _)).
    + discriminate.
    + reflexivity.
    + intros tm Hin. by apply elem_of_nil in Hin.
    + unfold DOUBLE_CLICK_DELAY. lia.
    + lia.
  - refine (Halone (page_init (Some "2025-10-21")) "2025-10-21" 1000 1120 5000
              _ _ _ _ _ _).
    + discriminate.
    + reflexivity.
    + reflexivity.
    + cbn [page_init lastClickTime]. rewrite lookup_empty.
      unfold DOUBLE_CLICK_DELAY. cbn [default]. lia.
    + unfold DOUBLE_CLICK_DELAY. lia.
    + unfold DOUBLE_CLICK_DELAY. lia.
  - refine (Hother (page_init None) "2025-10-21" "2025-10-22" 1000 1100 5000
              _ _ _ _ _ _ _ _ _ _).
    + discriminate.
    + discriminate.
    + discriminate.
    + reflexivity.
    + reflexivity.
    + reflexivity.
    + cbn [page_init lastClickTime]. rewrite lookup_empty.
      unfold DOUBLE_CLICK_DELAY. cbn [default]. lia.
    + cbn [page_init lastClickTime]. rewrite lookup_empty.
      unfold DOUBLE_CLICK_DELAY. cbn [default]. lia.
    + lia.
    + unfold DOUBLE_CLICK_DELAY. lia.
Defined.

(** Two presses on the cell of 2025-10-21, 120 ms apart, that reach the
    page as two clicks: the second press cancels nothing, the timer of the
    first fires at 1300 and selects the cell, and no form opens. *)
Lemma second_press_alone_opens_no_form :
  transitions
    (page_run (page_init None)
       [click "2025-10-21" 1000; click "2025-10-21" 1120; wait 5000])
  = [Selected "2025-10-21"]
  /\ page_selected
       (page_run (page_init None)
          [click "2025-10-21" 1000; click "2025-10-21" 1120; wait 5000])
     = Some "2025-10-21"
  /\ timers (page_run (page_init None)
               [click "2025-10-21" 1000; click "2025-10-21" 1120])
     = [{| timer_id := 1; fires_at := 1300; target := "2025-10-21" |}].
Proof. by vm_compute. Qed.

(** The same runs, computed. *)
Example double_press_computed :
  transitions
    (page_run (page_init (Some "2025-10-20"))
       [click "2025-10-21" 1000; click "2025-10-21" 1120;
        dblclick "2025-10-21" 1120; wait 5000])
  = [FormOpened create "2025-10-21"].
Proof. by vm_compute. Qed.

Example single_press_computed :
  transitions
    (page_run (page_init (Some "2025-10-21")) [click "2025-10-21" 1000; wait 1300])
  = [Deselected "2025-10-21"].
Proof. by vm_compute. Qed.

(** * Further properties *)

(** ** Groups of items *)


Lemma Map_has_get {V} (m : list (string * V)) key :
  Map_has m key = bool_decide (is_Some (Map_get m key)).
Proof.
  unfold Map_has, Map_get. induction m as [|[k x] m IH]; [done|].
  cbn [existsb List.find fst]. destruct (String.eqb k key); [done|].
  by rewrite orb_false_l.
Qed.

Lemma Map_get_set {V} (m : list (string * V)) key v key' :
  Map_get (Map_set m key v) key'
  = if String.eqb key key' then Some v else Map_get m key'.
Proof.
  unfold Map_get. induction m as [|[k x] m IH]; cbn [Map_set List.find fst].
  - by destruct (String.eqb key key').
  - destruct (String.eqb_spec k key) as [->|Hk]; cbn [List.find fst].
    + by destruct (String.eqb key key').
    + destruct (String.eqb_spec k key') as [->|Hk'].
      * destruct (String.eqb_spec key key'); [congruence|done].
      * apply IH.
Qed.

Lemma Map_set_keys {V} (m : list (string * V)) key v :
  map fst (Map_set m key v)
  = if Map_has m key then map fst m else map fst m ++ [key].
Proof.
  unfold Map_has. induction m as [|[k x] m IH]; [done|].
  cbn [Map_set existsb fst]. destruct (String.eqb k key); [done|].
  cbn [map fst orb]. rewrite IH. by destruct (existsb _ m).
Qed.

Lemma Map_has_elem {V} (m : list (string * V)) key :
  Map_has m key = true <-> key ∈ map fst m.
Proof.
  unfold Map_has. induction m as [|[k x] m IH]; cbn [existsb map fst].
  - split; [done|]. by intros ?%elem_of_nil.
  - rewrite elem_of_cons, orb_true_iff, IH.
    destruct (String.eqb_spec k key) as [->|Hk]; [split; intros _; by left|].
    split; intros [?|?]; try done; try congruence; by right.
Qed.

(** The values after [set]: the one of [key] is replaced, or added at the
    end. *)
Lemma Map_set_values {V} (m : list (string * list V)) key old v :
  Map_get m key = Some old ->
  concat (map snd (Map_set m key (old ++ v))) ≡ₚ concat (map snd m) ++ v.
Proof.
  unfold Map_get. induction m as [|[k x] m IH]; [done|].
  cbn [Map_set List.find fst]. destruct (String.eqb k key).
  - intros [= <-]. cbn [map snd concat].
    rewrite <- !app_assoc. apply Permutation_app_head, Permutation_app_comm.
  - intros H. cbn [map snd concat]. rewrite (IH H). by rewrite app_assoc.
Qed.

Lemma Map_set_new_values {V} (m : list (string * list V)) key :
  concat (map snd (Map_set m key [])) ≡ₚ
  if Map_has m key then concat (map snd (Map_set m key [])) else concat (map snd m).
Proof.
  unfold Map_has. induction m as [|[k x] m IH]; [done|].
  cbn [Map_set existsb fst]. destruct (String.eqb k key); [done|].
  cbn [orb map snd concat]. destruct (existsb _ m); [done|]. by rewrite IH.
Qed.

Lemma groupItem_get grouped item d :
  Map_get (groupItem grouped item) d
  = if String.eqb (UnifiedItem.dueDate item) d
    then Some (default [] (Map_get grouped d) ++ [item])
    else Map_get grouped d.
Proof.
  unfold groupItem. set (k := UnifiedItem.dueDate item).
  rewrite Map_has_get.
  destruct (Map_get grouped k) as [group|] eqn:Hget.
  - rewrite bool_decide_true by done. cbn [negb]. rewrite Hget, Map_get_set.
    destruct (String.eqb_spec k d) as [<-|]; [|done]. by rewrite Hget.
  - rewrite bool_decide_false by (by intros [? ?]). cbn [negb].
    rewrite Map_get_set, String.eqb_refl, !Map_get_set.
    destruct (String.eqb_spec k d) as [<-|]; [|done]. by rewrite Hget.
Qed.

Lemma fold_groupItem_get items grouped d :
  Map_get (fold_left groupItem items grouped) d
  = match getItemsForDate items d with
    | [] => Map_get grouped d
    | group => Some (default [] (Map_get grouped d) ++ group)
    end.
Proof.
  revert grouped. induction items as [|item items IH]; intros grouped; [done|].
  cbn [fold_left]. rewrite IH, groupItem_get. unfold getItemsForDate.
  cbn [List.filter]. destruct (String.eqb (UnifiedItem.dueDate item) d); [|done].
  cbn [from_option]. unfold id. destruct (List.filter _ items); [done|].
  by rewrite <- app_assoc.
Qed.

(** X1: in the map [groupByDate] returns, and in the one [getWebViewContent]
    builds for the day cells, the entry of a date is the list
    [getItemsForDate] selects for it, in the order of the items; a date
    no item has is not a key. *)
Theorem groupByDate_get items d :
  Map_get (groupByDate items) d
  = match getItemsForDate items d with
    | [] => None
    | group => Some group
    end.
Proof. unfold groupByDate. by rewrite fold_groupItem_get. Qed.

Lemma groupItem_keys grouped item :
  NoDup (map fst grouped) -> NoDup (map fst (groupItem grouped item)).
Proof.
  intros Hnd. unfold groupItem. set (k := UnifiedItem.dueDate item).
  assert (Hnd' : NoDup (map fst
    (if negb (Map_has grouped k) then Map_set grouped k [] else grouped))).
  { destruct (Map_has grouped k) eqn:Hhas; [done|]. cbn [negb].
    rewrite Map_set_keys, Hhas. apply NoDup_app. split; [done|].
    split; [|apply NoDup_singleton].
    intros x Hx ->%list_elem_of_singleton.
    apply Map_has_elem in Hx. congruence. }
  destruct (Map_get _ k) eqn:Hget; [|done].
  rewrite Map_set_keys, Map_has_get, Hget. by rewrite bool_decide_true.
Qed.

Lemma groupItem_values grouped item :
  concat (map snd (groupItem grouped item)) ≡ₚ concat (map snd grouped) ++ [item].
Proof.
  unfold groupItem. set (k := UnifiedItem.dueDate item).
  destruct (Map_has grouped k) eqn:Hhas; cbn [negb].
  - rewrite Map_has_get in Hhas. apply bool_decide_eq_true in Hhas as [group Hget].
    rewrite Hget. by apply Map_set_values.
  - rewrite Map_get_set, String.eqb_refl.
    rewrite Map_set_values by (by rewrite Map_get_set, String.eqb_refl).
    apply Permutation_app_tail.
    pose proof (Map_set_new_values grouped k) as H. by rewrite Hhas in H.
Qed.

Lemma fold_groupItem_keys items grouped :
  NoDup (map fst grouped) -> NoDup (map fst (fold_left groupItem items grouped)).
Proof.
  revert grouped. induction items as [|item items IH]; intros grouped Hg; [done|].
  cbn [fold_left]. by apply IH, groupItem_keys.
Qed.

Lemma fold_groupItem_values items grouped :
  concat (map snd (fold_left groupItem items grouped))
  ≡ₚ concat (map snd grouped) ++ items.
Proof.
  revert grouped. induction items as [|item items IH]; intros grouped;
    cbn [fold_left].
  - by rewrite app_nil_r.
  - rewrite IH, groupItem_values. by rewrite <- app_assoc.
Qed.

Lemma Map_get_elem {V} (m : list (string * V)) key v :
  NoDup (map fst m) -> (key, v) ∈ m -> Map_get m key = Some v.
Proof.
  unfold Map_get. induction m as [|[k x] m IH]; cbn [map fst List.find].
  - by intros _ ?%elem_of_nil.
  - intros [Hk Hm]%NoDup_cons [[= <- <-]|Hin]%elem_of_cons.
    + by rewrite String.eqb_refl.
    + destruct (String.eqb_spec k key) as [->|]; [|by apply IH].
      exfalso. apply Hk. apply list_elem_of_fmap. by exists (key, v).
Qed.

(** X2: the groups of [groupByDate] split the items: no date is a key
    twice, no group is empty, every group holds the items of its date,
    and the groups together are the items, none lost and none doubled. *)
Theorem groupByDate_partition items :
  NoDup (map fst (groupByDate items))
  /\ (forall d group, (d, group) ∈ groupByDate items ->
        group <> [] /\ group = getItemsForDate items d)
  /\ concat (map snd (groupByDate items)) ≡ₚ items.
Proof.
  assert (Hnd : NoDup (map fst (groupByDate items)))
    by (apply fold_groupItem_keys; constructor).
  split; [done|]. split.
  - intros d group Hin. apply Map_get_elem in Hin; [|done].
    unfold groupByDate in Hin. rewrite fold_groupItem_get in Hin.
    destruct (getItemsForDate items d); [done|]. by injection Hin as <-.
  - apply (fold_groupItem_values items []).
Qed.


Example groupByDate_of_one_day :
  map fst
    (groupByDate
       [taskToUnified (scenario_task (Some "Pay rent")) "list-a";
        unified_of_event (scenario_event (Some "Dentist")) "primary"])
  = ["2025-10-20"].
Proof. by vm_compute. Qed.


(** ** The list of a day *)

(** [List.filter] and the [filter] of the sort's lemmas. *)
Lemma List_filter_filter {A} (f : A -> bool) (l : list A) :
  List.filter f l = filter (fun x => f x = true) l.
Proof.
  induction l as [|x l IH]; [done|]. cbn [List.filter]. rewrite filter_cons, IH.
  destruct (f x); [by rewrite decide_True|by rewrite decide_False].
Qed.

(** A list in which no calendar item comes before a task is its tasks
    followed by its calendar items. *)
Lemma tasks_then_calendar (R : UnifiedItem.t -> UnifiedItem.t -> Prop) l :
  (forall a b, R a b ->
     ~ (UnifiedItem.type a = calendar /\ UnifiedItem.type b = task)) ->
  StronglySorted R l -> l = of_type task l ++ of_type calendar l.
Proof.
  intros HR. unfold of_type.
  induction 1 as [|x l Hs IH Hall]; [done|]. cbn [List.filter].
  destruct (UnifiedItem.type x) eqn:Hx.
  - rewrite bool_decide_true, bool_decide_false by done.
    cbn [app]. by rewrite <- IH.
  - rewrite bool_decide_false, bool_decide_true by done.
    assert (Hnone : List.filter
      (fun item => bool_decide (UnifiedItem.type item = task)) l = []).
    { clear IH Hs. induction l as [|y l IHl]; [done|].
      apply Forall_cons in Hall as [Hy Hall]. cbn [List.filter].
      destruct (UnifiedItem.type y) eqn:Hty.
      - exfalso. by apply (HR x y Hy).
      - rewrite bool_decide_false by done. by apply IHl. }
    rewrite Hnone in IH |- *. cbn [app] in *. by rewrite <- IH.
Qed.

Section DayView.
Variable localeCompare : string -> string -> Z.
Hypothesis lc_refl : forall a, localeCompare a a = 0.
Hypothesis lc_trans : forall a b c,
  localeCompare a b <= 0 -> localeCompare b c <= 0 -> localeCompare a c <= 0.
Hypothesis lc_antisym : forall a b, 0 < localeCompare a b -> localeCompare b a < 0.
Hypothesis lc_antisym' : forall a b, localeCompare a b < 0 -> 0 < localeCompare b a.

(** The sort keeps the items of one date and one type in their order. *)
Lemma Array_sort_group d ty (l : list UnifiedItem.t) :
  of_type ty (getItemsForDate (Array_sort (compareItems localeCompare) l) d)
  = of_type ty (getItemsForDate l d).
Proof.
  set (a := {| UnifiedItem.id := ""; UnifiedItem.type := ty;
               UnifiedItem.title := ""; UnifiedItem.dueDate := d;
               UnifiedItem.dueDateTime := None; UnifiedItem.description := None;
               UnifiedItem.completed := None; UnifiedItem.isAllDay := None;
               UnifiedItem.recurring := None;
               UnifiedItem.source :=
                 {| UnifiedItem.taskListId := None;
                    UnifiedItem.calendarId := None |} |}).
  assert (Hties : forall l : list UnifiedItem.t,
    of_type ty (getItemsForDate l d)
    = of_type ty (getItemsForDate
        (filter (fun y => compareItems localeCompare a y = 0) l) d)).
  { intros l0. unfold of_type, getItemsForDate.
    induction l0 as [|u l0 IH]; [done|]. rewrite filter_cons. cbn [List.filter].
    destruct (String.eqb_spec (UnifiedItem.dueDate u) d) as [Hd|Hd].
    - cbn [List.filter].
      destruct (decide (UnifiedItem.type u = ty)) as [Ht|Ht].
      + rewrite bool_decide_true by done.
        rewrite decide_True by (by apply compareItems_tie).
        cbn [List.filter]. destruct (String.eqb_spec (UnifiedItem.dueDate u) d); [|done].
        cbn [List.filter]. rewrite bool_decide_true by done. by rewrite IH.
      + rewrite bool_decide_false by done.
        destruct (decide _); [|done]. cbn [List.filter].
        destruct (String.eqb_spec (UnifiedItem.dueDate u) d); [|done].
        cbn [List.filter]. by rewrite bool_decide_false.
    - destruct (decide _); [|done]. cbn [List.filter].
      by destruct (String.eqb_spec (UnifiedItem.dueDate u) d). }
  rewrite Hties, (Hties l). do 2 f_equal. apply Array_sort_ties.
  - by apply compareItems_trans.
  - by apply compareItems_antisym.
  - by apply compareItems_antisym'.
Qed.

(** X3: what [getItemsForDate] selects for a date in the output of
    [mergeItems] is the tasks of that date, in the order in which the
    inputs were met, followed by the calendar items of that date in that
    order. *)
Theorem day_list_of_merge tasks calendarEvents d :
  exists out,
    mergeItems localeCompare tasks calendarEvents = Ok out
    /\ getItemsForDate out d
       = of_type task (getItemsForDate (unified_input tasks calendarEvents) d)
         ++ of_type calendar
              (getItemsForDate (unified_input tasks calendarEvents) d).
Proof.
  eexists. split; [apply mergeItems_eq|].
  rewrite <- (Array_sort_group d task (unified_input tasks calendarEvents)),
    <- (Array_sort_group d calendar (unified_input tasks calendarEvents)).
  apply (tasks_then_calendar
    (fun a b => UnifiedItem.dueDate a = d /\ UnifiedItem.dueDate b = d
                /\ compareItems localeCompare a b <= 0)).
  - intros a b (Ha & Hb & Hab).
    apply (compareItems_le localeCompare lc_refl) in Hab as [_ Hab].
    apply Hab. congruence.
  - unfold getItemsForDate.
    pose proof (Array_sort_StronglySorted (compareItems localeCompare)
      (compareItems_trans localeCompare lc_trans lc_antisym lc_antisym')
      (compareItems_antisym localeCompare lc_trans lc_antisym lc_antisym')
      (unified_input tasks calendarEvents)) as Hs.
    induction Hs as [|x l Hs IH Hall]; [constructor|]. cbn [List.filter].
    destruct (String.eqb_spec (UnifiedItem.dueDate x) d) as [Hx|]; [|done].
    constructor; [done|].
    apply Forall_forall. intros y Hy%list_elem_of_In%filter_In.
    destruct Hy as [Hy Hyd]. apply String.eqb_eq in Hyd.
    rewrite Forall_forall in Hall. split; [done|]. split; [done|].
    by apply Hall, list_elem_of_In.
Qed.
End DayView.


Lemma day_list_of_merge_witness :
  exists out,
    mergeItems codeUnitCompare [(scenario_task (Some "Pay rent"), "list-a")]
      [scenario_event (Some "Dentist")] = Ok out
    /\ getItemsForDate out "2025-10-20"
       = of_type task
           (getItemsForDate
              (unified_input [(scenario_task (Some "Pay rent"), "list-a")]
                 [scenario_event (Some "Dentist")]) "2025-10-20")
         ++ of_type calendar
              (getItemsForDate
                 (unified_input [(scenario_task (Some "Pay rent"), "list-a")]
                    [scenario_event (Some "Dentist")]) "2025-10-20").
Proof.
  apply (day_list_of_merge codeUnitCompare codeUnitCompare_refl
           codeUnitCompare_trans codeUnitCompare_antisym
           codeUnitCompare_antisym').
Defined.


(** ** Date strings *)

Lemma split_absent sep s : includes_char sep s = false -> split sep s = [s].
Proof.
  induction s as [|c s IH]; [done|]. cbn [includes_char split].
  intros [Hc Hs]%orb_false_elim. rewrite Hc, (IH Hs). done.
Qed.

Lemma is_date_only_no_T s : is_date_only s = true -> includes_char "T" s = false.
Proof.
  unfold is_date_only.
  do 10 (destruct s as [|? s]; [done|]). destruct s; [|done].
  cbn [list_ascii_of_string includes_char].
  intros H. repeat (rewrite andb_true_iff in H; destruct H as [H ?]).
  repeat match goal with
    | H : is_digit ?c = true |- _ =>
        rewrite (is_digit_neq c "T" H eq_refl); clear H
    | H : Ascii.eqb ?c "-" = true |- _ =>
        apply Ascii.eqb_eq in H; subst c
    end.
  reflexivity.
Qed.

Lemma Date_parse_day tz s day :
  parse_day s = Some day -> Date_parse tz s = TimeClip (MakeDate day 0).
Proof.
  intros Hday. unfold Date_parse.
  destruct (break_at_date_only s (parse_day_date_only s day Hday)) as [-> _].
  by rewrite (parse_date_day s day Hday).
Qed.


Lemma includes_char_app c a b :
  includes_char c (a +:+ b) = includes_char c a || includes_char c b.
Proof.
  induction a as [|x a IH]; [done|].
  change (includes_char c (String x (a +:+ b))
          = includes_char c (String x a) || includes_char c b).
  cbn [includes_char]. by rewrite IH, orb_assoc.
Qed.


Lemma split_head_no_sep sep s : includes_char sep (hd "" (split sep s)) = false.
Proof.
  induction s as [|c s IH]; [done|]. cbn [split].
  destruct (Ascii.eqb c sep) eqn:Hc; [done|].
  destruct (split sep s) as [|piece rest]; cbn [hd includes_char] in *.
  - by rewrite Hc.
  - by rewrite Hc, IH.
Qed.

Lemma extractDate_no_T dateString :
  includes_char "T" (extractDate dateString) = false.
Proof.
  unfold extractDate.
  destruct (is_date_only dateString) eqn:Honly;
    [by apply is_date_only_no_T|].
  destruct (includes_char "T" dateString) eqn:HT; [|done].
  apply split_head_no_sep.
Qed.

(** X4: [mergeItems] returns a list, and the [dueDate] of each of its
    items holds no "T": the time part of a date-time is cut off. *)
Theorem merged_dates_have_no_time localeCompare tasks calendarEvents :
  exists out,
    mergeItems localeCompare tasks calendarEvents = Ok out
    /\ forall u, u ∈ out -> includes_char "T" (UnifiedItem.dueDate u) = false.
Proof.
  eexists. split; [apply mergeItems_eq|].
  intros u Hu. rewrite Array_sort_perm in Hu.
  unfold unified_input in Hu.
  apply elem_of_app in Hu as [Hu|Hu];
    apply list_elem_of_fmap in Hu as (x & -> & _); apply extractDate_no_T.
Qed.



(** ** Days and zones *)

(** The first of the next month is 28 to 31 days after the first of a
    month. *)
Lemma next_month_days y m :
  1 <= m <= 12 -> 28 <= next_month_start y m - days_from_civil y m 1 <= 31.
Proof.
  intros Hm. unfold next_month_start, days_from_civil.
  assert (Hcases : m = 1 \/ m = 2 \/ m = 3 \/ m = 4 \/ m = 5 \/ m = 6 \/ m = 7
                   \/ m = 8 \/ m = 9 \/ m = 10 \/ m = 11 \/ m = 12) by lia.
  destruct Hcases as [->|[->|[->|[->|[->|[->|[->|[->|[->|[->|[->| ->]]]]]]]]]]];
    repeat match goal with
      | |- context [if ?b then _ else _] =>
          let v := eval vm_compute in b in change b with v; cbv iota
      end;
    Z.div_mod_to_equations; lia.
Qed.

Lemma days_from_civil_day y m d :
  days_from_civil y m d = days_from_civil y m 1 + d - 1.
Proof. unfold days_from_civil. lia. Qed.

(** The components of the day number of a date of the calendar are the
    date. *)
Lemma civil_of_days_from_civil y m d :
  1 <= m <= 12 -> 1 <= d -> days_from_civil y m d < next_month_start y m ->
  civil_from_days (days_from_civil y m d) = (y, m, d).
Proof.
  intros Hm Hd Hnext.
  assert (Hcases : m = 1 \/ m = 2 \/ m = 3 \/ m = 4 \/ m = 5 \/ m = 6 \/ m = 7
                   \/ m = 8 \/ m = 9 \/ m = 10 \/ m = 11 \/ m = 12) by lia.
  unfold next_month_start, days_from_civil in Hnext.
  unfold days_from_civil.
  set (y' := if m <=? 2 then y - 1 else y) in *.
  set (era := y' / 400) in *.
  set (yoe := y' - era * 400) in *.
  assert (Hyoe : 0 <= yoe < 400) by (unfold yoe, era; Z.div_mod_to_equations; lia).
  set (mp := if 2 <? m then m - 3 else m + 9) in *.
  assert (Hmp : 0 <= mp <= 11 /\ (mp < 10 -> m = mp + 3) /\ (10 <= mp -> m = mp - 9))
    by (unfold mp; destruct (Z.ltb_spec 2 m); lia).
  set (doy := (153 * mp + 2) / 5 + d - 1) in *.
  assert (Hdoy : 0 <= doy <= 365 /\ (5 * doy + 2) / 153 = mp
                 /\ (doy = 365 -> yoe mod 4 = 3 /\ (yoe mod 100 <> 99 \/ yoe = 399))).
  { unfold doy, mp, yoe, era, y' in *. clear doy mp yoe era y'.
    destruct Hcases as [->|[->|[->|[->|[->|[->|[->|[->|[->|[->|[->| ->]]]]]]]]]]];
    repeat match goal with
      | H : context [if ?b then _ else _] |- _ =>
          let v := eval vm_compute in b in change b with v in H; cbv iota in H
      | |- context [if ?b then _ else _] =>
          let v := eval vm_compute in b in change b with v; cbv iota
      end;
    Z.div_mod_to_equations; lia. }
  destruct Hdoy as (Hdoy & Hmp' & Hleap).
  set (doe := yoe * 365 + yoe / 4 - yoe / 100 + doy).
  assert (Hdoe : 0 <= doe < 146097).
  { unfold doe. Z.div_mod_to_equations. lia. }
  unfold civil_from_days.
  replace (era * 146097 + doe - 719468 + 719468) with (era * 146097 + doe) by lia.
  replace ((era * 146097 + doe) / 146097) with era by (Z.div_mod_to_equations; lia).
  replace (era * 146097 + doe - era * 146097) with doe by lia.
  assert (Hy : (doe - doe / 1460 + doe / 36524 - doe / 146096) / 365 = yoe).
  { unfold doe. Z.div_mod_to_equations. lia. }
  rewrite Hy.
  replace (doe - (365 * yoe + yoe / 4 - yoe / 100)) with doy by (unfold doe; lia).
  rewrite Hmp'.
  replace (doy - (153 * mp + 2) / 5 + 1) with d by (unfold doy; lia).
  destruct Hmp as (Hmp0 & Hlt & Hge).
  destruct (Z.ltb_spec mp 10).
  - rewrite <- (Hlt ltac:(lia)). destruct (Z.leb_spec m 2); [lia|].
    f_equal. f_equal. unfold yoe, y'. destruct (Z.leb_spec m 2); lia.
  - rewrite <- (Hge ltac:(lia)). destruct (Z.leb_spec m 2); [|lia].
    f_equal. f_equal. unfold yoe, y'. destruct (Z.leb_spec m 2); lia.
Qed.

(** The local day of an instant in a zone [minutes] east of UTC. *)
Lemma Day_LocalTime_fixed minutes t :
  Day (LocalTime (fixedZone minutes) t) = (t + minutes * msPerMinute) / msPerDay.
Proof. reflexivity. Qed.

Lemma local_day_of_utc_midnight minutes day :
  -1440 <= minutes < 1440 ->
  Day (LocalTime (fixedZone minutes) (MakeDate day 0))
  = if minutes <? 0 then day - 1 else day.
Proof.
  intros Hm. rewrite Day_LocalTime_fixed. unfold MakeDate, msPerDay, msPerMinute.
  destruct (Z.ltb_spec minutes 0); Z.div_mod_to_equations; lia.
Qed.

(** X5: [formatDate] reads a date-only string as midnight UTC and labels
    the local day of that instant: the day itself in a zone at or ahead of
    UTC, the day before in a zone behind UTC. *)
Theorem formatDate_local_day minutes dateStr day :
  -1440 <= minutes < 1440 ->
  parse_day dateStr = Some day ->
  Z.abs (day * msPerDay) <= 8640000000000000 ->
  formatDate (fixedZone minutes) dateStr
  = short_label (if minutes <? 0 then day - 1 else day).
Proof.
  intros Hm Hday Hclip. unfold formatDate.
  rewrite (Date_parse_day _ _ _ Hday). unfold TimeClip.
  replace (MakeDate day 0) with (day * msPerDay) at 1
    by (unfold MakeDate; lia).
  destruct (Z.leb_spec (Z.abs (day * msPerDay)) 8640000000000000); [|lia].
  unfold toLocaleDateString_short, short_label.
  by rewrite (local_day_of_utc_midnight minutes day Hm).
Qed.

Lemma formatDate_local_day_witness :
  formatDate (fixedZone (-300)) "2025-10-20" = short_label (20381 - 1).
Proof.
  apply (formatDate_local_day (-300) "2025-10-20" 20381);
    [lia|reflexivity|unfold msPerDay; lia].
Defined.

Example formatDate_behind_utc :
  formatDate (fixedZone (-300)) "2025-10-20" = "Oct 19".
Proof. by vm_compute. Qed.

(** X6: [getItemsForMonth] keeps an item with a date-only [dueDate] when
    the local day of midnight UTC of that date is in the month asked for:
    the day itself in a zone at or ahead of UTC, the day before in a zone
    behind UTC. *)
Theorem getItemsForMonth_local_day minutes items item year month day :
  -1440 <= minutes < 1440 ->
  parse_day (UnifiedItem.dueDate item) = Some day ->
  Z.abs (day * msPerDay) <= 8640000000000000 ->
  item ∈ getItemsForMonth (fixedZone minutes) items year month
  <-> item ∈ items
      /\ (civil_from_days (if minutes <? 0 then day - 1 else day)).1
         = (year, month + 1).
Proof.
  intros Hm Hday Hclip. unfold getItemsForMonth.
  rewrite list_elem_of_In, filter_In, <- list_elem_of_In.
  rewrite (Date_parse_day _ _ _ Hday). unfold TimeClip.
  replace (MakeDate day 0) with (day * msPerDay) at 1
    by (unfold MakeDate; lia).
  destruct (Z.leb_spec (Z.abs (day * msPerDay)) 8640000000000000); [|lia].
  unfold getFullYear, getMonth.
  replace (day * msPerDay) with (MakeDate day 0) by (unfold MakeDate; lia).
  rewrite (local_day_of_utc_midnight minutes day Hm).
  destruct (civil_from_days _) as [[y m] d]. cbn [fst snd].
  rewrite andb_true_iff, !Z.eqb_eq.
  split; intros [Hin Heq]; (split; [done|]).
  - destruct Heq. f_equal; lia.
  - injection Heq as -> ->. lia.
Qed.

Lemma getItemsForMonth_local_day_witness :
  let item := taskToUnified (scenario_task (Some "Pay rent")) "list-a" in
  item ∈ getItemsForMonth (fixedZone (-300)) [item] 2025 9
  <-> item ∈ [item] /\ (civil_from_days (20381 - 1)).1 = (2025, 9 + 1).
Proof.
  apply (getItemsForMonth_local_day (-300) _ _ 2025 9 20381);
    [lia|reflexivity|unfold msPerDay; lia].
Defined.

(** X7: when now is not a midnight UTC, [getUpcomingItems] keeps an item
    with a date-only [dueDate] exactly when its day comes after the
    current UTC day and at most [daysAhead] days after it, in every time
    zone: an item due on the current UTC day is left out. *)
Theorem getUpcomingItems_utc_days tz now items item daysAhead day :
  parse_day (UnifiedItem.dueDate item) = Some day ->
  Z.abs (day * msPerDay) <= 8640000000000000 ->
  Z.abs (now + daysAhead * msPerDay) <= 8640000000000000 ->
  now mod msPerDay <> 0 ->
  item ∈ getUpcomingItems tz now items daysAhead
  <-> item ∈ items /\ Day now < day <= Day now + daysAhead.
Proof.
  intros Hday Hclip Hfuture Hnow. unfold getUpcomingItems.
  rewrite list_elem_of_In, filter_In, <- list_elem_of_In.
  rewrite (Date_parse_day _ _ _ Hday). unfold TimeClip.
  replace (MakeDate day 0) with (day * msPerDay) by (unfold MakeDate; lia).
  replace (now + daysAhead * 24 * 60 * 60 * 1000)
    with (now + daysAhead * msPerDay) by (unfold msPerDay; lia).
  destruct (Z.leb_spec (Z.abs (day * msPerDay)) 8640000000000000); [|lia].
  destruct (Z.leb_spec (Z.abs (now + daysAhead * msPerDay)) 8640000000000000);
    [|lia].
  cbn [date_le]. rewrite andb_true_iff, !Z.leb_le.
  unfold Day, msPerDay in *.
  split; intros [Hin Hle]; (split; [done|]);
    Z.div_mod_to_equations; lia.
Qed.

Lemma getUpcomingItems_utc_days_witness :
  let item := taskToUnified (scenario_task (Some "Pay rent")) "list-a" in
  item ∈ getUpcomingItems (fixedZone (-300)) (20380 * msPerDay + 1) [item] 14
  <-> item ∈ [item]
      /\ Day (20380 * msPerDay + 1) < 20381 <= Day (20380 * msPerDay + 1) + 14.
Proof.
  apply (getUpcomingItems_utc_days (fixedZone (-300)) (20380 * msPerDay + 1)
           _ _ 14 20381);
    [reflexivity|unfold msPerDay; lia|unfold msPerDay; lia|by vm_compute].
Defined.

(** ** The date presets *)

Section FixedZonePresets.
Variable minutes : Z.
Hypothesis minutes_range : -1440 <= minutes <= 1440.

Local Abbreviation tz := (fixedZone minutes).

(** In a zone whose offset does not change, [setDate] on the day of the
    month plus [n] moves the instant by [n] days. *)
Lemma setDate_shift now n :
  - msPerDay <= now + minutes * msPerMinute ->
  Z.abs (now + n * msPerDay) <= 8640000000000000 ->
  setDate tz (Some now) (getDate tz now + n) = Some (now + n * msPerDay).
Proof.
  intros Hlow Hclip. unfold setDate, getDate.
  assert (Hday : -1 <= Day (LocalTime tz now)).
  { rewrite Day_LocalTime_fixed. unfold msPerDay, msPerMinute in *.
    Z.div_mod_to_equations. lia. }
  pose proof (MakeDay_civil (Day (LocalTime tz now)) n Hday) as HM.
  pose proof (civil_from_days_spec (Day (LocalTime tz now))) as Hspec.
  destruct (civil_from_days (Day (LocalTime tz now))) as [[y m] d].
  cbn [snd]. destruct Hspec as (_ & _ & _ & Hy). specialize (Hy Hday).
  unfold MakeFullYear in HM.
  destruct (Z.leb_spec 0 y), (Z.leb_spec y 99); cbn [andb] in HM; try lia.
  rewrite HM.
  replace (UTC tz (MakeDate (Day (LocalTime tz now) + n)
                     (TimeWithinDay (LocalTime tz now))))
    with (now + n * msPerDay).
  - unfold TimeClip.
    by destruct (Z.leb_spec (Z.abs (now + n * msPerDay)) 8640000000000000); [|lia].
  - unfold UTC, MakeDate, TimeWithinDay, Day, LocalTime, fixedZone.
    cbn [LocalTZA]. unfold msPerDay, msPerMinute.
    Z.div_mod_to_equations. lia.
Qed.

(** X8: in a zone whose offset does not change, the preset "This Weekend"
    is the same time of day one to six days ahead: on a Saturday, unless
    today is a Saturday; then it is the Friday after. *)
Theorem preset_ThisWeekend_day now :
  0 <= now + minutes * msPerMinute ->
  now <= 8640000000000000 - 6 * msPerDay ->
  exists n,
    preset_ThisWeekend tz now = Some (now + n * msPerDay)
    /\ 1 <= n <= 6
    /\ getDay tz (now + n * msPerDay) = if getDay tz now =? 6 then 5 else 6.
Proof.
  intros Hlow Hhigh. unfold preset_ThisWeekend.
  set (day := getDay tz now).
  assert (Hday : 0 <= day < 7) by (apply Z.mod_pos_bound; lia).
  set (n := if Z.rem (6 - day + 7) 7 =? 0 then 6 else Z.rem (6 - day + 7) 7).
  assert (Hn : 1 <= n <= 6
               /\ (day + n) mod 7 = if day =? 6 then 5 else 6).
  { unfold n. rewrite Z.rem_mod_nonneg by lia.
    destruct (Z.eqb_spec ((6 - day + 7) mod 7) 0), (Z.eqb_spec day 6);
      Z.div_mod_to_equations; lia. }
  exists n. destruct Hn as (Hn & Hwd). split; [|split; [done|]].
  - apply setDate_shift; unfold msPerDay, msPerMinute in *; lia.
  - rewrite <- Hwd. unfold day, getDay. rewrite !Day_LocalTime_fixed.
    unfold msPerDay, msPerMinute. Z.div_mod_to_equations. lia.
Qed.

(** X9: in a zone whose offset does not change, the presets "Tomorrow"
    and "Next Week" are one day and seven days after now to the
    millisecond, across the end of a month or of a year as well. *)
Theorem presets_keep_time_of_day now :
  0 <= now + minutes * msPerMinute ->
  now <= 8640000000000000 - 7 * msPerDay ->
  preset_Tomorrow tz now = Some (now + msPerDay)
  /\ preset_NextWeek tz now = Some (now + 7 * msPerDay).
Proof.
  intros Hlow Hhigh. unfold preset_Tomorrow, preset_NextWeek.
  rewrite !setDate_shift by (unfold msPerDay, msPerMinute in *; lia).
  split; f_equal; lia.
Qed.
End FixedZonePresets.

Lemma preset_ThisWeekend_day_witness :
  exists n,
    preset_ThisWeekend (fixedZone (-300)) saturday_morning
    = Some (saturday_morning + n * msPerDay)
    /\ 1 <= n <= 6
    /\ getDay (fixedZone (-300)) (saturday_morning + n * msPerDay)
       = if getDay (fixedZone (-300)) saturday_morning =? 6 then 5 else 6.
Proof.
  apply (preset_ThisWeekend_day (-300));
    unfold saturday_morning, msPerDay, msPerMinute; lia.
Defined.

Lemma presets_keep_time_of_day_witness :
  preset_Tomorrow (fixedZone (-300)) saturday_morning
  = Some (saturday_morning + msPerDay)
  /\ preset_NextWeek (fixedZone (-300)) saturday_morning
     = Some (saturday_morning + 7 * msPerDay).
Proof.
  apply (presets_keep_time_of_day (-300));
    unfold saturday_morning, msPerDay, msPerMinute; lia.
Defined.

(** On a Saturday the preset is the Friday after. *)
Example preset_ThisWeekend_on_a_Saturday :
  getDay (fixedZone (-300)) saturday_morning = 6
  /\ preset_ThisWeekend (fixedZone (-300)) saturday_morning
     = Some (saturday_morning + 6 * msPerDay).
Proof. by vm_compute. Qed.


(** ** Months *)


Lemma MakeDay_month y m d :
  0 <= m <= 11 -> MakeDay y m d = days_from_civil y (m + 1) 1 + d - 1.
Proof.
  intros Hm. unfold MakeDay.
  replace (m / 12) with 0 by (Z.div_mod_to_equations; lia).
  replace (m mod 12) with m by (Z.div_mod_to_equations; lia).
  by rewrite Z.add_0_r.
Qed.

Lemma MakeDay_next_month y m d :
  0 <= m <= 11 -> MakeDay y (m + 1) d = next_month_start y (m + 1) + d - 1.
Proof.
  intros Hm. unfold next_month_start.
  destruct (Z.eqb_spec (m + 1) 12) as [Heq|].
  - by rewrite Heq.
  - by rewrite MakeDay_month by lia.
Qed.

Lemma MakeFullYear_late y : 100 <= y -> MakeFullYear y = y.
Proof.
  intros Hy. unfold MakeFullYear.
  destruct (Z.leb_spec 0 y), (Z.leb_spec y 99); cbn [andb]; lia.
Qed.

Lemma month_start_bound y m :
  100 <= y <= 200001 -> 1 <= m <= 12 ->
  -700000 <= days_from_civil y m 1 <= 73500000.
Proof.
  intros Hy Hm. unfold days_from_civil.
  destruct (Z.leb_spec m 2), (Z.ltb_spec 2 m); Z.div_mod_to_equations; lia.
Qed.

Lemma next_month_start_bound y m :
  100 <= y <= 200000 -> 1 <= m <= 12 ->
  -700000 <= next_month_start y m <= 73500000.
Proof.
  intros Hy Hm. unfold next_month_start.
  destruct (Z.eqb_spec m 12); apply month_start_bound; lia.
Qed.

(** [map] over a range of cells that are all empty. *)
Lemma map_empty_cells {A} (f : Z -> option A) m n :
  (forall i, m <= i < m + n -> f i = None) ->
  map f (seqZ m n) = replicate (Z.to_nat n) None.
Proof.
  intros Hf. apply list_eq. intros i.
  rewrite list_lookup_fmap.
  destruct (decide (Z.of_nat i < n)) as [Hi|Hi].
  - rewrite lookup_seqZ_lt by done.
    rewrite lookup_replicate_2 by lia. cbn [fmap option_fmap option_map].
    f_equal. apply Hf. lia.
  - rewrite lookup_seqZ_ge by lia.
    symmetry. apply lookup_replicate_None. lia.
Qed.

(** The cells of a grid, read row by row. *)
Lemma calendarGrid_cells year month startDayOfWeek totalDays :
  0 <= startDayOfWeek -> 0 <= totalDays -> startDayOfWeek + totalDays <= 42 ->
  concat (calendarGrid year month startDayOfWeek totalDays)
  = replicate (Z.to_nat startDayOfWeek) None
    ++ map (fun d => Some (d, cellDate year month d)) (seqZ 1 totalDays)
    ++ replicate (Z.to_nat (42 - startDayOfWeek - totalDays)) None.
Proof.
  intros Hs Ht Hfit. unfold calendarGrid.
  set (f := fun i => gridCell year month totalDays (1 - startDayOfWeek + i)).
  transitivity (map f (seqZ 0 42)).
  { change (fun week => map (fun day =>
              gridCell year month totalDays
                (1 - startDayOfWeek + (7 * week + day))) (seqZ 0 7))
      with (fun week => map (fun day => f (7 * week + day)) (seqZ 0 7)).
    generalize f. intros g. by vm_compute. }
  replace 42 with (startDayOfWeek
                   + (totalDays + (42 - startDayOfWeek - totalDays))) at 1
    by lia.
  rewrite seqZ_app, seqZ_app by lia. rewrite !map_app. f_equal; [|f_equal].
  - apply map_empty_cells. intros i Hi. unfold f, gridCell.
    destruct (Z.ltb_spec (1 - startDayOfWeek + i) 1); [done|lia].
  - rewrite Z.add_0_l.
    replace startDayOfWeek with ((startDayOfWeek - 1) + 1) at 1 by lia.
    rewrite <- (fmap_add_seqZ (startDayOfWeek - 1) 1 totalDays).
    rewrite <- list_fmap_compose. apply list_fmap_ext.
    intros i d Hd%lookup_seqZ. unfold f, gridCell. cbn [compose].
    replace (1 - startDayOfWeek + (startDayOfWeek - 1 + d)) with d by lia.
    destruct (Z.ltb_spec d 1), (Z.ltb_spec totalDays d); cbn [orb]; [lia..|done].
  - rewrite Z.add_0_l. apply map_empty_cells. intros i Hi. unfold f, gridCell.
    destruct (Z.ltb_spec (1 - startDayOfWeek + i) 1); [done|].
    destruct (Z.ltb_spec totalDays (1 - startDayOfWeek + i)); [done|lia].
Qed.

Section FixedZoneMonths.
Variable minutes : Z.
Hypothesis minutes_range : -1440 <= minutes <= 1440.

Local Abbreviation tz := (fixedZone minutes).

(** The instant of 00:00 local time of the day number [day]. *)
Local Abbreviation midnight day := (day * msPerDay - minutes * msPerMinute).

Lemma Day_midnight day tod :
  0 <= tod < msPerDay -> Day (LocalTime tz (midnight day + tod)) = day.
Proof.
  intros Htod. rewrite Day_LocalTime_fixed. unfold msPerDay in *.
  Z.div_mod_to_equations. lia.
Qed.

Lemma TimeClip_midnight day tod :
  -99999999 <= day <= 99999998 -> 0 <= tod < msPerDay ->
  TimeClip (midnight day + tod) = Some (midnight day + tod).
Proof.
  intros Hday Htod. unfold TimeClip.
  destruct (Z.leb_spec (Z.abs (midnight day + tod)) 8640000000000000)
    as [|Hbad]; [done|].
  exfalso. revert Hbad. unfold msPerDay, msPerMinute in *. lia.
Qed.

Lemma Date_ymd_day year month d :
  100 <= year <= 200001 -> 0 <= month <= 11 -> -40 <= d <= 40 ->
  Date_ymd tz (Some year) (Some month) (Some d)
  = Some (midnight (days_from_civil year (month + 1) 1 + d - 1)).
Proof.
  intros Hy Hm Hd. unfold Date_ymd.
  rewrite MakeFullYear_late by lia. rewrite MakeDay_month by done.
  unfold UTC, MakeDate, fixedZone. cbn [LocalTZA]. rewrite Z.add_0_r.
  pose proof (month_start_bound year (month + 1) ltac:(lia) ltac:(lia)).
  rewrite <- (Z.add_0_r (midnight _)).
  apply TimeClip_midnight; unfold msPerDay; lia.
Qed.

Lemma Date_ymd_last_day year month :
  100 <= year <= 200000 -> 0 <= month <= 11 ->
  Date_ymd tz (Some year) (Some (month + 1)) (Some 0)
  = Some (midnight (next_month_start year (month + 1) - 1)).
Proof.
  intros Hy Hm. unfold Date_ymd.
  rewrite MakeFullYear_late by lia. rewrite MakeDay_next_month by done.
  unfold UTC, MakeDate, fixedZone. cbn [LocalTZA]. rewrite !Z.add_0_r.
  pose proof (next_month_start_bound year (month + 1) ltac:(lia) ltac:(lia)).
  rewrite <- (Z.add_0_r (midnight _)).
  apply TimeClip_midnight; unfold msPerDay; lia.
Qed.

(** X10: in a zone whose offset does not change, on a day of the month
    up to the 28th the preset "Next Month" is the same day of the next
    month, January of the next year after December, at the same time of
    day. *)
Theorem preset_NextMonth_day now y m d :
  0 <= now + minutes * msPerMinute ->
  now <= 8640000000000000 - 34 * msPerDay ->
  civil_from_days (Day (LocalTime tz now)) = (y, m, d) ->
  d <= 28 ->
  exists t,
    preset_NextMonth tz now = Some t
    /\ civil_from_days (Day (LocalTime tz t))
       = (if m =? 12 then (y + 1, 1, d) else (y, m + 1, d))
    /\ TimeWithinDay (LocalTime tz t) = TimeWithinDay (LocalTime tz now).
Proof.
  intros Hlow Hhigh Hciv Hd. unfold preset_NextMonth, setMonth, getMonth.
  pose proof (civil_from_days_spec (Day (LocalTime tz now))) as Hspec.
  rewrite Hciv in Hspec |- *. cbn [fst snd].
  destruct Hspec as (Hz & Hm & Hd1 & _).
  replace (m - 1 + 1) with (m - 1 + 1 + 0) by lia.
  replace (m - 1 + 1 + 0) with ((m - 1) + 1) by lia.
  rewrite MakeDay_next_month by lia.
  replace (m - 1 + 1) with m by lia.
  pose proof (next_month_days y m Hm) as Hnext.
  set (day' := next_month_start y m + d - 1).
  assert (Hdiff : 28 <= day' - Day (LocalTime tz now) <= 31).
  { unfold day'. rewrite <- Hz, (days_from_civil_day y m d). lia. }
  assert (Hlocal : 0 <= Day (LocalTime tz now)
                   /\ 0 <= TimeWithinDay (LocalTime tz now) < msPerDay
                   /\ now = midnight (Day (LocalTime tz now))
                            + TimeWithinDay (LocalTime tz now)).
  { unfold Day, TimeWithinDay, LocalTime, fixedZone. cbn [LocalTZA].
    unfold msPerDay, msPerMinute in *. Z.div_mod_to_equations. lia. }
  destruct Hlocal as (Hd0 & Htod & Hnow).
  set (tod := TimeWithinDay (LocalTime tz now)) in *.
  exists (midnight day' + tod).
  split; [|split].
  - unfold UTC, MakeDate, fixedZone. cbn [LocalTZA].
    replace (day' * msPerDay + tod - minutes * msPerMinute)
      with (midnight day' + tod) by lia.
    apply TimeClip_midnight; [|done].
    unfold Day, LocalTime, fixedZone in *. cbn [LocalTZA] in *.
    unfold msPerDay, msPerMinute in *. Z.div_mod_to_equations. lia.
  - rewrite Day_midnight by done. unfold day', next_month_start.
    destruct (Z.eqb_spec m 12) as [->|].
    + rewrite <- days_from_civil_day. apply civil_of_days_from_civil; [lia..|].
      pose proof (next_month_days (y + 1) 1 ltac:(lia)).
      rewrite (days_from_civil_day _ _ d). lia.
    + rewrite <- days_from_civil_day. apply civil_of_days_from_civil; [lia..|].
      pose proof (next_month_days y (m + 1) ltac:(lia)).
      rewrite (days_from_civil_day _ _ d). lia.
  - unfold TimeWithinDay, LocalTime, fixedZone. cbn [LocalTZA].
    unfold msPerDay in *. Z.div_mod_to_equations. lia.
Qed.

(** X11: in a zone whose offset does not change, the range
    [getEventsForMonth] asks for starts before it ends, and it ends one
    millisecond before the range of the month that [navigateMonth(1)]
    leads to starts: the months follow each other without a gap and
    without an overlap, across the end of the year as well. *)
Theorem getEventsForMonth_months_meet year month :
  100 <= year <= 200000 -> 0 <= month <= 11 ->
  exists first last,
    getEventsForMonth_range tz year month = (Some first, Some last)
    /\ first < last
    /\ (let '(month', year') := navigateMonth month year 1 in
        (getEventsForMonth_range tz year' month').1 = Some (last + 1)).
Proof.
  intros Hyear Hmonth.
  pose proof (next_month_days year (month + 1) ltac:(lia)) as Hlen.
  pose proof (next_month_start_bound year (month + 1) ltac:(lia) ltac:(lia))
    as Hnb.
  set (next := next_month_start year (month + 1)) in *.
  exists (midnight (days_from_civil year (month + 1) 1)),
    (midnight next - 1).
  split; [|split].
  - unfold getEventsForMonth_range.
    rewrite Date_ymd_day, Date_ymd_last_day by lia.
    replace (days_from_civil year (month + 1) 1 + 1 - 1)
      with (days_from_civil year (month + 1) 1) by lia.
    f_equal. fold next. unfold setHours.
    rewrite <- (Z.add_0_r (midnight (next - 1))).
    rewrite Day_midnight by (unfold msPerDay; lia).
    unfold UTC, MakeDate, MakeTime, fixedZone. cbn [LocalTZA].
    replace ((next - 1) * msPerDay
             + (23 * msPerHour + 59 * msPerMinute + 59 * 1000 + 999)
             - minutes * msPerMinute)
      with (midnight (next - 1) + (msPerDay - 1))
      by (unfold msPerDay, msPerHour, msPerMinute; lia).
    rewrite TimeClip_midnight by (unfold msPerDay; lia).
    f_equal. lia.
  - unfold msPerDay. lia.
  - unfold navigateMonth.
    destruct (Z.ltb_spec (month + 1) 0); [lia|].
    unfold getEventsForMonth_range. cbn [fst].
    destruct (Z.ltb_spec 11 (month + 1)).
    + rewrite Date_ymd_day by lia. f_equal.
      unfold next, next_month_start.
      destruct (Z.eqb_spec (month + 1) 12); [|lia].
      change (0 + 1) with 1. lia.
    + rewrite Date_ymd_day by lia. f_equal.
      unfold next, next_month_start.
      destruct (Z.eqb_spec (month + 1) 12); [lia|]. lia.
Qed.

(** X12: in a zone whose offset does not change, [totalDays] is the
    number of days of the month; read row by row, the grid has as many
    empty cells as the weekday number of the first, then the days 1 to
    [totalDays] once each with their [data-date], then empty cells up to
    42; every row has seven cells, and the column of a day is the weekday
    of its date. *)
Theorem calendarGrid_month year month :
  100 <= year <= 200000 -> 0 <= month <= 11 ->
  exists firstDay lastDay,
    Date_ymd tz (Some year) (Some month) (Some 1) = Some firstDay
    /\ Date_ymd tz (Some year) (Some (month + 1)) (Some 0) = Some lastDay
    /\ let startDayOfWeek := getDay tz firstDay in
       let totalDays := getDate tz lastDay in
       totalDays
       = next_month_start year (month + 1) - days_from_civil year (month + 1) 1
       /\ concat (calendarGrid year month startDayOfWeek totalDays)
          = replicate (Z.to_nat startDayOfWeek) None
            ++ map (fun d => Some (d, cellDate year month d)) (seqZ 1 totalDays)
            ++ replicate (Z.to_nat (42 - startDayOfWeek - totalDays)) None
       /\ Forall (fun week => length week = 7%nat)
            (calendarGrid year month startDayOfWeek totalDays)
       /\ forall d, 1 <= d <= totalDays ->
            exists t,
              Date_ymd tz (Some year) (Some month) (Some d) = Some t
              /\ getDay tz t = (startDayOfWeek + d - 1) mod 7.
Proof.
  intros Hyear Hmonth.
  pose proof (next_month_days year (month + 1) ltac:(lia)) as Hlen.
  set (first := days_from_civil year (month + 1) 1) in *.
  set (next := next_month_start year (month + 1)) in *.
  exists (midnight first), (midnight (next - 1)).
  split; [|split].
  - rewrite Date_ymd_day by lia. fold first. do 2 f_equal. lia.
  - by rewrite Date_ymd_last_day by lia.
  - assert (Htotal : getDate tz (midnight (next - 1)) = next - first).
    { unfold getDate. rewrite <- (Z.add_0_r (midnight (next - 1))).
      rewrite Day_midnight by (unfold msPerDay; lia).
      replace (next - 1) with (first + (next - first) - 1) by lia.
      unfold first. rewrite <- days_from_civil_day.
      rewrite civil_of_days_from_civil; [done|lia|lia|].
      rewrite days_from_civil_day. fold first next. lia. }
    assert (Hstart : getDay tz (midnight first) = (first + 4) mod 7).
    { unfold getDay. rewrite <- (Z.add_0_r (midnight first)).
      by rewrite Day_midnight by (unfold msPerDay; lia). }
    cbv zeta. rewrite Htotal, Hstart.
    assert (Hwd : 0 <= (first + 4) mod 7 < 7) by (apply Z.mod_pos_bound; lia).
    split; [done|]. split; [|split].
    + apply calendarGrid_cells; lia.
    + unfold calendarGrid. apply Forall_forall.
      intros week (w & -> & _)%list_elem_of_fmap. done.
    + intros d Hd. eexists. split; [apply Date_ymd_day; lia|].
      unfold getDay. fold first.
      rewrite <- (Z.add_0_r (midnight (first + d - 1))).
      rewrite Day_midnight by (unfold msPerDay; lia).
      Z.div_mod_to_equations. lia.
Qed.
End FixedZoneMonths.

Lemma preset_NextMonth_day_witness :
  exists t,
    preset_NextMonth (fixedZone (-300)) saturday_morning = Some t
    /\ civil_from_days (Day (LocalTime (fixedZone (-300)) t))
       = (if 10 =? 12 then (2025 + 1, 1, 25) else (2025, 10 + 1, 25))
    /\ TimeWithinDay (LocalTime (fixedZone (-300)) t)
       = TimeWithinDay (LocalTime (fixedZone (-300)) saturday_morning).
Proof.
  apply (preset_NextMonth_day (-300));
    [lia
    |unfold saturday_morning, msPerMinute; lia
    |unfold saturday_morning, msPerDay; lia
    |reflexivity
    |lia].
Defined.

(** From 31 January the preset runs over into March. *)
Example preset_NextMonth_from_the_31st :
  toISOString
    (preset_NextMonth (fixedZone 0) (MakeDate (days_from_civil 2025 1 31) 0))
  = Ok "2025-03-03T00:00:00.000Z".
Proof. by vm_compute. Qed.

Lemma getEventsForMonth_months_meet_witness :
  exists first last,
    getEventsForMonth_range (fixedZone (-300)) 2025 11 = (Some first, Some last)
    /\ first < last
    /\ (let '(month', year') := navigateMonth 11 2025 1 in
        (getEventsForMonth_range (fixedZone (-300)) year' month').1
        = Some (last + 1)).
Proof. apply (getEventsForMonth_months_meet (-300)); lia. Defined.

Lemma calendarGrid_month_witness :
  exists firstDay lastDay,
    Date_ymd (fixedZone (-300)) (Some 2025) (Some 9) (Some 1) = Some firstDay
    /\ Date_ymd (fixedZone (-300)) (Some 2025) (Some (9 + 1)) (Some 0)
       = Some lastDay
    /\ let startDayOfWeek := getDay (fixedZone (-300)) firstDay in
       let totalDays := getDate (fixedZone (-300)) lastDay in
       totalDays
       = next_month_start 2025 (9 + 1) - days_from_civil 2025 (9 + 1) 1
       /\ concat (calendarGrid 2025 9 startDayOfWeek totalDays)
          = replicate (Z.to_nat startDayOfWeek) None
            ++ map (fun d => Some (d, cellDate 2025 9 d)) (seqZ 1 totalDays)
            ++ replicate (Z.to_nat (42 - startDayOfWeek - totalDays)) None
       /\ Forall (fun week => length week = 7%nat)
            (calendarGrid 2025 9 startDayOfWeek totalDays)
       /\ forall d, 1 <= d <= totalDays ->
            exists t,
              Date_ymd (fixedZone (-300)) (Some 2025) (Some 9) (Some d) = Some t
              /\ getDay (fixedZone (-300)) t = (startDayOfWeek + d - 1) mod 7.
Proof. apply (calendarGrid_month (-300)); lia. Defined.

(** October 2025 starts on a Wednesday. *)
Example calendarGrid_october_2025 :
  take 5 (concat (calendarGrid 2025 9 3 31))
  = [None; None; None; Some (1, "2025-10-01"); Some (2, "2025-10-02")].
Proof. by vm_compute. Qed.

(** ** The month buttons *)

(** X13: from a month 0..11, [navigateMonth] forward and then backward,
    or backward and then forward, comes back to the same month and year,
    and every month it posts is in 0..11. *)
Theorem navigateMonth_round_trip month year :
  0 <= month <= 11 ->
  (let '(next, year') := navigateMonth month year 1 in
   0 <= next <= 11 /\ navigateMonth next year' (-1) = (month, year))
  /\ (let '(previous, year') := navigateMonth month year (-1) in
      0 <= previous <= 11 /\ navigateMonth previous year' 1 = (month, year)).
Proof.
  intros Hm. unfold navigateMonth. split.
  - destruct (Z.ltb_spec (month + 1) 0); [lia|].
    destruct (Z.ltb_spec 11 (month + 1)).
    + split; [lia|]. cbn. f_equal; lia.
    + split; [lia|].
      destruct (Z.ltb_spec (month + 1 + -1) 0); [lia|].
      destruct (Z.ltb_spec 11 (month + 1 + -1)); [lia|]. f_equal; lia.
  - destruct (Z.ltb_spec (month + -1) 0).
    + split; [lia|]. cbn. f_equal; lia.
    + destruct (Z.ltb_spec 11 (month + -1)); [lia|]. split; [lia|].
      destruct (Z.ltb_spec (month + -1 + 1) 0); [lia|].
      destruct (Z.ltb_spec 11 (month + -1 + 1)); [lia|]. f_equal; lia.
Qed.

Lemma navigateMonth_round_trip_witness :
  (let '(next, year') := navigateMonth 11 2025 1 in
   0 <= next <= 11 /\ navigateMonth next year' (-1) = (11, 2025))
  /\ (let '(previous, year') := navigateMonth 11 2025 (-1) in
      0 <= previous <= 11 /\ navigateMonth previous year' 1 = (11, 2025)).
Proof. apply (navigateMonth_round_trip 11 2025). lia. Defined.


(** ** Times of day *)


Lemma reads_back_all :
  forallb (fun h => forallb (reads_back h) (seqZ 0 60)) (seqZ 0 24) = true.
Proof. by vm_compute. Qed.

(** X14: [parseCustomTime] reads back what [formatTime] writes, and the
    24-hour spelling, for every hour 0..23 and minute 0..59. *)
Theorem parseCustomTime_formatTime hours minutes :
  0 <= hours < 24 -> 0 <= minutes < 60 ->
  parseCustomTime (formatTime hours minutes) = Some (hours, minutes)
  /\ parseCustomTime (time24 hours minutes) = Some (hours, minutes).
Proof.
  intros Hh Hm. pose proof reads_back_all as Hall.
  rewrite forallb_forall in Hall.
  specialize (Hall hours). rewrite forallb_forall in Hall.
  specialize (Hall ltac:(apply list_elem_of_In, elem_of_seqZ; lia) minutes
                ltac:(apply list_elem_of_In, elem_of_seqZ; lia)).
  unfold reads_back in Hall. apply andb_prop in Hall as [H1 H2].
  by apply bool_decide_eq_true in H1, H2.
Qed.

Lemma parseCustomTime_formatTime_witness :
  parseCustomTime (formatTime 14 30) = Some (14, 30)
  /\ parseCustomTime (time24 14 30) = Some (14, 30).
Proof. apply (parseCustomTime_formatTime 14 30); lia. Defined.

(** X15: whatever the input, a time [parseCustomTime] returns has its
    hours in 0..23 and its minutes in 0..59. *)
Theorem parseCustomTime_range timeString hours minutes :
  parseCustomTime timeString = Some (hours, minutes) ->
  0 <= hours < 24 /\ 0 <= minutes < 60.
Proof.
  unfold parseCustomTime.
  set (trimmed := toUpperCase (trim timeString)).
  assert (H12 :
    ('(h, m, period) ← timePattern12 trimmed;
     hours ← parseInt (Some h);
     minutes ← parseInt (Some (default "0" m));
     if (hours <? 1) || (12 <? hours) || (minutes <? 0) || (60 <=? minutes)
     then None
     else if String.eqb period "PM" && negb (hours =? 12)
     then Some (hours + 12, minutes)
     else if String.eqb period "AM" && (hours =? 12)
     then Some (0, minutes)
     else Some (hours, minutes)) = Some (hours, minutes) ->
    0 <= hours < 24 /\ 0 <= minutes < 60).
  { destruct (timePattern12 trimmed) as [[[h m] period]|];
      cbn [mbind option_bind]; [|done].
    destruct (parseInt (Some h)) as [hh|]; cbn [mbind option_bind]; [|done].
    destruct (parseInt _) as [mm|]; cbn [mbind option_bind]; [|done].
    destruct (Z.ltb_spec hh 1), (Z.ltb_spec 12 hh), (Z.ltb_spec mm 0),
      (Z.leb_spec 60 mm); cbn [orb]; try done.
    destruct (String.eqb period "PM"), (String.eqb period "AM"),
      (Z.eqb_spec hh 12); cbn [andb negb]; intros [= <- <-]; lia. }
  destruct (timePattern24 trimmed) as [[h m]|]; cbn [mbind option_bind];
    [|exact H12].
  destruct (parseInt (Some h)) as [hh|]; cbn [mbind option_bind]; [|exact H12].
  destruct (parseInt (Some m)) as [mm|]; cbn [mbind option_bind]; [|exact H12].
  destruct (Z.leb_spec 0 hh), (Z.ltb_spec hh 24), (Z.leb_spec 0 mm),
    (Z.ltb_spec mm 60); cbn [andb]; try exact H12.
  intros [= <- <-]. lia.
Qed.


Lemma parseCustomTime_range_witness : 0 <= 14 < 24 /\ 0 <= 30 < 60.
Proof. apply (parseCustomTime_range "2:30 pm" 14 30). reflexivity. Defined.

(** Hours are tried with two digits before one; a colon without minutes
    and minutes without a colon are read; the 24-hour pattern wants two
    digits of minutes. *)
Example parseCustomTime_spellings :
  map parseCustomTime
    [" 9 am "; "123 PM"; "1234pm"; "12:PM"; "12am"; "7:5"; "24:00"; "13 PM"]
  = [Some (9, 0); Some (13, 23); Some (12, 34); Some (12, 0); Some (0, 0);
     None; None; None].
Proof. by vm_compute. Qed.


(** ** Escaping *)

(** X16: the text [escapeHtml] returns holds none of the characters
    [<], [>], the double quote and the single quote. *)
Theorem escapeHtml_no_markup text :
  includes_char "<" (escapeHtml text) = false
  /\ includes_char ">" (escapeHtml text) = false
  /\ includes_char "034" (escapeHtml text) = false
  /\ includes_char "'" (escapeHtml text) = false.
Proof.
  induction text as [|c text (IH1 & IH2 & IH3 & IH4)]; [done|].
  cbn [escapeHtml].
  destruct (Ascii.eqb_spec c "&");
    [rewrite !includes_char_app, IH1, IH2, IH3, IH4; by vm_compute|].
  destruct (Ascii.eqb_spec c "<");
    [rewrite !includes_char_app, IH1, IH2, IH3, IH4; by vm_compute|].
  destruct (Ascii.eqb_spec c ">");
    [rewrite !includes_char_app, IH1, IH2, IH3, IH4; by vm_compute|].
  destruct (Ascii.eqb_spec c "034");
    [rewrite !includes_char_app, IH1, IH2, IH3, IH4; by vm_compute|].
  destruct (Ascii.eqb_spec c "'");
    [rewrite !includes_char_app, IH1, IH2, IH3, IH4; by vm_compute|].
  cbn [includes_char]. rewrite IH1, IH2, IH3, IH4.
  repeat split; by apply orb_false_intro; [apply Ascii.eqb_neq|].
Qed.



(** ** The panel: reads and the form *)


Lemma set_panel_panel s v : set_panel (panel s) (set_panel v s) = s.
Proof. by destruct s. Qed.

Lemma only_reads_refl r : only_reads r r.
Proof.
  split; [exists []; by rewrite app_nil_r|]. by destruct (state r).
Qed.

Lemma only_reads_trans r1 r2 r3 :
  only_reads r1 r2 -> only_reads r2 r3 -> only_reads r1 r3.
Proof.
  intros [(cs1 & Hc1 & Hr1) Hs1] [(cs2 & Hc2 & Hr2) Hs2]. split.
  - exists (cs1 ++ cs2). rewrite Hc2, Hc1, <- app_assoc. split; [done|].
    by rewrite forallb_app, Hr1, Hr2.
  - rewrite <- Hs1 at 2. rewrite <- Hs2. done.
Qed.

Lemma only_reads_note n r : only_reads r (run_note n r).
Proof. exact (only_reads_refl r). Qed.

Lemma only_reads_dialog msg r : only_reads r (run_dialog msg r).
Proof. exact (only_reads_refl r). Qed.

Lemma only_reads_panel v r : only_reads r (run_state (set_panel v) r).
Proof.
  split; [exists []; by rewrite app_nil_r|]. cbn [run_state state].
  apply set_panel_panel.
Qed.

Lemma only_reads_call c r : is_read c = true -> only_reads r (run_call c r).
Proof.
  intros Hc. split; [|cbn [run_call state]; by destruct (state r)].
  exists [c]. split; [done|]. cbn [forallb]. by rewrite Hc.
Qed.

Section ReadsFacts.
Variable localeCompare : string -> string -> Z.
Variable w : World.

Lemma refreshFailed_reads e : reads_then w (refreshFailed e).
Proof.
  intros k r. unfold refreshFailed.
  repeat case_match; cbn [exec];
    repeat case_match; cbn [exec]; eexists; (split; [reflexivity|]);
    eauto using only_reads_trans, only_reads_dialog, only_reads_note.
Qed.

Lemma render_reads tasks events :
  reads_then w (render localeCompare tasks events).
Proof.
  intros k r. unfold render.
  destruct (mergeItems localeCompare tasks events) as [items|e].
  - cbn [exec]. destruct (panel (state r)).
    + cbn [exec]. eexists. split; [reflexivity|]. apply only_reads_panel.
    + apply refreshFailed_reads.
  - apply refreshFailed_reads.
Qed.

Lemma fetchTasks_reads lists : forall acc k r,
  exists acc' r1,
    exec w (fetchTasks lists acc k) r = exec w (k acc') r1 /\ only_reads r r1.
Proof.
  induction lists as [|l lists IH]; intros acc k r; cbn [fetchTasks].
  - exists acc, r. split; [done|apply only_reads_refl].
  - destruct (truthy (TaskList.id l)); [|apply IH]. cbn [exec].
    destruct (answer w (Facade.tasks_list _)) as [tasks|e].
    + edestruct IH as (acc' & r1 & Heq & Hq). rewrite Heq.
      exists acc', r1. split; [done|].
      eapply only_reads_trans; [|exact Hq]. by apply only_reads_call.
    + eexists _, _. split; [reflexivity|]. by apply only_reads_call.
Qed.

Lemma refreshCalendar_reads : reads_then w (refreshCalendar localeCompare).
Proof.
  intros k r. unfold refreshCalendar. cbn [exec].
  destruct (negb (bool_decide (is_Some (panel (state r))))
            || negb (calendarProvider (state r))).
  { exists r. split; [done|apply only_reads_refl]. }
  cbn [exec].
  set (r0 := run_call _ r).
  assert (Hq0 : only_reads r r0) by (by apply only_reads_call).
  destruct (answer w (Facade.getEventsForMonth _ _)) as [events|e].
  - cbn [exec].
    destruct (taskProvider (state r0) && service (state r0)).
    + cbn [exec]. set (r2 := run_call _ r0).
      assert (Hq2 : only_reads r r2)
        by (eapply only_reads_trans; [exact Hq0|by apply only_reads_call]).
      destruct (answer w Facade.tasklists_list) as [lists|e].
      * destruct (fetchTasks_reads lists []
                    (fun tasks => render localeCompare tasks events k) r2)
          as (acc' & r3 & Heq & Hq3).
        destruct (render_reads acc' events k r3) as (r4 & Heq4 & Hq4).
        exists r4. split; [exact (eq_trans Heq Heq4)|].
        eauto using only_reads_trans.
      * destruct (render_reads [] events k r2) as (r4 & Heq4 & Hq4).
        exists r4. split; [done|]. eauto using only_reads_trans.
    + destruct (render_reads [] events k r0) as (r4 & Heq4 & Hq4).
      exists r4. split; [done|]. eauto using only_reads_trans.
  - destruct (refreshFailed_reads e k r0) as (r4 & Heq4 & Hq4).
    exists r4. split; [done|]. eauto using only_reads_trans.
Qed.

Lemma refreshCalendar_reaches : reaches w (refreshCalendar localeCompare).
Proof.
  intros k r. destruct (refreshCalendar_reads k r) as (r1 & Heq & _). eauto.
Qed.

Lemma only_reads_calls r r1 :
  only_reads r r1 -> forallb is_read (calls r) = true ->
  forallb is_read (calls r1) = true.
Proof.
  intros [(cs & -> & Hcs) _] Hr. by rewrite forallb_app, Hr, Hcs.
Qed.

Lemma refresh_after_update (f : State -> State) r :
  forallb is_read (calls r) = true ->
  forallb is_read
    (calls (exec w (Update f (refreshCalendar localeCompare Done)) r)) = true.
Proof.
  intros Hr. cbn [exec].
  destruct (refreshCalendar_reads Done (run_state f r)) as (r1 & -> & Hq).
  cbn [exec]. by apply (only_reads_calls _ _ Hq).
Qed.

(** X17: a message of the page other than [submitEventForm] and
    [deleteEvent] makes the provider read the remote stores at most: it
    creates, updates, deletes, patches and inserts nothing, whatever the
    stores answer. *)
Theorem only_submit_and_delete_write tz s msg :
  CalendarMessage.type msg <> CalendarMessage.submitEventForm ->
  CalendarMessage.type msg <> CalendarMessage.deleteEvent ->
  forallb is_read
    (calls (exec w (onDidReceiveMessage tz localeCompare msg) (start s))) = true.
Proof.
  intros Hsubmit Hdelete. unfold onDidReceiveMessage.
  destruct (CalendarMessage.type msg); try done.
  - destruct (CalendarMessage.month msg), (CalendarMessage.year msg); try done.
    by apply refresh_after_update.
  - destruct (truthy (CalendarMessage.date msg)); [|done].
    by apply refresh_after_update.
  - by apply refresh_after_update.
  - by apply refresh_after_update.
  - by destruct (truthy (CalendarMessage.eventId msg)).
  - destruct (refreshCalendar_reads Done (start s)) as (r1 & -> & Hq).
    cbn [exec]. by apply (only_reads_calls _ _ Hq).
  - by apply refresh_after_update.
Qed.
End ReadsFacts.

Lemma only_submit_and_delete_write_witness :
  forallb is_read
    (calls (exec sample_world
              (onDidReceiveMessage (fixedZone 0) codeUnitCompare sample_navigate)
              (start sample_state))) = true.
Proof.
  apply (only_submit_and_delete_write codeUnitCompare sample_world (fixedZone 0)
           sample_state sample_navigate); discriminate.
Defined.

Section FormFacts.
Variable tz : TimeZone.
Variable localeCompare : string -> string -> Z.
Variable w : World.

Lemma submitCreateEvent_reaches formData :
  reaches w (submitCreateEvent tz localeCompare formData).
Proof.
  intros k r. unfold submitCreateEvent. cbn [exec].
  destruct (negb (calendarProvider (state r))
            || String.eqb (FormData.title formData) ""); [by eexists|].
  destruct (formTimes tz formData) as [times|e]; cbn [exec]; [|by eexists].
  destruct (answer w (Facade.createEvent _)); cbn [exec]; [|by eexists].
  apply refreshCalendar_reaches.
Qed.

Lemma submitEditEvent_reaches eventId formData :
  reaches w (submitEditEvent tz localeCompare eventId formData).
Proof.
  intros k r. unfold submitEditEvent. cbn [exec].
  destruct (negb (calendarProvider (state r))
            || String.eqb (FormData.title formData) ""); [by eexists|].
  destruct (formTimes tz formData) as [times|e]; cbn [exec]; [|by eexists].
  destruct (answer w (Facade.updateEvent _ _)); cbn [exec]; [|by eexists].
  apply refreshCalendar_reaches.
Qed.

Lemma submitCreateTaskFromForm_reaches formData :
  reaches w (submitCreateTaskFromForm tz localeCompare formData).
Proof.
  intros k r. unfold submitCreateTaskFromForm. cbn [exec].
  destruct (negb (taskProvider (state r))
            || String.eqb (FormData.title formData) ""); [by eexists|].
  destruct (createTaskDue tz formData) as [due|e]; cbn [exec]; [|by eexists].
  destruct (negb (service (state r))); cbn [exec]; [by eexists|].
  destruct (answer w Facade.tasklists_list) as [[|first lists]|e];
    cbn [exec]; [by eexists| |by eexists].
  destruct (answer w (Facade.tasks_insert _ _)); cbn [exec]; [|by eexists].
  apply refreshCalendar_reaches.
Qed.

Lemma searchLists_reaches taskId body lists :
  reaches w (searchLists localeCompare taskId body lists).
Proof.
  intros k. induction lists as [|l lists IH]; intros r; cbn [searchLists exec].
  - by eexists.
  - destruct (truthy (TaskList.id l)); [|apply IH]. cbn [exec].
    destruct (answer w (Facade.tasks_patch _ _ _)); cbn [exec]; [|apply IH].
    apply refreshCalendar_reaches.
Qed.

Lemma submitEditTask_reaches taskId formData taskListId :
  reaches w (submitEditTask tz localeCompare taskId formData taskListId).
Proof.
  intros k r. unfold submitEditTask. cbn [exec].
  destruct (negb (taskProvider (state r)) || negb (service (state r))
            || String.eqb (FormData.title formData) ""); [by eexists|].
  destruct (isoOfString tz _) as [due|e]; cbn [exec]; [|by eexists].
  assert (Hall : forall r0, exists r1,
    exec w
      (Get (fun s =>
         if taskProvider s && service s then
           Await Facade.tasklists_list (fun r =>
             match r with
             | Ok lists =>
                 searchLists localeCompare taskId
                   {| TaskBody.title := Some (FormData.title formData);
                      TaskBody.due := Some (Some due);
                      TaskBody.notes := None;
                      TaskBody.description := None |} lists k
             | Throw error =>
                 Notify (showErrorMessage
                   ("Failed to update task: " +:+ String_of_error error)) k
             end)
         else k)) r0 = exec w k r1).
  { intros r0. cbn [exec].
    destruct (taskProvider (state r0) && service (state r0)); [|by eexists].
    cbn [exec]. destruct (answer w Facade.tasklists_list) as [lists|e];
      cbn [exec]; [|by eexists].
    apply searchLists_reaches. }
  destruct (truthy taskListId); [|apply Hall]. cbn [exec].
  destruct (answer w (Facade.tasks_patch _ _ _)); cbn [exec]; [|apply Hall].
  apply refreshCalendar_reaches.
Qed.

(** X18: after a [submitEventForm] message with form data the form
    fields of the provider are reset, whatever the mode, the item type and
    the answers of the stores, also when the call has failed. *)
Theorem submit_closes_the_form s msg formData :
  CalendarMessage.type msg = CalendarMessage.submitEventForm ->
  CalendarMessage.formData msg = Some formData ->
  form_closed (state (exec w (onDidReceiveMessage tz localeCompare msg) (start s))).
Proof.
  intros Htype Hform. unfold onDidReceiveMessage. rewrite Htype, Hform.
  set (reset := Update _ Done).
  assert (Hreset : forall r, form_closed (state (exec w reset r)))
    by (intros r; by repeat split).
  assert (Hreach : forall p, reaches w p ->
            form_closed (state (exec w (p reset) (start s)))).
  { intros p Hp. destruct (Hp reset (start s)) as (r1 & ->). apply Hreset. }
  repeat case_match; try apply Hreset.
  - apply (Hreach _ (submitCreateTaskFromForm_reaches formData)).
  - apply (Hreach _ (submitCreateEvent_reaches formData)).
  - apply (Hreach _ (submitEditTask_reaches _ formData _)).
  - apply (Hreach _ (submitEditEvent_reaches _ formData)).
Qed.

(** X19: a [submitEventForm] message whose title is empty makes no call,
    shows no dialog and no message, and leaves the page as it is. *)
Theorem blank_title_does_nothing s msg formData :
  CalendarMessage.type msg = CalendarMessage.submitEventForm ->
  CalendarMessage.formData msg = Some formData ->
  FormData.title formData = "" ->
  let r := exec w (onDidReceiveMessage tz localeCompare msg) (start s) in
  calls r = [] /\ dialogs r = [] /\ notes r = [] /\ panel (state r) = panel s.
Proof.
  intros Htype Hform Htitle. unfold onDidReceiveMessage.
  rewrite Htype, Hform.
  unfold submitCreateTaskFromForm, submitCreateEvent, submitEditTask,
    submitEditEvent.
  rewrite Htitle. cbn [String.eqb].
  repeat case_match; cbn [exec start state]; by rewrite ?orb_true_r.
Qed.
End FormFacts.

Lemma submit_closes_the_form_witness :
  form_closed
    (state (exec offline_world
              (onDidReceiveMessage (fixedZone 0) codeUnitCompare sample_submit)
              (start sample_state))).
Proof.
  apply (submit_closes_the_form (fixedZone 0) codeUnitCompare offline_world
           sample_state sample_submit sample_form); reflexivity.
Defined.

Lemma blank_title_does_nothing_witness :
  let r := exec sample_world
             (onDidReceiveMessage (fixedZone 0) codeUnitCompare blank_submit)
             (start sample_state) in
  calls r = [] /\ dialogs r = [] /\ notes r = []
  /\ panel (state r) = panel sample_state.
Proof.
  apply (blank_title_does_nothing (fixedZone 0) codeUnitCompare sample_world
           sample_state blank_submit
           {| FormData.title := ""; FormData.date := "2025-10-21";
              FormData.time := "09:00"; FormData.isAllDay := false |});
    reflexivity.
Defined.

Section RefreshFacts.
Variable localeCompare : string -> string -> Z.
Variable w : World.

Lemma fetchTasks_fetched lists : forall acc k r,
  exists r1,
    exec w (fetchTasks lists acc k) r = exec w (k (acc ++ fetched_tasks w lists)) r1
    /\ state r1 = state r /\ dialogs r1 = dialogs r /\ notes r1 = notes r.
Proof.
  induction lists as [|l lists IH]; intros acc k r;
    cbn [fetchTasks fetched_tasks].
  - exists r. by rewrite app_nil_r.
  - destruct (truthy (TaskList.id l)); [|apply IH]. cbn [exec].
    destruct (answer w (Facade.tasks_list _)) as [tasks|e].
    + edestruct IH as (r1 & Heq & Hs & Hd & Hn). rewrite Heq.
      exists r1. by rewrite app_assoc.
    + eexists. by rewrite app_nil_r.
Qed.

(** X20: with an open panel and both providers, when the events of the
    month and the task lists are fetched, [refreshCalendar] shows the
    page of the current month, year and selected date whose items are the
    merge of these events and of the tasks with a due date of the lists
    read before the first list that fails; it shows no dialog and no
    message and changes no other field. *)
Theorem refreshCalendar_renders_the_merge s page
    (events : list CalendarEvent.t) (lists : list TaskList.t) :
  panel s = Some page -> calendarProvider s = true ->
  taskProvider s = true -> service s = true ->
  answer w (Facade.getEventsForMonth (currentYear s) (currentMonth s)) = Ok events ->
  answer w Facade.tasklists_list = Ok lists ->
  let r := exec w (refreshCalendar localeCompare Done) (start s) in
  state r
  = set_panel
      (Some (Some
         {| allItems :=
              Array_sort (compareItems localeCompare)
                (unified_input (fetched_tasks w lists) events);
            page_selectedDate := selectedDate s;
            page_month := currentMonth s;
            page_year := currentYear s |})) s
  /\ dialogs r = [] /\ notes r = [].
Proof.
  intros Hpage Hcal Htask Hservice Hevents Hlists.
  unfold refreshCalendar. cbn [exec start state].
  rewrite bool_decide_true, Hcal by (by rewrite Hpage). cbn [negb orb exec run_call state].
  rewrite Hevents. cbn [exec run_call start state].
  rewrite Htask, Hservice. cbn [andb exec]. rewrite Hlists.
  match goal with |- context [exec w (fetchTasks lists [] ?k) ?r] =>
    destruct (fetchTasks_fetched lists [] k r) as (r1 & -> & Hs & Hd & Hn)
  end.
  unfold render. rewrite mergeItems_eq. cbn [exec app].
  cbn [run_call start state dialogs notes] in *. rewrite Hs.
  rewrite Hpage.
  cbn [exec run_state state dialogs notes]. by rewrite Hs, Hd, Hn.
Qed.

(** X21: when the events cannot be fetched, [refreshCalendar] makes no
    other call, leaves the page and the fields as they were, and tells
    the user with a dialog or a message. *)
Theorem failed_event_fetch_keeps_the_page s page e :
  panel s = Some page -> calendarProvider s = true ->
  answer w (Facade.getEventsForMonth (currentYear s) (currentMonth s)) = Throw e ->
  let r := exec w (refreshCalendar localeCompare Done) (start s) in
  state r = s
  /\ calls r = [Facade.getEventsForMonth (currentYear s) (currentMonth s)]
  /\ (dialogs r <> [] \/ notes r <> []).
Proof.
  intros Hpage Hcal Hevents.
  unfold refreshCalendar. cbn [exec start state].
  rewrite bool_decide_true, Hcal by (by rewrite Hpage). cbn [negb orb exec run_call state].
  rewrite Hevents. unfold refreshFailed.
  repeat case_match; cbn [exec]; repeat case_match; cbn [exec];
    (split; [done|]); (split; [done|]);
    try (by left); by right.
Qed.
End RefreshFacts.

Lemma refreshCalendar_renders_the_merge_witness :
  let lists :=
    [ {| TaskList.id := Some "list-a"; TaskList.title := Some "Home" |};
      {| TaskList.id := Some "list-b"; TaskList.title := Some "Work" |};
      {| TaskList.id := Some "list-c"; TaskList.title := Some "Later" |} ] in
  let r := exec sample_world (refreshCalendar codeUnitCompare Done)
             (start sample_state) in
  state r
  = set_panel
      (Some (Some
         {| allItems :=
              Array_sort (compareItems codeUnitCompare)
                (unified_input (fetched_tasks sample_world lists) []);
            page_selectedDate := selectedDate sample_state;
            page_month := currentMonth sample_state;
            page_year := currentYear sample_state |})) sample_state
  /\ dialogs r = [] /\ notes r = [].
Proof.
  apply (refreshCalendar_renders_the_merge codeUnitCompare sample_world
           sample_state None); reflexivity.
Defined.

Lemma failed_event_fetch_keeps_the_page_witness :
  let r := exec offline_world (refreshCalendar codeUnitCompare Done)
             (start sample_state) in
  state r = sample_state
  /\ calls r
     = [Facade.getEventsForMonth (currentYear sample_state)
          (currentMonth sample_state)]
  /\ (dialogs r <> [] \/ notes r <> []).
Proof.
  apply (failed_event_fetch_keeps_the_page codeUnitCompare offline_world
           sample_state None (Error "getaddrinfo ENOTFOUND")); reflexivity.
Defined.


(** ** What a message writes *)

Lemma only_reads_writes r r1 : only_reads r r1 -> writes r1 = writes r.
Proof.
  intros [(cs & Hcs & Hread) _]. unfold writes. rewrite Hcs, List.filter_app.
  replace (List.filter (fun c => negb (is_read c)) cs) with (@nil Facade.Call);
    [by rewrite app_nil_r|].
  clear Hcs. induction cs as [|c cs IH]; [done|].
  cbn [forallb] in Hread. apply andb_prop in Hread as [Hc Hcs].
  cbn [List.filter]. rewrite Hc. cbn [negb]. by apply IH.
Qed.

Section WriteFacts.
Variable tz : TimeZone.
Variable localeCompare : string -> string -> Z.
Variable w : World.

Lemma refreshed_writes r :
  writes (exec w (refreshCalendar localeCompare Done) r) = writes r.
Proof.
  destruct (refreshCalendar_reads localeCompare w Done r) as (r1 & -> & Hq).
  by apply only_reads_writes.
Qed.

Lemma refreshed_then_reset_writes f r :
  writes (exec w (refreshCalendar localeCompare (Update f Done)) r) = writes r.
Proof.
  destruct (refreshCalendar_reads localeCompare w (Update f Done) r)
    as (r1 & -> & Hq).
  cbn [exec]. by apply only_reads_writes in Hq.
Qed.

(** X26: a [deleteEvent] message changes the remote stores with at most
    one call: [deleteEvent] on the event of the message, and only when
    the user has pressed "Delete"; what follows only reads. *)
Theorem deleteEvent_message_writes s msg :
  CalendarMessage.type msg = CalendarMessage.deleteEvent ->
  let r := exec w (onDidReceiveMessage tz localeCompare msg) (start s) in
  writes r = []
  \/ writes r = [Facade.deleteEvent (or_default (CalendarMessage.eventId msg) "")]
     /\ choose w "Delete this event?" ["Delete"] = Some "Delete"
     /\ truthy (CalendarMessage.eventId msg) = true
     /\ calendarProvider s = true.
Proof.
  intros Htype. unfold onDidReceiveMessage. rewrite Htype.
  destruct (truthy (CalendarMessage.eventId msg)); [|by left].
  unfold handleDeleteEvent. cbn [exec start state].
  destruct (calendarProvider s); [|by left]. cbn [negb exec].
  destruct (decide (choose w "Delete this event?" ["Delete"] = Some "Delete"))
    as [Hc|Hc].
  - rewrite bool_decide_true by done. cbn [exec].
    destruct (answer w (Facade.deleteEvent _)); cbn [exec].
    + right. by rewrite refreshed_writes.
    + by right.
  - rewrite bool_decide_false by done. by left.
Qed.

(** X27: a submitted form for a calendar item whose date and time read
    as a date-time changes the remote stores with at most one call: in
    create mode [createEvent], in edit mode [updateEvent] on the event of
    the message, with the title of the form and the instants of its local
    time and of one hour later; tasks are not touched. *)
Theorem calendar_submit_writes s msg formData times :
  CalendarMessage.type msg = CalendarMessage.submitEventForm ->
  CalendarMessage.formData msg = Some formData ->
  CalendarMessage.itemType msg <> Some task ->
  formTimes tz formData = Ok times ->
  let r := exec w (onDidReceiveMessage tz localeCompare msg) (start s) in
  writes r = []
  \/ CalendarMessage.mode msg = Some create
     /\ writes r = [Facade.createEvent (formEvent formData times)]
  \/ CalendarMessage.mode msg = Some edit
     /\ writes r
        = [Facade.updateEvent (or_default (CalendarMessage.eventId msg) "")
             (formEvent formData times)].
Proof.
  intros Htype Hform Hitem Htimes. unfold onDidReceiveMessage.
  rewrite Htype, Hform.
  assert (Hcal : bool_decide
            (default calendar (CalendarMessage.itemType msg) = task) = false).
  { apply bool_decide_eq_false.
    destruct (CalendarMessage.itemType msg) as [[]|]; cbn; congruence. }
  rewrite Hcal.
  destruct (decide (CalendarMessage.mode msg = Some create)) as [Hmode|Hmode].
  - rewrite bool_decide_true by done. unfold submitCreateEvent.
    cbn [exec start state].
    destruct (negb (calendarProvider s)
              || String.eqb (FormData.title formData) ""); [by left|].
    rewrite Htimes. cbn [exec].
    right. left. split; [done|].
    destruct (answer w (Facade.createEvent _)); cbn [exec]; [|done].
    by rewrite refreshed_then_reset_writes.
  - rewrite bool_decide_false by done.
    destruct (decide (CalendarMessage.mode msg = Some edit)) as [Hedit|Hedit].
    + rewrite bool_decide_true by done.
      destruct (truthy (CalendarMessage.eventId msg)); [|by left].
      cbn [andb]. unfold submitEditEvent. cbn [exec start state].
      destruct (negb (calendarProvider s)
                || String.eqb (FormData.title formData) ""); [by left|].
      rewrite Htimes. cbn [exec].
      right. right. split; [done|].
      destruct (answer w (Facade.updateEvent _ _)); cbn [exec]; [|done].
      by rewrite refreshed_then_reset_writes.
    + rewrite bool_decide_false by done. by left.
Qed.

(** X28: a form submitted to create a task, whose date and time read as a
    date-time, changes the remote stores with at most one call: the
    insertion of the task into the first task list the service returns,
    with the title and the due date of the form. *)
Theorem task_create_writes s msg formData dueDate :
  CalendarMessage.type msg = CalendarMessage.submitEventForm ->
  CalendarMessage.formData msg = Some formData ->
  CalendarMessage.mode msg = Some create ->
  CalendarMessage.itemType msg = Some task ->
  createTaskDue tz formData = Ok dueDate ->
  let r := exec w (onDidReceiveMessage tz localeCompare msg) (start s) in
  writes r = []
  \/ exists first rest,
       answer w Facade.tasklists_list = Ok (first :: rest)
       /\ writes r
          = [Facade.tasks_insert (TaskList.id first)
               (create_body formData dueDate)].
Proof.
  intros Htype Hform Hmode Hitem Hdue. unfold onDidReceiveMessage.
  rewrite Htype, Hform, Hmode, Hitem. cbn [default from_option id].
  rewrite !bool_decide_true by done.
  unfold submitCreateTaskFromForm. cbn [exec start state].
  destruct (negb (taskProvider s) || String.eqb (FormData.title formData) "");
    [by left|].
  rewrite Hdue. cbn [exec].
  destruct (negb (service s)); cbn [exec]; [by left|].
  destruct (answer w Facade.tasklists_list) as [[|first rest]|e] eqn:Hlists;
    cbn [exec]; [by left| |by left].
  right. exists first, rest. split; [done|].
  destruct (answer w (Facade.tasks_insert _ _)); cbn [exec]; [|done].
  by rewrite refreshed_then_reset_writes.
Qed.
End WriteFacts.

Lemma deleteEvent_message_writes_witness :
  let r := exec sample_world
             (onDidReceiveMessage (fixedZone 0) codeUnitCompare sample_delete)
             (start sample_state) in
  writes r = []
  \/ writes r
     = [Facade.deleteEvent (or_default (CalendarMessage.eventId sample_delete) "")]
     /\ choose sample_world "Delete this event?" ["Delete"] = Some "Delete"
     /\ truthy (CalendarMessage.eventId sample_delete) = true
     /\ calendarProvider sample_state = true.
Proof.
  apply (deleteEvent_message_writes (fixedZone 0) codeUnitCompare sample_world
           sample_state sample_delete). reflexivity.
Defined.

Lemma calendar_submit_writes_witness :
  let r := exec sample_world
             (onDidReceiveMessage (fixedZone 0) codeUnitCompare sample_submit)
             (start sample_state) in
  writes r = []
  \/ CalendarMessage.mode sample_submit = Some create
     /\ writes r
        = [Facade.createEvent
             (formEvent sample_form
                ("2025-10-21T09:00:00.000Z", "2025-10-21T10:00:00.000Z"))]
  \/ CalendarMessage.mode sample_submit = Some edit
     /\ writes r
        = [Facade.updateEvent
             (or_default (CalendarMessage.eventId sample_submit) "")
             (formEvent sample_form
                ("2025-10-21T09:00:00.000Z", "2025-10-21T10:00:00.000Z"))].
Proof.
  apply (calendar_submit_writes (fixedZone 0) codeUnitCompare sample_world
           sample_state sample_submit sample_form
           ("2025-10-21T09:00:00.000Z", "2025-10-21T10:00:00.000Z"));
    [reflexivity|reflexivity|discriminate|reflexivity].
Defined.

Lemma task_create_writes_witness :
  let r := exec sample_world
             (onDidReceiveMessage (fixedZone 0) codeUnitCompare
                sample_task_submit)
             (start sample_state) in
  writes r = []
  \/ exists first rest,
       answer sample_world Facade.tasklists_list = Ok (first :: rest)
       /\ writes r
          = [Facade.tasks_insert (TaskList.id first)
               (create_body sample_form "2025-10-21T09:00:00.000Z")].
Proof.
  apply (task_create_writes (fixedZone 0) codeUnitCompare sample_world
           sample_state sample_task_submit sample_form
           "2025-10-21T09:00:00.000Z"); reflexivity.
Defined.

(** A form whose time is the end of the day is written as any other. *)
Example end_of_day_event_is_created :
  writes (exec sample_world
            (onDidReceiveMessage (fixedZone 0) codeUnitCompare
               (end_of_day_submit calendar))
            (start sample_state))
  = [Facade.createEvent
       (formEvent end_of_day_form
          ("2025-10-22T00:00:00.000Z", "2025-10-22T01:00:00.000Z"))]
  /\ writes (exec sample_world
               (onDidReceiveMessage (fixedZone 0) codeUnitCompare
                  (end_of_day_submit task))
               (start sample_state))
     = [Facade.tasks_insert (Some "list-a")
          (create_body end_of_day_form "2025-10-22T00:00:00.000Z")].
Proof. by vm_compute. Qed.

(** The task goes into the first list. *)
Example task_is_created_in_the_first_list :
  writes (exec sample_world
            (onDidReceiveMessage (fixedZone 0) codeUnitCompare sample_task_submit)
            (start sample_state))
  = [Facade.tasks_insert (Some "list-a")
       (create_body sample_form "2025-10-21T09:00:00.000Z")].
Proof. by vm_compute. Qed.


(** ** The timers of the page *)


Lemma NoDup_map_filter {A B} (f : A -> B) (g : A -> bool) l :
  NoDup (map f l) -> NoDup (map f (List.filter g l)).
Proof.
  induction l as [|x l IH]; [done|]. cbn [map List.filter].
  intros [Hx Hl]%NoDup_cons. destruct (g x); [|by apply IH].
  cbn [map]. apply NoDup_cons. split; [|by apply IH].
  intros (y & Hy & Hin)%list_elem_of_fmap.
  apply list_elem_of_In, filter_In in Hin as [Hin _].
  apply Hx. rewrite Hy. apply list_elem_of_fmap. exists y.
  by rewrite list_elem_of_In.
Qed.

Lemma NoDup_map_inj {A B} (f : A -> B) l x y :
  NoDup (map f l) -> x ∈ l -> y ∈ l -> f x = f y -> x = y.
Proof.
  induction l as [|z l IH]; [by intros _ ?%elem_of_nil|]. cbn [map].
  intros [Hz Hl]%NoDup_cons [->|Hx]%elem_of_cons [->|Hy]%elem_of_cons Heq;
    [done| | |by apply IH].
  - exfalso. apply Hz. rewrite Heq. by apply list_elem_of_fmap_2.
  - exfalso. apply Hz. rewrite <- Heq. by apply list_elem_of_fmap_2.
Qed.

Lemma timers_fire_frame due : forall s,
  next_timer (fold_left timer_fires due s) = next_timer s
  /\ timers (fold_left timer_fires due s) = timers s.
Proof.
  induction due as [|tm due IH]; intros s; [done|].
  cbn [fold_left]. by destruct (IH (timer_fires s tm)) as [-> ->].
Qed.

Lemma timers_recorded_advance now s :
  timers_recorded s -> timers_recorded (advance now s).
Proof.
  intros (Hnext & Hnd & Hrec). unfold advance.
  set (due := List.filter (fun tm => fires_at tm <=? now) (timers s)).
  set (waiting := List.filter (fun tm => negb (fires_at tm <=? now)) (timers s)).
  set (s0 := {| page_selected := page_selected s;
                dayClickTimeouts := dayClickTimeouts s;
                lastClickTime := lastClickTime s;
                timers := waiting;
                next_timer := next_timer s;
                transitions := transitions s |}).
  assert (Hother : forall tm, tm ∈ waiting ->
            Forall (fun tm' => target tm' <> target tm) due).
  { intros tm Htm. apply Forall_forall. intros tm' Htm' Heq.
    apply list_elem_of_In, filter_In in Htm as [Htm Hw].
    apply list_elem_of_In, filter_In in Htm' as [Htm' Hd].
    assert (tm' = tm) as ->
      by (apply (NoDup_map_inj target (timers s)); by rewrite ?list_elem_of_In).
    by rewrite Hd in Hw. }
  destruct (timers_fire_frame due s0) as [Hn Ht].
  split; [by rewrite Hn|]. rewrite Hn, Ht. cbn [timers next_timer s0].
  split; [by apply NoDup_map_filter|].
  intros tm Htm.
  destruct (timers_fire_other (target tm) due s0 (Hother tm Htm))
    as (_ & -> & _).
  apply Hrec. by apply list_elem_of_In, filter_In in Htm as [?%list_elem_of_In _].
Qed.

Lemma timers_recorded_cleared_click d s tm :
  timers_recorded s ->
  tm ∈ match dayClickTimeouts s !! d with
       | Some existingTimeout =>
           if existingTimeout =? 0 then timers s
           else clearTimeout existingTimeout (timers s)
       | None => timers s
       end ->
  tm ∈ timers s /\ target tm <> d.
Proof.
  intros (Hnext & Hnd & Hrec) Hin.
  destruct (dayClickTimeouts s !! d) as [existing|] eqn:Hmap.
  - destruct (Z.eqb_spec existing 0) as [->|Hne].
    + split; [done|]. intros <-. destruct (Hrec tm Hin) as [Heq Hid].
      rewrite Hmap in Heq. injection Heq as Heq. lia.
    + apply elem_of_clearTimeout in Hin as [Hin Hid]. split; [done|].
      intros <-. destruct (Hrec tm Hin) as [Heq _]. congruence.
  - split; [done|]. intros <-. destruct (Hrec tm Hin) as [Heq _]. congruence.
Qed.

Lemma timers_recorded_click d now s :
  timers_recorded s -> timers_recorded (on_click d now s).
Proof.
  intros Hs. pose proof Hs as (Hnext & Hnd & Hrec). unfold on_click.
  destruct (_ && _); [done|].
  split; [cbn [next_timer]; lia|]. cbn [timers dayClickTimeouts next_timer].
  set (kept := match dayClickTimeouts s !! d with
               | Some existingTimeout =>
                   if existingTimeout =? 0 then timers s
                   else clearTimeout existingTimeout (timers s)
               | None => timers s
               end).
  assert (Hkept : forall tm, tm ∈ kept -> tm ∈ timers s /\ target tm <> d)
    by (intros tm; by apply timers_recorded_cleared_click).
  split.
  - rewrite map_app. apply NoDup_app. split; [|split].
    + unfold kept. destruct (dayClickTimeouts s !! d) as [existing|]; [|done].
      destruct (existing =? 0); [done|]. by apply NoDup_map_filter.
    + intros x (tm & -> & Htm)%list_elem_of_fmap Hd%list_elem_of_singleton.
      by destruct (Hkept tm Htm).
    + apply NoDup_singleton.
  - intros tm [Htm| ->%list_elem_of_singleton]%elem_of_app.
    + destruct (Hkept tm Htm) as [Hin Hd].
      rewrite lookup_insert_ne by done.
      destruct (Hrec tm Hin). split; [done|lia].
    + cbn [target timer_id]. rewrite lookup_insert_eq. split; [done|lia].
Qed.

Lemma timers_recorded_dblclick d s :
  timers_recorded s -> timers_recorded (on_dblclick d s).
Proof.
  intros Hs. pose proof Hs as (Hnext & Hnd & Hrec). unfold on_dblclick.
  destruct (dayClickTimeouts s !! d) as [existing|] eqn:Hmap; [|done].
  destruct (Z.eqb_spec existing 0) as [->|Hne]; [done|].
  split; [done|]. cbn [timers dayClickTimeouts next_timer].
  split; [by apply NoDup_map_filter|].
  intros tm [Hin Hid]%elem_of_clearTimeout.
  destruct (Hrec tm Hin) as [Heq Hrange].
  rewrite lookup_delete_ne; [done|]. intros ->. congruence.
Qed.

(** X22: in every state the page reaches from the page as rendered, by
    any clicks, double clicks and lapses of time, each cell has at most
    one pending timer, and it is the one [dayClickTimeouts] records for
    the cell. *)
Theorem page_keeps_one_timer_per_cell selected events :
  timers_recorded (page_run (page_init selected) events).
Proof.
  assert (Hrun : forall s, timers_recorded s ->
            timers_recorded (page_run s events)).
  { induction events as [|e events IH]; intros s Hs; [done|].
    apply IH. destruct e as [d now|d now|now]; cbn [page_step].
    - by apply timers_recorded_click, timers_recorded_advance.
    - by apply timers_recorded_dblclick, timers_recorded_advance.
    - by apply timers_recorded_advance. }
  apply Hrun. split; [done|]. split; [constructor|].
  by intros tm ?%elem_of_nil.
Qed.


(** ** Schedules and new events *)


Lemma split_app_sep sep a b :
  includes_char sep a = false ->
  split sep (a +:+ String sep b) = a :: split sep b.
Proof.
  induction a as [|c a IH].
  - intros _. change (split sep (String sep b) = "" :: split sep b).
    cbn [split]. by rewrite Ascii.eqb_refl.
  - cbn [includes_char]. intros [Hc Ha]%orb_false_elim.
    change (split sep (String c (a +:+ String sep b))
            = String c a :: split sep b).
    cbn [split]. by rewrite Hc, (IH Ha).
Qed.

Lemma extractDate_of_instant date rest :
  includes_char "T" date = false ->
  extractDate (date +:+ String "T" rest) = date
  /\ hd "" (split "T" (date +:+ String "T" rest)) = date.
Proof.
  intros Hdate. rewrite (split_app_sep "T" date rest Hdate). split; [|done].
  unfold extractDate.
  assert (HT : includes_char "T" (date +:+ String "T" rest) = true).
  { rewrite includes_char_app. cbn [includes_char].
    by rewrite orb_true_r. }
  destruct (is_date_only (date +:+ String "T" rest)) eqn:Honly.
  - apply is_date_only_no_T in Honly. congruence.
  - by rewrite HT, (split_app_sep "T" date rest Hdate).
Qed.

(** X23: the date picked in the schedule panel is read back from the due
    date sent for it: the panel opened again on the task starts on this
    date, and the merger files the task under it, in every time zone. *)
Theorem scheduled_date_reads_back tz now msg due recurring task taskListId :
  scheduleOfMessage true msg = Some (due, recurring) ->
  includes_char "T" (or_default (ScheduleMessage.date msg) "") = false ->
  Task.due task = Some due ->
  currentDue tz now (Some task) = or_default (ScheduleMessage.date msg) ""
  /\ UnifiedItem.dueDate (taskToUnified task taskListId)
     = or_default (ScheduleMessage.date msg) "".
Proof.
  unfold scheduleOfMessage. intros Hmsg Hdate Hdue.
  destruct (ScheduleMessage.type msg); try done.
  destruct (truthy (ScheduleMessage.date msg)) eqn:Htruthy; [|done].
  cbn [andb] in Hmsg. injection Hmsg as <- <-.
  set (date := or_default (ScheduleMessage.date msg) "") in *.
  change (date +:+ "T00:00:00.000Z")
    with (date +:+ String "T" "00:00:00.000Z") in Hdue.
  destruct (extractDate_of_instant date "00:00:00.000Z" Hdate) as [Hext Hhd].
  assert (Hnonempty : truthy (Some (date +:+ String "T" "00:00:00.000Z")) = true).
  { unfold truthy. destruct date; done. }
  split.
  - unfold currentDue. cbn [mbind option_bind]. rewrite Hdue, Hnonempty.
    unfold or_default. unfold truthy in Hnonempty.
    destruct (String.eqb _ ""); [done|]. exact Hhd.
  - unfold taskToUnified. cbn [UnifiedItem.dueDate]. rewrite Hdue.
    unfold or_default. unfold truthy in Hnonempty.
    destruct (String.eqb _ ""); [done|]. exact Hext.
Qed.


Lemma scheduled_date_reads_back_witness :
  currentDue (fixedZone (-300)) saturday_morning (Some scheduled_task)
  = or_default (ScheduleMessage.date sample_schedule) ""
  /\ UnifiedItem.dueDate (taskToUnified scheduled_task "list-a")
     = or_default (ScheduleMessage.date sample_schedule) "".
Proof.
  apply (scheduled_date_reads_back (fixedZone (-300)) saturday_morning
           sample_schedule "2025-10-21T00:00:00.000Z" None scheduled_task
           "list-a"); reflexivity.
Defined.

Lemma toISOString_has_T date s :
  toISOString date = Ok s -> includes_char "T" s = true.
Proof.
  unfold toISOString. destruct date as [t|]; [|done].
  destruct (civil_from_days (Day t)) as [[y m] d]. intros [= <-].
  rewrite !includes_char_app.
  change (includes_char "T" "T") with true.
  by rewrite !orb_true_r.
Qed.

Lemma instant_not_date_only date s :
  toISOString date = Ok s -> is_date_only s = false.
Proof.
  intros HT%toISOString_has_T. destruct (is_date_only s) eqn:Honly; [|done].
  apply is_date_only_no_T in Honly. congruence.
Qed.

(** X24: for an all-day form the event [createEvent] builds has its start
    and its end in the [date] fields, without [dateTime]; they hold the
    serialised instants of the form's local time and of one hour later,
    which are not of the form YYYY-MM-DD. *)
Theorem all_day_form_event_body tz formData times :
  formTimes tz formData = Ok times ->
  FormData.isAllDay formData = true ->
  let body := createEvent_body (of_form_event (formEvent formData times)) in
  CalendarEvent.start (EventBody.event body)
  = Some {| CalendarEvent.dateTime := None; CalendarEvent.date := Some times.1 |}
  /\ EventBody.end_ body
     = {| CalendarEvent.dateTime := None; CalendarEvent.date := Some times.2 |}
  /\ is_date_only times.1 = false /\ is_date_only times.2 = false.
Proof.
  intros Htimes Hall. unfold createEvent_body, of_form_event, formEvent.
  cbn [CreateEventData.isAllDay CreateEventData.startDate CreateEventData.endDate
       EventData.isAllDay EventData.startDate EventData.endDate
       EventBody.event EventBody.end_ CalendarEvent.start].
  rewrite Hall. rewrite bool_decide_true by done.
  split; [done|]. split; [done|].
  unfold formTimes in Htimes.
  destruct (toISOString (Date_parse _ _)) as [startTime|] eqn:Hstart; [|done].
  cbn [mbind result_bind] in Htimes.
  destruct (toISOString (_ ≫= _)) as [endTime|] eqn:Hend; [|done].
  cbn [mbind result_bind] in Htimes. injection Htimes as <-. cbn [fst snd].
  split; by eapply instant_not_date_only.
Qed.

Lemma all_day_form_event_body_witness :
  let times := ("2025-10-21T05:00:00.000Z", "2025-10-21T06:00:00.000Z") in
  let body :=
    createEvent_body
      (of_form_event (formEvent (all_day_form "Offsite" "2025-10-21") times)) in
  CalendarEvent.start (EventBody.event body)
  = Some {| CalendarEvent.dateTime := None; CalendarEvent.date := Some times.1 |}
  /\ EventBody.end_ body
     = {| CalendarEvent.dateTime := None; CalendarEvent.date := Some times.2 |}
  /\ is_date_only times.1 = false /\ is_date_only times.2 = false.
Proof.
  apply (all_day_form_event_body (fixedZone (-300))
           (all_day_form "Offsite" "2025-10-21")
           ("2025-10-21T05:00:00.000Z", "2025-10-21T06:00:00.000Z"));
    [by vm_compute|reflexivity].
Defined.

(** X25: the command that clears a schedule changes no field of the
    provider and makes at most one call: the patch of the task of the
    node, in its list, that sets [due] to null and nothing else; and it
    makes it only when the task has an id and a due date and the user has
    chosen "Clear". *)
Theorem clearTaskSchedule_only_clears w node s :
  let r := exec w (clearTaskSchedule node) (start s) in
  state r = s
  /\ (calls r = []
      \/ calls r
         = [Facade.tasks_patch (GTask.taskListId node)
              (or_default (Task.id (GTask.task node)) "")
              {| TaskBody.title := None; TaskBody.due := Some None;
                 TaskBody.notes := None; TaskBody.description := None |}]
         /\ choose w "Clear this task schedule?" ["Clear"; "Cancel"] = Some "Clear"
         /\ truthy (Task.id (GTask.task node)) = true
         /\ truthy (Task.due (GTask.task node)) = true).
Proof.
  unfold clearTaskSchedule.
  destruct (truthy (Task.id (GTask.task node)));
    [|cbn; split; [done|by left]].
  destruct (truthy (Task.due (GTask.task node)));
    [|cbn; split; [done|by left]].
  cbn [negb exec].
  destruct (decide (choose w "Clear this task schedule?" ["Clear"; "Cancel"]
                    = Some "Clear")) as [Hc|Hc].
  - rewrite bool_decide_true by done. cbn [negb exec]. unfold patchTask.
    cbn [exec run_note run_dialog start state].
    destruct (service s); cbn [exec]; [|cbn; split; [done|by left]].
    destruct (answer w _); cbn; (split; [done|]); by right.
  - rewrite bool_decide_false by done. cbn. split; [done|by left].
Qed.
